(** * Fit results and systematic toys: a shallow embedding

    The Python sources embedded here are
    - [analysis/fit/result.py]      (class [FitResult] and its decorators),
    - [analysis/toys/systematics.py] ([Systematic.get_dataset], [make_block]),
    - [analysis/toys/syst_toys.py]   (the sampling-fit loop of [run], [main]),
    - [analysis/data/mergers.py]     ([merge], [merge_root]).

    Python objects are modelled by the inductive type [value]; dictionaries
    that are handed from one piece of code to another live in a store of
    cells, so that two names for one dictionary see each other's writes. *)

From Stdlib Require Import Floats ZArith Bool.
From stdpp Require Import gmap strings list.

#[local] Set Warnings "-register-all".
Local Open Scope string_scope.
Local Open Scope Z_scope.

(** ** Python values *)

(** Floats are IEEE binary64, as Python's are.  A [VArray] is a one-dimensional
    float64 [numpy.ndarray]; a [VMatrix] is a [numpy.matrix] in row-major order.
    A [VDict] lists the items of a [dict] or [OrderedDict] in insertion order. *)
Inductive value : Type :=
| VNone
| VBool (b : bool)
| VInt (z : Z)
| VFloat (f : float)
| VStr (s : string)
| VTuple (l : list value)
| VList (l : list value)
| VArray (l : list float)
| VMatrix (nrows ncols : nat) (l : list float)
| VDict (items : list (string * value)).

Abbreviation dict := (list (string * value)).

(** The exception classes the code raises or lets through.  Messages are not
    modelled.  [KeyboardInterrupt] and [SystemExit] derive from [BaseException]
    only; every other class derives from [Exception]. *)
Inductive exn : Type :=
| KeyError
| IndexError
| ValueError
| TypeError
| AttributeError
| OSError
| RuntimeError
| ZeroDivisionError
| ConfigError (missing_keys : list string)
| NotInitializedError
| AlreadyInitializedError
| NameError
| KeyboardInterrupt
| SystemExit.

(** A computation returns, raises, or is [Stuck]: it reads a location that
    holds no object, or asks numpy for something outside the fragment
    described below.  No theorem counts [Stuck] as a result of the code. *)
Inductive outcome (A : Type) : Type :=
| Ret (a : A)
| Raise (e : exn)
| Stuck.
Arguments Ret {A} a.
Arguments Raise {A} e.
Arguments Stuck {A}.

Definition obind {A B} (o : outcome A) (k : A -> outcome B) : outcome B :=
  match o with
  | Ret a => k a
  | Raise e => Raise e
  | Stuck => Stuck
  end.

Declare Scope outcome_scope.
Delimit Scope outcome_scope with outcome.
Notation "'let?' x ':=' c 'in' k" := (obind c (fun x => k))
  (at level 10, x pattern, c at level 100, k at level 200) : outcome_scope.

(** ** Dictionaries *)

Module Dict.

Fixpoint get (k : string) (d : dict) : option value :=
  match d with
  | [] => None
  | (k', v) :: d' => if String.eqb k k' then Some v else get k d'
  end.

(** [d[k] = v]: an existing key keeps its position. *)
Fixpoint set (k : string) (v : value) (d : dict) : dict :=
  match d with
  | [] => [(k, v)]
  | (k', v') :: d' =>
      if String.eqb k k' then (k, v) :: d' else (k', v') :: set k v d'
  end.

Definition keys (d : dict) : list string := d.*1.
Definition values (d : dict) : list value := d.*2.

Definition mem (k : string) (d : dict) : bool :=
  match get k d with Some _ => true | None => false end.

(** [OrderedDict(pairs)] and [d.update(pairs)]. *)
Definition update (d : dict) (pairs : list (string * value)) : dict :=
  foldl (fun acc kv => set kv.1 kv.2 acc) d pairs.

Definition of_pairs (pairs : list (string * value)) : dict := update [] pairs.

(** [set(d.keys()).issuperset(required)] *)
Definition keys_issuperset (d : dict) (required : list string) : bool :=
  forallb (fun k => mem k d) required.

End Dict.

(** ** Python's generic operations on values *)

(** [obj[key]] for a string key. *)
Definition getitem (obj : value) (key : string) : outcome value :=
  match obj with
  | VDict d => match Dict.get key d with Some v => Ret v | None => Raise KeyError end
  | VArray _ | VMatrix _ _ _ => Raise IndexError
  | _ => Raise TypeError
  end.

(** [obj[key] = v] for a string key; the result is the updated object. *)
Definition setitem (obj : value) (key : string) (v : value) : outcome value :=
  match obj with
  | VDict d => Ret (VDict (Dict.set key v d))
  | VArray _ | VMatrix _ _ _ => Raise IndexError
  | _ => Raise TypeError
  end.

(** [obj[0]] *)
Definition getitem0 (obj : value) : outcome value :=
  match obj with
  | VTuple l | VList l => match l with x :: _ => Ret x | [] => Raise IndexError end
  | VStr s => match s with String c _ => Ret (VStr (String c "")) | EmptyString => Raise IndexError end
  | VArray l => match l with x :: _ => Ret (VFloat x) | [] => Raise IndexError end
  | VMatrix r c l => if (r =? 0)%nat then Raise IndexError else Ret (VMatrix 1 c (take c l))
  | VDict _ => Raise KeyError
  | _ => Raise TypeError
  end.

(** The methods [keys], [values], [items] and [get] exist on dictionaries only. *)
Definition as_dict (obj : value) : outcome dict :=
  match obj with
  | VDict d => Ret d
  | _ => Raise AttributeError
  end.

(** [len(obj)] *)
Definition len (obj : value) : outcome nat :=
  match obj with
  | VStr s => Ret (String.length s)
  | VTuple l | VList l => Ret (length l)
  | VArray l => Ret (length l)
  | VMatrix r _ _ => Ret r
  | VDict d => Ret (length d)
  | _ => Raise TypeError
  end.

Fixpoint chars (s : string) : list value :=
  match s with
  | EmptyString => []
  | String c s' => VStr (String c "") :: chars s'
  end.

Fixpoint rows_of (r c : nat) (l : list float) : list (list float) :=
  match r with
  | O => []
  | S r' => take c l :: rows_of r' c (drop c l)
  end.

(** The elements [obj] yields when iterated over. *)
Definition iterate (obj : value) : outcome (list value) :=
  match obj with
  | VTuple l | VList l => Ret l
  | VStr s => Ret (chars s)
  | VArray l => Ret (VFloat <$> l)
  | VMatrix r c l => Ret (VMatrix 1 c <$> rows_of r c l)
  | VDict d => Ret (VStr <$> Dict.keys d)
  | _ => Raise TypeError
  end.

(** Truth value testing.  An array of more than one element has none. *)
Definition truthy_float (f : float) : bool := negb (PrimFloat.eqb f 0%float).

Definition truthy_array (l : list float) : outcome bool :=
  match l with
  | [] => Ret false
  | [x] => Ret (truthy_float x)
  | _ => Raise ValueError
  end.

Definition truthy (obj : value) : outcome bool :=
  match obj with
  | VNone => Ret false
  | VBool b => Ret b
  | VInt z => Ret (negb (z =? 0))
  | VFloat f => Ret (truthy_float f)
  | VStr s => Ret (negb (String.eqb s ""))
  | VTuple l | VList l => Ret (negb (bool_decide (length l = 0%nat)))
  | VArray l | VMatrix _ _ l => truthy_array l
  | VDict d => Ret (negb (bool_decide (length d = 0%nat)))
  end.

(** [any(x for x in xs)]: stops at the first true element. *)
Fixpoint py_any (xs : list value) : outcome bool :=
  match xs with
  | [] => Ret false
  | x :: xs' =>
      (let? b := truthy x in
       if b then Ret true else py_any xs')%outcome
  end.

(** [obj == 3].  Comparing an array gives an array, which is left out. *)
Definition eq_3 (obj : value) : outcome bool :=
  match obj with
  | VBool _ => Ret false
  | VInt z => Ret (z =? 3)
  | VFloat f => Ret (PrimFloat.eqb f 3%float)
  | VArray _ | VMatrix _ _ _ => Stuck
  | _ => Ret false
  end.

(** ** The fragment of numpy the code uses *)

Module np.

Fixpoint floats (l : list value) : option (list float) :=
  match l with
  | [] => Some []
  | VFloat f :: l' => cons f <$> floats l'
  | _ => None
  end.

(** [np.array(obj)] on a flat list of floats; numpy's conversions of other
    arguments are outside the embedding. *)
Definition array (obj : value) : outcome (list float) :=
  match obj with
  | VList l => match floats l with Some fl => Ret fl | None => Stuck end
  | VArray fl => Ret fl
  | _ => Stuck
  end.

(** [np.asmatrix(a.reshape(r, c))] for a one-dimensional [a]. *)
Definition reshape_asmatrix (a : list float) (r c : nat) : outcome value :=
  if bool_decide (length a = (r * c)%nat) then Ret (VMatrix r c a)
  else Raise ValueError.

(** [m.getA1()], a method of [numpy.matrix] only. *)
Definition getA1 (m : value) : outcome value :=
  match m with
  | VMatrix _ _ l => Ret (VArray l)
  | _ => Raise AttributeError
  end.

(** [np.matrix(rows)] for a list of equally long rows of floats. *)
Definition matrix (ncols : nat) (rows : list (list float)) : value :=
  match rows with
  | [] => VMatrix 1 0 []
  | _ => VMatrix (length rows) ncols (concat rows)
  end.

End np.

(** ** The store and the monad of methods *)

Definition loc := nat.

(** A [FitResult] object: [_result] is [None] or refers to a dictionary. *)
Record FitResult : Type := { _result : option loc }.

(** [heap] holds the dictionaries that are passed around by reference (the
    sub-dictionaries of a record are kept inside their parent's cell);
    [files] maps a path to the mapping its YAML file holds; [rng] is the
    state of numpy's global generator; [self] is the object under study. *)
Record state : Type := mkState {
  heap : gmap loc dict;
  files : gmap string dict;
  rng : N;
  self : FitResult;
}.

(** Code that reads and writes a state of type [S] and may raise.  A write made
    before an exception is raised stays made. *)
Definition ST (S A : Type) : Type := S -> outcome A * S.

Definition ret {S A} (a : A) : ST S A := fun s => (Ret a, s).
Definition raise {S A} (e : exn) : ST S A := fun s => (Raise e, s).
Definition lift {S A} (o : outcome A) : ST S A := fun s => (o, s).

Definition bind {S A B} (m : ST S A) (k : A -> ST S B) : ST S B :=
  fun s =>
    match m s with
    | (Ret a, s') => k a s'
    | (Raise e, s') => (Raise e, s')
    | (Stuck, s') => (Stuck, s')
    end.

(** [try: body / except ...: handler]; the handler re-raises what it does not catch. *)
Definition try_except {S A} (body : ST S A) (handler : exn -> ST S A) : ST S A :=
  fun s =>
    match body s with
    | (Raise e, s') => handler e s'
    | r => r
    end.

Abbreviation M := (ST state).

Declare Scope py_scope.
Delimit Scope py_scope with py.
Notation "x <- c ;; k" := (bind c (fun x => k))
  (at level 100, c at next level, right associativity) : py_scope.
Notation "c ;; k" := (bind c (fun _ => k))
  (at level 100, right associativity) : py_scope.
Local Open Scope py_scope.

Definition deref (l : loc) : M dict :=
  fun s => match heap s !! l with
           | Some d => (Ret d, s)
           | None => (Stuck, s)
           end.

Definition store (l : loc) (d : dict) : M unit :=
  fun s => (Ret tt, mkState (<[l := d]> (heap s)) (files s) (rng s) (self s)).

Definition alloc (d : dict) : M loc :=
  fun s => let l := fresh (dom (heap s)) in
           (Ret l, mkState (<[l := d]> (heap s)) (files s) (rng s) (self s)).

(** The combination [obj[k1][k2] = v]: the inner dictionary is updated in place. *)
Definition setitem_in (obj : value) (k1 k2 : string) (v : value) : outcome value :=
  (let? inner := getitem obj k1 in
   let? inner' := setitem inner k2 v in
   setitem obj k1 inner')%outcome.

(** [d.get(k, default)] *)
Definition get_default (d : dict) (k : string) (default : value) : value :=
  match Dict.get k d with Some v => v | None => default end.

Fixpoint mapM {A B} (f : A -> outcome B) (l : list A) : outcome (list B) :=
  match l with
  | [] => Ret []
  | x :: l' => (let? y := f x in let? ys := mapM f l' in Ret (y :: ys))%outcome
  end.

(** ** The fit engine's result object *)

Record RooRealVar : Type := {
  GetName : string;
  getVal : float;
  getError : float;
  getErrorLo : float;
  getErrorHi : float;
}.

Record TMatrixDSym : Type := {
  GetNrows : nat;
  GetNcols : nat;
  entry : nat -> nat -> float;
}.

(** [statusHistory] lists [(statusLabelHistory(cycle), statusCodeHistory(cycle))]
    for [cycle] below [numStatusHistory()]. *)
Record RooFitResult : Type := {
  constPars : list RooRealVar;
  floatParsFinal : list RooRealVar;
  floatParsInit : list RooRealVar;
  covarianceMatrix : TMatrixDSym;
  covQual : Z;
  statusHistory : list (string * Z);
  edm : float;
}.

(** ** [analysis/fit/result.py] *)

Module result.
Section FitResult.

(** [analysis.utils.paths.get_fit_result_path] and numpy's sampler
    [np.random.multivariate_normal(mean, cov)], which reads and advances the
    generator's state, come from outside the repository's sources. *)
Variable get_fit_result_path : string -> string.
Variable multivariate_normal : list value -> value -> N -> outcome (list value) * N.

Definition _SUFFIXES : list string := [""; "_err_hesse"; "_err_plus"; "_err_minus"].

Definition get_result : M (option loc) := fun s => (Ret (_result (self s)), s).

Definition set_result (l : loc) : M unit :=
  fun s => (Ret tt, mkState (heap s) (files s) (rng s) {| _result := Some l |}).

(** The truth value of [self.get_result()]: [None] is false, a dictionary is
    true unless it is empty. *)
Definition truthy_result (r : option loc) : M bool :=
  match r with
  | None => ret false
  | Some l => d <- deref l ;; lift (truthy (VDict d))
  end.

(** [self._result] read as a value. *)
Definition self_result : M value :=
  r <- get_result ;;
  match r with
  | None => ret VNone
  | Some l => d <- deref l ;; ret (VDict d)
  end.

Definition ensure_initialized {A} (method : M A) : M A :=
  r <- get_result ;;
  b <- truthy_result r ;;
  if negb b then raise NotInitializedError else method.

Definition ensure_non_initialized {A} (method : M A) : M A :=
  r <- get_result ;;
  b <- truthy_result r ;;
  if b then raise AlreadyInitializedError else method.

Definition matrix_rows (m : TMatrixDSym) : list (list float) :=
  (fun row => (fun col => entry m row col) <$> seq 0 (GetNcols m)) <$> seq 0 (GetNrows m).

Definition from_roofit_body (roofit_result : RooFitResult) : M unit :=
  let result : dict := [] in
  let result := Dict.set "const-parameters"
    (VDict (Dict.of_pairs
       ((fun fit_par => (GetName fit_par, VFloat (getVal fit_par)))
          <$> constPars roofit_result))) result in
  let result := Dict.set "fit-parameters"
    (VDict (Dict.of_pairs
       ((fun fit_par => (GetName fit_par,
                         VTuple [VFloat (getVal fit_par);
                                 VFloat (getError fit_par);
                                 VFloat (getErrorLo fit_par);
                                 VFloat (getErrorHi fit_par)]))
          <$> floatParsFinal roofit_result))) result in
  let result := Dict.set "fit-parameters-initial"
    (VDict (Dict.of_pairs
       ((fun fit_par => (GetName fit_par, VFloat (getVal fit_par)))
          <$> floatParsInit roofit_result))) result in
  let covariance_matrix := covarianceMatrix roofit_result in
  let cov_matrix : dict :=
    [("quality", VInt (covQual roofit_result));
     ("matrix", np.matrix (GetNcols covariance_matrix) (matrix_rows covariance_matrix))] in
  let result := Dict.set "covariance-matrix" (VDict cov_matrix) result in
  let result := Dict.set "status"
    (VDict (Dict.of_pairs
       ((fun cycle => (cycle.1, VInt cycle.2)) <$> statusHistory roofit_result))) result in
  let result := Dict.set "edm" (VFloat (edm roofit_result)) result in
  l <- alloc result ;;
  set_result l.

Definition from_roofit (roofit_result : RooFitResult) : M unit :=
  ensure_non_initialized (from_roofit_body roofit_result).

(** The argument is a reference: the matrix is written into the caller's
    dictionary, and that same dictionary becomes [self._result]. *)
Definition from_yaml_body (yaml_dict : loc) : M unit :=
  d <- deref yaml_dict ;;
  if negb (Dict.keys_issuperset d
             ["fit-parameters"; "fit-parameters-initial"; "const-parameters";
              "covariance-matrix"; "status"])
  then raise KeyError
  else
    cov <- lift (getitem (VDict d) "covariance-matrix") ;;
    cov_d <- lift (as_dict cov) ;;
    if negb (Dict.keys_issuperset cov_d ["quality"; "matrix"])
    then raise KeyError
    else
      flat <- lift (getitem cov "matrix") ;;
      arr <- lift (np.array flat) ;;
      fit_parameters <- lift (getitem (VDict d) "fit-parameters") ;;
      nrows <- lift (len fit_parameters) ;;
      ncols <- lift (len fit_parameters) ;;
      m <- lift (np.reshape_asmatrix arr nrows ncols) ;;
      d' <- lift (setitem_in (VDict d) "covariance-matrix" "matrix" m) ;;
      d' <- lift (as_dict d') ;;
      store yaml_dict d' ;;
      set_result yaml_dict.

Definition from_yaml (yaml_dict : loc) : M unit :=
  ensure_non_initialized (from_yaml_body yaml_dict).

Fixpoint has_path (path : list string) (cfg : value) : bool :=
  match path with
  | [] => true
  | k :: path' =>
      match cfg with
      | VDict d => match Dict.get k d with
                   | Some v => has_path path' v
                   | None => false
                   end
      | _ => false
      end
  end.

Fixpoint join_path (path : list string) : string :=
  match path with
  | [] => ""
  | [k] => k
  | k :: path' => k ++ "/" ++ join_path path'
  end.

(** Modelled from the spec: [analysis.utils.config.load_config] is not among
    the sources.  The spec and the docstrings of its callers say: a file that
    cannot be found is an [OSError]; a missing required field is a load-time
    failure that enumerates the absent keys ([ConfigError.missing_keys]);
    otherwise the file's mapping is returned. *)
Definition load_config (path : string) (validate : list (list string)) : M dict :=
  fun s =>
    match files s !! path with
    | None => (Raise OSError, s)
    | Some cfg =>
        match List.filter (fun p => negb (has_path p (VDict cfg))) validate with
        | [] => (Ret cfg, s)
        | missing => (Raise (ConfigError (join_path <$> missing)), s)
        end
    end.

Definition from_yaml_file_body (name : string) : M unit :=
  try_except
    (cfg <- load_config (get_fit_result_path name)
              [["fit-parameters"]; ["fit-parameters-initial"]; ["const-parameters"];
               ["covariance-matrix"; "quality"]; ["covariance-matrix"; "matrix"];
               ["status"]] ;;
     l <- alloc cfg ;;
     set_result l)
    (fun error =>
       match error with
       | ConfigError _ => raise KeyError
       | _ => raise error
       end).

Definition from_yaml_file (name : string) : M unit :=
  ensure_non_initialized (from_yaml_file_body name).

Definition from_hdf (name : string) : M unit :=
  ensure_non_initialized (ret tt).

Definition to_yaml_body : M value :=
  v <- self_result ;;
  let result := v in
  cov <- lift (getitem v "covariance-matrix") ;;
  m <- lift (getitem cov "matrix") ;;
  a1 <- lift (np.getA1 m) ;;
  lift (setitem_in result "covariance-matrix" "matrix" a1).

(** [copy.deepcopy] of a tree of values is that tree; the value returned is
    not a cell of the store, so no later write to the store reaches it. *)
Definition to_yaml : M value := ensure_initialized to_yaml_body.

(** The pairs [(param_name + suffix, val) for val, suffix in zip(param, _SUFFIXES)]. *)
Definition param_columns (param_name : string) (param : value)
  : outcome (list (string * value)) :=
  (let? vals := iterate param in
   Ret ((fun vs => (param_name ++ vs.2, vs.1)) <$> zip vals _SUFFIXES))%outcome.

Fixpoint fit_columns (items : dict) : outcome (list (string * value)) :=
  match items with
  | [] => Ret []
  | (param_name, param) :: items' =>
      (let? cols := param_columns param_name param in
       let? rest := fit_columns items' in
       Ret (cols ++ rest)%list)%outcome
  end.

Definition to_plain_dict_body (skip_cov : bool) : M dict :=
  v <- self_result ;;
  fit_parameters <- lift (getitem v "fit-parameters") ;;
  fit_items <- lift (as_dict fit_parameters) ;;
  cols <- lift (fit_columns fit_items) ;;
  let pandas_dict := Dict.of_pairs cols in
  const_parameters <- lift (getitem v "const-parameters") ;;
  const_items <- lift (as_dict const_parameters) ;;
  let pandas_dict := Dict.update pandas_dict (Dict.of_pairs const_items) in
  status <- lift (getitem v "status") ;;
  status <- lift (as_dict status) ;;
  let pandas_dict := Dict.set "status_migrad" (get_default status "MIGRAD" (VInt (-1))) pandas_dict in
  let pandas_dict := Dict.set "status_hesse" (get_default status "HESSE" (VInt (-1))) pandas_dict in
  let pandas_dict := Dict.set "status_minos" (get_default status "MINOS" (VInt (-1))) pandas_dict in
  cov <- lift (getitem v "covariance-matrix") ;;
  quality <- lift (getitem cov "quality") ;;
  let pandas_dict := Dict.set "cov_quality" quality pandas_dict in
  edm <- lift (getitem v "edm") ;;
  let pandas_dict := Dict.set "edm" edm pandas_dict in
  if negb skip_cov then
    m <- lift (getitem cov "matrix") ;;
    a1 <- lift (np.getA1 m) ;;
    ret (Dict.set "cov_matrix" a1 pandas_dict)
  else ret pandas_dict.

Definition to_plain_dict (skip_cov : bool) : M dict :=
  ensure_initialized (to_plain_dict_body skip_cov).

Definition get_fit_parameter (name : string) : M value :=
  ensure_initialized
    (v <- self_result ;;
     fit_parameters <- lift (getitem v "fit-parameters") ;;
     lift (getitem fit_parameters name)).

Definition get_const_parameter (name : string) : M value :=
  ensure_initialized
    (v <- self_result ;;
     const_parameters <- lift (getitem v "const-parameters") ;;
     lift (getitem const_parameters name)).

Definition get_fit_parameters : M value :=
  ensure_initialized
    (v <- self_result ;; lift (getitem v "fit-parameters")).

Definition get_covariance_matrix : M value :=
  ensure_initialized
    (v <- self_result ;;
     cov <- lift (getitem v "covariance-matrix") ;;
     lift (getitem cov "matrix")).

Definition get_edm : M value :=
  ensure_initialized
    (v <- self_result ;; lift (getitem v "edm")).

(** [not any(...) and quality == 3]: the right operand is evaluated only
    when no status is true. *)
Definition has_converged_body : M bool :=
  v <- self_result ;;
  status <- lift (getitem v "status") ;;
  status <- lift (as_dict status) ;;
  some_status <- lift (py_any (Dict.values status)) ;;
  if some_status then ret false
  else
    cov <- lift (getitem v "covariance-matrix") ;;
    quality <- lift (getitem cov "quality") ;;
    lift (eq_3 quality).

Definition has_converged : M bool := ensure_initialized has_converged_body.

Definition draw (mean : list value) (cov : value) : M (list value) :=
  fun s =>
    let '(o, g) := multivariate_normal mean cov (rng s) in
    (o, mkState (heap s) (files s) g (self s)).

Definition generate_random_pars_body (include_const : bool) : M dict :=
  v <- self_result ;;
  fit_parameters <- lift (getitem v "fit-parameters") ;;
  fit_items <- lift (as_dict fit_parameters) ;;
  mean <- lift (mapM getitem0 (Dict.values fit_items)) ;;
  cov <- lift (getitem v "covariance-matrix") ;;
  m <- lift (getitem cov "matrix") ;;
  sample <- draw mean m ;;
  let output := Dict.of_pairs (zip (Dict.keys fit_items) sample) in
  if include_const then
    const_parameters <- lift (getitem v "const-parameters") ;;
    const_items <- lift (as_dict const_parameters) ;;
    ret (Dict.update output const_items)
  else ret output.

Definition generate_random_pars (include_const : bool) : M dict :=
  ensure_initialized (generate_random_pars_body include_const).

(** *** The operations, as data *)

Inductive populate_op : Type :=
| FromRoofit (roofit_result : RooFitResult)
| FromYaml (yaml_dict : loc)
| FromYamlFile (name : string)
| FromHdf (name : string).

Inductive read_op : Type :=
| ToYaml
| ToPlainDict (skip_cov : bool)
| GetFitParameter (name : string)
| GetConstParameter (name : string)
| GetFitParameters
| GetCovarianceMatrix
| GetEdm
| HasConverged
| GenerateRandomPars (include_const : bool).

Definition populate (p : populate_op) : M unit :=
  match p with
  | FromRoofit r => from_roofit r
  | FromYaml l => from_yaml l
  | FromYamlFile name => from_yaml_file name
  | FromHdf name => from_hdf name
  end.

Definition read (r : read_op) : M value :=
  match r with
  | ToYaml => to_yaml
  | ToPlainDict skip_cov => d <- to_plain_dict skip_cov ;; ret (VDict d)
  | GetFitParameter name => get_fit_parameter name
  | GetConstParameter name => get_const_parameter name
  | GetFitParameters => get_fit_parameters
  | GetCovarianceMatrix => get_covariance_matrix
  | GetEdm => get_edm
  | HasConverged => b <- has_converged ;; ret (VBool b)
  | GenerateRandomPars include_const => d <- generate_random_pars include_const ;; ret (VDict d)
  end.

End FitResult.
End result.


(** ** [analysis/toys/systematics.py] *)

Module systematics.

(** *** [make_block] *)

(** A two-dimensional float64 array of shape [(shape0, shape1)], row by row. *)
Record ndarray : Type := { shape0 : nat; shape1 : nat; rows : list (list float) }.

(** [a[i, j]] *)
Definition item (a : ndarray) (i j : nat) : option float :=
match rows a !! i with
| Some r => r !! j
| None => None
end.

(** [np.zeros(dimensions)] *)
Definition zeros (dimensions : nat * nat) : ndarray :=
{| shape0 := dimensions.1;
   shape1 := dimensions.2;
   rows := replicate dimensions.1 (replicate dimensions.2 0%float) |}.

(** [output_mat[row:row+mat.shape[0], column:column+mat.shape[1]] = mat] for a
    slice that lies inside [output_mat], so that it has the shape of [mat].
    What numpy does with a clipped slice (broadcast or raise) is left out. *)
Definition assign_slice (output_mat : ndarray) (row column : nat) (mat : ndarray)
  : outcome ndarray :=
if bool_decide (row + shape0 mat <= shape0 output_mat
                /\ column + shape1 mat <= shape1 output_mat)%nat
then
  Ret {| shape0 := shape0 output_mat;
         shape1 := shape1 output_mat;
         rows :=
           imap (fun i r =>
                   if bool_decide (row <= i < row + shape0 mat)%nat
                   then imap (fun j x =>
                                if bool_decide (column <= j < column + shape1 mat)%nat
                                then default x (item mat (i - row) (j - column))
                                else x) r
                   else r)
                (rows output_mat) |}
else Stuck.

(** The [for mat in matrices] loop, from the current [row] and [column]. *)
Fixpoint fill (output_mat : ndarray) (row column : nat) (matrices : list ndarray)
  : outcome ndarray :=
match matrices with
| [] => Ret output_mat
| mat :: matrices' =>
    (let? output_mat := assign_slice output_mat row column mat in
     fill output_mat (row + shape0 mat) (column + shape1 mat) matrices')%outcome
end.

Definition make_block (matrices : list ndarray) : outcome ndarray :=
let dimensions := (sum_list_with shape0 matrices, sum_list_with shape1 matrices) in
let output_mat := zeros dimensions in
let row := 0%nat in
let column := 0%nat in
fill output_mat row column matrices.

(** An array whose rows agree with its shape. *)
Definition well_shaped (a : ndarray) : Prop :=
length (rows a) = shape0 a /\ Forall (fun r => length r = shape1 a) (rows a).

(** Where the [k]-th block starts. *)
Definition row_offset (matrices : list ndarray) (k : nat) : nat :=
sum_list_with shape0 (take k matrices).
Definition column_offset (matrices : list ndarray) (k : nat) : nat :=
sum_list_with shape1 (take k matrices).

(** [(i, j)] lies in the [k]-th diagonal block. *)
Definition in_block (matrices : list ndarray) (k i j : nat) : Prop :=
exists mat, matrices !! k = Some mat
  /\ (row_offset matrices k <= i < row_offset matrices k + shape0 mat)%nat
  /\ (column_offset matrices k <= j < column_offset matrices k + shape1 mat)%nat.

(** *** The accept-reject loop of [Systematic.get_dataset] *)

Section AcceptReject.

(** A data frame is the list of its rows.  The generator's state is threaded
    through the calls that draw from it.  [generate n] stands for
    [pandas_from_dataset(pdf.generate(obs, n))], [sample events n] for
    [events.sample(n)], and [dataframe_truth] for the truth value pandas gives
    a data frame; all of them come from outside the sources. *)
Variable event : Type.
Variable generate : nat -> ST N (list event).
Variable apply_accept_reject : list event -> ST N (list event).
Variable sample : list event -> nat -> ST N (list event).
Variable dataframe_truth : list event -> outcome bool.

(** [not pandas_dataset] *)
Definition not_dataset (pandas_dataset : option (list event)) : outcome bool :=
match pandas_dataset with
| None => Ret true
| Some df => (let? b := dataframe_truth df in Ret (negb b))%outcome
end.

(** One pass through the body of [while yield_to_generate:]. *)
Definition loop_body (yield_to_generate : nat) (pandas_dataset : option (list event))
  : ST N (option (list event)) :=
(generated <- generate (yield_to_generate * 2)%nat ;;
 events <- apply_accept_reject generated ;;
 events <- (if (yield_to_generate <? length events)%nat
            then sample events yield_to_generate
            else ret events) ;;
 fresh_dataset <- lift (not_dataset pandas_dataset) ;;
 if (fresh_dataset : bool) then ret (Some events)
 else ret (Some (default [] pandas_dataset ++ events)%list))%py.

(** The loop, run for at most [fuel] tests of its condition; [None] when the
    fuel runs out before the loop is left. *)
Fixpoint accept_reject_loop (fuel : nat) (yield_to_generate : nat)
    (pandas_dataset : option (list event)) (g : N)
  : option (outcome (option (list event)) * N) :=
match fuel with
| O => None
| S fuel' =>
    if (yield_to_generate =? 0)%nat then Some (Ret pandas_dataset, g)
    else
      match loop_body yield_to_generate pandas_dataset g with
      | (Ret pandas_dataset', g') =>
          accept_reject_loop fuel' yield_to_generate pandas_dataset' g'
      | (Raise e, g') => Some (Raise e, g')
      | (Stuck, g') => Some (Stuck, g')
      end
end.

End AcceptReject.

(** pandas gives no truth value to a data frame: [bool(df)] raises [ValueError]. *)
Definition pandas_truth {event : Type} (df : list event) : outcome bool := Raise ValueError.

End systematics.


(** ** [analysis/toys/syst_toys.py] *)

Module syst_toys.

(** [except Exception] catches every class but those deriving from
    [BaseException] alone. *)
Definition is_Exception (e : exn) : bool :=
match e with
| KeyboardInterrupt | SystemExit => false
| _ => true
end.

Inductive model : Type := fit_model | randomizer_model.

(** [d.pop(k)] *)
Fixpoint pop (k : string) (d : dict) : option (value * dict) :=
match d with
| [] => None
| (k', v) :: d' =>
    if String.eqb k k' then Some (v, d')
    else match pop k d' with
         | Some (x, d'') => Some (x, (k', v) :: d'')
         | None => None
         end
end.

(** [obj.pop(key)] on a value; the object after the call comes with the result. *)
Definition pop_value (obj : value) (key : string) : outcome (value * value) :=
match obj with
| VDict d => match pop key d with
             | Some (x, d') => Ret (x, VDict d')
             | None => Raise KeyError
             end
| VList _ => Raise TypeError
| _ => Raise AttributeError
end.

(** ['{}_rand' % res_name]: the format holds no conversion specifier and
    [res_name], a key of a flat record, is a string, so Python raises
    "not all arguments converted during string formatting". *)
Definition percent_format (format res_name : string) : outcome string := Raise TypeError.

(** [os.path.join(a, b, c)] for relative components. *)
Definition path_join (a b c : string) : string := a ++ "/" ++ b ++ "/" ++ c.

(** ROOT objects (datasets, raw fit results) and the objects wrapping them
    are known to this code by reference only. *)
Definition handle := nat.

Inductive root_object : Type :=
| ODataset (d : handle)
| OFitResult (r : handle)
| OWrapped (f : handle).

(** The generation model, the fit engine and the generators are ROOT and numpy
    objects; [world] is their state and the fields are what the loop asks of
    them.  [seed_generators] is [np.random.seed(seed)] followed by
    [ROOT.RooRandom.randomGenerator().SetSeed(seed)]; [get_dataset] is
    [randomizer.get_dataset(randomize=True)]; [from_roofit_on_class r] is the
    call [FitResult.from_roofit(r)] as the loop writes it, on the class;
    [fit_parameter_names] is [.get_fit_parameters().keys()]; [to_plain_dict]
    is [.to_plain_dict(skip_cov=False)]; [str] is Python's [str(x)] and
    [DataFrame data names] is [pd.DataFrame(data, index=names, columns=names)]. *)
Record collaborators (world : Type) : Type := {
  get_urandom_int : ST world Z;
  seed_generators : Z -> ST world unit;
  get_dataset : ST world handle;
  get_current_values : ST world value;
  fit : model -> handle -> ST world handle;
  from_roofit_on_class : handle -> ST world handle;
  fit_parameter_names : handle -> ST world value;
  to_plain_dict : handle -> ST world value;
  destruct_object : root_object -> ST world unit;
  get_input_values : ST world value;
  str : value -> string;
  DataFrame : value -> value -> outcome value;
}.
Arguments get_urandom_int {world}.
Arguments seed_generators {world}.
Arguments get_dataset {world}.
Arguments get_current_values {world}.
Arguments fit {world}.
Arguments from_roofit_on_class {world}.
Arguments fit_parameter_names {world}.
Arguments to_plain_dict {world}.
Arguments destruct_object {world}.
Arguments get_input_values {world}.
Arguments str {world}.
Arguments DataFrame {world}.

(** What the loop reads from the configuration and the batch system. *)
Record settings : Type := {
  model_name : string;
  fit_strategy : string;
  job_id : string;
}.

(** What the run leaves behind: the world and the tables appended to the
    HDF store, oldest first. *)
Record run_state (world : Type) : Type := mkRun {
  the_world : world;
  hdf_file : list (string * value);
}.
Arguments mkRun {world}.
Arguments the_world {world}.
Arguments hdf_file {world}.

Section Run.
Context {world : Type}.
Variable c : collaborators world.
Variable cfg : settings.

Definition on_world {A} (m : ST world A) : ST (run_state world) A :=
fun s => let '(o, w) := m (the_world s) in (o, mkRun w (hdf_file s)).

Definition hdf_append (key : string) (table : value) : ST (run_state world) unit :=
fun s => (Ret tt, mkRun (the_world s) (hdf_file s ++ [(key, table)])).

(** The statements inside [try:]. *)
Definition generate_and_fit
  : ST world (handle * value * handle * handle) :=
dataset <- get_dataset c ;;
gen_values <- get_current_values c ;;
fit_result_nominal <- fit c fit_model dataset ;;
fit_result_rand <- fit c randomizer_model dataset ;;
ret (dataset, gen_values, fit_result_nominal, fit_result_rand).

(** [except ValueError: raise RuntimeError()] and
    [except Exception: raise RuntimeError()]. *)
Definition handler {A} (e : exn) : ST world A :=
match e with
| ValueError => raise RuntimeError
| _ => if is_Exception e then raise RuntimeError else raise e
end.

(** The body of [for fit_num in range(nfits)]; its value is [result]. *)
Definition iteration (fit_num : nat) : ST world value :=
seed <- get_urandom_int c ;;
seed_generators c seed ;;
r <- try_except generate_and_fit handler ;;
let '(dataset, gen_values, fit_result_nominal, fit_result_rand) := r in
let result : dict := [] in
let result := Dict.set "fitnum" (VInt (Z.of_nat fit_num)) result in
let result := Dict.set "seed" (VInt seed) result in
result_roofit_rand <- from_roofit_on_class c fit_result_rand ;;
param_names <- fit_parameter_names c result_roofit_rand ;;
let result := Dict.set "param_names" param_names result in
rand <- to_plain_dict c result_roofit_rand ;;
let result := Dict.set "rand" rand result in
destruct_object c (OFitResult fit_result_rand) ;;
result_roofit_nominal <- from_roofit_on_class c fit_result_nominal ;;
nominal <- to_plain_dict c result_roofit_nominal ;;
let result := Dict.set "nominal" nominal result in
let result := Dict.set "gen" gen_values result in
destruct_object c (OWrapped result_roofit_nominal) ;;
destruct_object c (ODataset dataset) ;;
ret (VDict result).

(** The loop over [fit_nums]; [fit_results] maps an iteration to its [result],
    and [result] is the loop's variable of that name, unbound before the
    first iteration and left at its last value afterwards. *)
Fixpoint sampling_fit_loop (fit_nums : list nat) (fit_results : list (nat * value))
    (result : option value) : ST world (list (nat * value) * option value) :=
match fit_nums with
| [] => ret (fit_results, result)
| fit_num :: fit_nums' =>
    r <- iteration fit_num ;;
    sampling_fit_loop fit_nums' (fit_results ++ [(fit_num, r)])%list (Some r)
end.

(** [for res_name, res_value in result[key].items(): fit_res[format % res_name] = res_value] *)
Fixpoint copy_columns (format : string) (items : dict) (fit_res : value) : outcome value :=
match items with
| [] => Ret fit_res
| (res_name, res_value) :: items' =>
    (let? column := percent_format format res_name in
     let? fit_res := setitem fit_res column res_value in
     copy_columns format items' fit_res)%outcome
end.

(** The body of [for fit_num, fit_res in fit_results.items()].  [result] is the
    variable the sampling loop left behind. *)
Definition aggregate_row (result : option value) (fit_res : value)
    (acc : list value * dict) : outcome (list value * dict) :=
(let '(data_res, cov_matrices) := acc in
 let? fitnum := getitem fit_res "fit_num" in
 let? seed := getitem fit_res "seed" in
 let fit_res := VDict [("fitnum", fitnum); ("seed", seed);
                       ("model_name", VStr (model_name cfg));
                       ("fit_strategy", VStr (fit_strategy cfg))] in
 let? popped := pop_value fit_res "param_names" in
 let '(param_names, fit_res) := popped in
 let? fitnum := getitem fit_res "fitnum" in
 let cov_folder_rand := path_join (job_id cfg) (str c fitnum) "rand" in
 let? rand := getitem fit_res "rand" in
 let? popped := pop_value rand "cov_matrix" in
 let? fit_res := setitem fit_res "rand" popped.2 in
 let? frame := DataFrame c popped.1 param_names in
 let cov_matrices := Dict.set cov_folder_rand frame cov_matrices in
 let? fitnum := getitem fit_res "fitnum" in
 let cov_folder_nominal := path_join (job_id cfg) (str c fitnum) "nominal" in
 let? nominal := getitem fit_res "nominal" in
 let? popped := pop_value nominal "cov_matrix" in
 let? fit_res := setitem fit_res "nominal" popped.2 in
 let? frame := DataFrame c popped.1 param_names in
 let cov_matrices := Dict.set cov_folder_nominal frame cov_matrices in
 let? result := match result with Some r => Ret r | None => Raise NameError end in
 let? rand := getitem result "rand" in
 let? rand := as_dict rand in
 let? fit_res := copy_columns "{}_rand" rand fit_res in
 let? nominal := getitem result "nominal" in
 let? nominal := as_dict nominal in
 let? fit_res := copy_columns "{}_nominal" nominal fit_res in
 let? gen := getitem result "gen" in
 let? gen := as_dict gen in
 let? fit_res := copy_columns "{}_gen" gen fit_res in
 Ret (data_res ++ [fit_res], cov_matrices)%list)%outcome.

Fixpoint aggregate (result : option value) (fit_results : list (nat * value))
    (acc : list value * dict) : outcome (list value * dict) :=
match fit_results with
| [] => Ret acc
| (fit_num, fit_res) :: fit_results' =>
    (let? acc := aggregate_row result fit_res acc in
     aggregate result fit_results' acc)%outcome
end.

(** The writes at the end of [run]: the results table, with the job id added
    to every row, then the covariance tables, then the input values.
    [pd.concat] of an empty list of frames raises [ValueError]; inside [try:],
    an [OSError] is raised again and a [ValueError] becomes a [RuntimeError]. *)
Definition save_to_disk (data_res : list value) (cov_matrices : dict) : ST (run_state world) unit :=
(if bool_decide (data_res = []) then raise ValueError else ret tt) ;;
rows <- lift (mapM (fun row => setitem row "jobid" (VStr (job_id cfg))) data_res) ;;
try_except
  (hdf_append "fit_results" (VList rows) ;;
   foldr (fun kv k => hdf_append ("covariance/" ++ kv.1) kv.2 ;; k) (ret tt) cov_matrices ;;
   input_values <- on_world (get_input_values c) ;;
   hdf_append "input_values" input_values)
  (fun e => match e with ValueError => raise RuntimeError | _ => raise e end).

(** [run], from "Start looping" on.  Of the log lines only the division by
    [nfits] matters: it raises [ZeroDivisionError] when no fit was asked for. *)
Definition run (nfits : nat) : ST (run_state world) unit :=
looped <- on_world (sampling_fit_loop (seq 0 nfits) [] None) ;;
let '(fit_results, result) := looped in
(if (nfits =? 0)%nat then raise ZeroDivisionError else ret tt) ;;
aggregated <- lift (aggregate result fit_results ([], [])) ;;
let '(data_res, cov_matrices) := aggregated in
save_to_disk data_res cov_matrices.

End Run.
End syst_toys.


(** * The vocabulary of the properties *)

Definition is_ret {A} (o : outcome A) : bool :=
match o with
| Ret _ => true
| _ => false
end.

Definition returned {A S} (r : option (outcome A * S)) : bool :=
match r with
| Some (Ret _, _) => true
| _ => false
end.

(** ** Fit results *)

Section Operations.
Import result.

Variable get_fit_result_path : string -> string.
Variable multivariate_normal : list value -> value -> N -> outcome (list value) * N.

(** The object holds a result: [_result] refers to a dictionary that is not empty. *)
Definition populated (s : state) : Prop :=
exists l d, _result (self s) = Some l /\ heap s !! l = Some d /\ d <> [].

(** A piece of code that leaves the store, the files and the object alone. *)
Definition preserves {A} (m : M A) : Prop :=
forall s o s', m s = (o, s') ->
  heap s' = heap s /\ files s' = files s /\ self s' = self s.

(** [from_hdf] stores nothing; the other three populate methods do. *)
Definition populates (p : populate_op) : bool :=
match p with
| FromHdf _ => false
| _ => true
end.

(** Operations on one object, in the order they are called. *)
Inductive op : Type :=
| Populate (p : populate_op)
| Read (r : read_op).

Definition run_op (o : op) : M value :=
match o with
| Populate p => populate get_fit_result_path p ;; ret VNone
| Read r => read multivariate_normal r
end.

Fixpoint run_ops (ops : list op) (s : state) : state :=
match ops with
| [] => s
| o :: ops' => run_ops ops' (run_op o s).2
end.

(** A well-formed serialized record: the five required keys; under
    [covariance-matrix] a dictionary with [quality] and with [matrix], a flat
    list of [K * K] floats; under [fit-parameters] a mapping of [K] entries. *)
Record well_formed_record (d cov : dict) (fl : list float) (K : nat) : Prop := {
  wf_keys : Dict.keys_issuperset d
              ["fit-parameters"; "fit-parameters-initial"; "const-parameters";
               "covariance-matrix"; "status"] = true;
  wf_cov : Dict.get "covariance-matrix" d = Some (VDict cov);
  wf_cov_keys : Dict.keys_issuperset cov ["quality"; "matrix"] = true;
  wf_matrix : Dict.get "matrix" cov = Some (VList (VFloat <$> fl));
  wf_fit : exists fit, Dict.get "fit-parameters" d = Some (VDict fit) /\ length fit = K;
  wf_size : length fl = (K * K)%nat;
}.

(** The record with the entry under [covariance-matrix]/[matrix] replaced. *)
Definition with_matrix (m : value) (d cov : dict) : dict :=
Dict.set "covariance-matrix" (VDict (Dict.set "matrix" m cov)) d.

(** The statement [yaml_dict[key] = v], made by the caller. *)
Definition caller_setitem (yaml_dict : loc) (key : string) (v : value) : M unit :=
d <- deref yaml_dict ;; store yaml_dict (Dict.set key v d).



(** The columns of one floating parameter, and all the columns of a flat
    record without covariance, in the order [to_plain_dict] writes them. *)
Definition parameter_columns (param_name : string) : list string :=
(fun suffix => param_name ++ suffix) <$> _SUFFIXES.

Definition column_names (fit const : dict) : list string :=
(flat_map parameter_columns (Dict.keys fit) ++ Dict.keys const
 ++ ["status_migrad"; "status_hesse"; "status_minos"; "cov_quality"; "edm"])%list.

(** The five entries that follow the parameters. *)
Definition summary_columns (status : dict) (quality edm_value : value) : dict :=
[("status_migrad", get_default status "MIGRAD" (VInt (-1)));
 ("status_hesse", get_default status "HESSE" (VInt (-1)));
 ("status_minos", get_default status "MINOS" (VInt (-1)));
 ("cov_quality", quality);
 ("edm", edm_value)].

(** The claim as the specification words it: distinct parameter names give
    [4K + M + 5] entries. *)
Definition column_count_as_claimed : Prop :=
forall s l d fit const flat s',
  _result (self s) = Some l ->
  heap s !! l = Some d ->
  Dict.get "fit-parameters" d = Some (VDict fit) ->
  Dict.get "const-parameters" d = Some (VDict const) ->
  NoDup (Dict.keys fit ++ Dict.keys const) ->
  to_plain_dict true s = (Ret flat, s') ->
  length flat = (4 * length fit + length const + 5)%nat.

End Operations.

(** * Example data *)

(** ** Fit results *)

Definition fresh : state := mkState ∅ ∅ 0%N {| _result := None |}.

Definition toy_path (name : string) : string := "results/" ++ name ++ ".yaml".

(** A sampler that returns the central values. *)
Definition central_sample (mean : list value) (cov : value) (g : N)
  : outcome (list value) * N := (Ret mean, N.succ g).

Definition parameter (name : string) (val : float) : RooRealVar :=
{| GetName := name; getVal := val;
   getError := 0.5%float; getErrorLo := (-0.25)%float; getErrorHi := 0.25%float |}.

Definition unit_covariance : TMatrixDSym :=
{| GetNrows := 2; GetNcols := 2;
   entry := fun i j => if (i =? j)%nat then 1%float else 0%float |}.

Definition engine_result : RooFitResult :=
{| constPars := [parameter "n" 2%float];
   floatParsFinal := [parameter "mu" 1%float; parameter "sigma" 3%float];
   floatParsInit := [parameter "mu" 0%float; parameter "sigma" 1%float];
   covarianceMatrix := unit_covariance;
   covQual := 3;
   statusHistory := [("MIGRAD", 0); ("HESSE", 0)];
   edm := 0.125%float |}.

(** Two floating parameters with distinct names, one of which is the other's
    Hesse-error column. *)
Definition clashing_result : RooFitResult :=
{| constPars := [];
   floatParsFinal := [parameter "a" 1%float; parameter "a_err_hesse" 3%float];
   floatParsInit := [parameter "a" 0%float; parameter "a_err_hesse" 1%float];
   covarianceMatrix := unit_covariance;
   covQual := 3;
   statusHistory := [("MIGRAD", 0); ("HESSE", 0)];
   edm := 0.125%float |}.

Definition engine_state : state := (result.from_roofit engine_result fresh).2.
Definition clashing_state : state := (result.from_roofit clashing_result fresh).2.

Definition clashing_record : dict :=
Eval vm_compute in default [] (heap clashing_state !! 0%nat).

Definition clashing_fit : dict :=
Eval vm_compute in
  match Dict.get "fit-parameters" clashing_record with
  | Some (VDict fit) => fit
  | _ => []
  end.

Definition clashing_flat : dict :=
Eval vm_compute in
  match (result.to_plain_dict true clashing_state).1 with
  | Ret flat => flat
  | _ => []
  end.

Definition serialized_covariance : dict :=
[("quality", VInt 3);
 ("matrix", VList [VFloat 1%float; VFloat 0.5%float; VFloat 0.5%float; VFloat 2%float])].

Definition serialized_record : dict :=
[("fit-parameters",
  VDict [("mu", VList [VFloat 1%float; VFloat 0.5%float; VFloat (-0.25)%float; VFloat 0.25%float]);
         ("sigma", VList [VFloat 3%float; VFloat 0.5%float; VFloat (-0.25)%float; VFloat 0.25%float])]);
 ("fit-parameters-initial", VDict [("mu", VFloat 0%float); ("sigma", VFloat 1%float)]);
 ("const-parameters", VDict [("n", VFloat 2%float)]);
 ("covariance-matrix", VDict serialized_covariance);
 ("status", VDict [("MIGRAD", VInt 0); ("HESSE", VInt 0)]);
 ("edm", VFloat 0.125%float)].

(** The caller holds the record at location 0; the object is fresh. *)
Definition caller_state : state :=
mkState {[ 0%nat := serialized_record ]} ∅ 0%N {| _result := None |}.

(** The same record without its [edm] entry, which [from_yaml] does not ask for. *)
Definition caller_state_without_edm : state :=
mkState {[ 0%nat := take 5 serialized_record ]} ∅ 0%N {| _result := None |}.

(** A record that holds only what [has_converged] reads. *)
Definition status_state (migrad hesse quality : Z) : state :=
mkState {[ 0%nat := [("status", VDict [("MIGRAD", VInt migrad); ("HESSE", VInt hesse)]);
                     ("covariance-matrix", VDict [("quality", VInt quality)])] ]}
  ∅ 0%N {| _result := Some 0%nat |}.

(** ** Covariance matrices, generation and fitting *)

Section Toys.
Import systematics syst_toys.

Definition cov_2x2 : ndarray :=
{| shape0 := 2; shape1 := 2;
   rows := [[4%float; 1%float]; [1%float; 9%float]] |}.

Definition cov_3x3 : ndarray :=
{| shape0 := 3; shape1 := 3;
   rows := [[1%float; 0.5%float; 0.25%float];
            [0.5%float; 2%float; 0.125%float];
            [0.25%float; 0.125%float; 3%float]] |}.

(** A toy generator: events are numbered, the filter keeps the even ones,
    sampling keeps the first rows, and each draw advances the state. *)
Definition toy_generate (n : nat) : ST N (list nat) := fun g => (Ret (seq 0 n), N.succ g).
Definition toy_accept (events : list nat) : ST N (list nat) :=
fun g => (Ret (List.filter Nat.even events), g).
Definition toy_sample (events : list nat) (n : nat) : ST N (list nat) :=
fun g => (Ret (take n events), N.succ g).

(** A toy world: a counter of the calls made so far.  Every call succeeds,
    but [get_dataset] raises [KeyError] when the counter stands at [fail_at]. *)
Definition tick {A} (a : A) : ST nat A := fun w => (Ret a, S w).

Definition toy_plain_dict : value :=
VDict [("mu", VFloat 1%float); ("mu_err_hesse", VFloat 0.5%float);
       ("mu_err_plus", VFloat 0%float); ("mu_err_minus", VFloat 0%float);
       ("status_migrad", VInt 0); ("status_hesse", VInt 0); ("status_minos", VInt (-1));
       ("cov_quality", VInt 3); ("edm", VFloat 0.125%float);
       ("cov_matrix", VArray [0.25%float])].

Definition toy_collaborators (fail_at : nat) : collaborators nat :=
{| get_urandom_int := fun w => (Ret (Z.of_nat w), S w);
   seed_generators := fun _ => tick tt;
   get_dataset := fun w => if (w =? fail_at)%nat then (Raise KeyError, S w)
                           else (Ret 0%nat, S w);
   get_current_values := tick (VDict [("mu", VFloat 1%float)]);
   fit := fun _ _ => tick 1%nat;
   from_roofit_on_class := fun _ => tick 2%nat;
   fit_parameter_names := fun _ => tick (VList [VStr "mu"]);
   to_plain_dict := fun _ => tick toy_plain_dict;
   destruct_object := fun _ => tick tt;
   get_input_values := tick (VDict [("mu", VList [VFloat 1%float])]);
   str := fun _ => "0";
   DataFrame := fun data names => Ret (VTuple [data; names]) |}.

Definition toy_settings : settings :=
{| model_name := "model"; fit_strategy := "simple"; job_id := "7" |}.

End Toys.


(** * Further vocabulary *)

Section FurtherOperations.
Import result.

(** The statement [yaml_dict.clear()], made by the caller. *)
Definition caller_clear (yaml_dict : loc) : M unit := store yaml_dict [].

(** The code a status history records last under a label. *)
Definition last_code (label : string) (history : list (string * Z)) : option Z :=
snd <$> last (List.filter (fun cycle => String.eqb cycle.1 label) history).

(** The four values [from_roofit] stores for a floating parameter. *)
Definition stored_values (fit_par : RooRealVar) : value :=
VTuple [VFloat (getVal fit_par); VFloat (getError fit_par);
        VFloat (getErrorLo fit_par); VFloat (getErrorHi fit_par)].

(** The column names of the flat record of an engine result. *)
Definition engine_column_names (roofit_result : RooFitResult) : list string :=
(flat_map parameter_columns (GetName <$> floatParsFinal roofit_result)
 ++ (GetName <$> constPars roofit_result)
 ++ ["status_migrad"; "status_hesse"; "status_minos"; "cov_quality"; "edm"])%list.

(** The record [from_roofit] builds from an engine result. *)
Definition engine_record (roofit_result : RooFitResult) : dict :=
[("const-parameters",
  VDict (Dict.of_pairs
           ((fun fit_par => (GetName fit_par, VFloat (getVal fit_par)))
              <$> constPars roofit_result)));
 ("fit-parameters",
  VDict (Dict.of_pairs
           ((fun fit_par => (GetName fit_par, stored_values fit_par))
              <$> floatParsFinal roofit_result)));
 ("fit-parameters-initial",
  VDict (Dict.of_pairs
           ((fun fit_par => (GetName fit_par, VFloat (getVal fit_par)))
              <$> floatParsInit roofit_result)));
 ("covariance-matrix",
  VDict [("quality", VInt (covQual roofit_result));
         ("matrix", np.matrix (GetNcols (covarianceMatrix roofit_result))
                      (matrix_rows (covarianceMatrix roofit_result)))]);
 ("status",
  VDict (Dict.of_pairs
           ((fun cycle : string * Z => (cycle.1, VInt cycle.2))
              <$> statusHistory roofit_result)));
 ("edm", VFloat (edm roofit_result))].

End FurtherOperations.

(** ** Block-diagonal matrices *)

Section FurtherBlocks.
Import systematics.

(** The entry [(i, j)] of the block-diagonal matrix of [matrices], found by
    walking down the diagonal. *)
Fixpoint block_item (matrices : list ndarray) (i j : nat) : float :=
match matrices with
| [] => 0%float
| mat :: matrices' =>
    if (i <? shape0 mat)%nat then
      if (j <? shape1 mat)%nat then default 0%float (item mat i j) else 0%float
    else if (j <? shape1 mat)%nat then 0%float
    else block_item matrices' (i - shape0 mat) (j - shape1 mat)
end.

(** A square array that equals its transpose, as a covariance matrix does. *)
Definition symmetric (a : ndarray) : Prop :=
shape0 a = shape1 a /\ forall i j, item a i j = item a j i.

End FurtherBlocks.

(** ** [main] of [analysis/toys/syst_toys.py] *)

Section Main.

(** [ConfigError] is defined outside the sources, and so are its base classes,
    which decide the [except] clause it reaches first, if any. *)
Variable ConfigError_status : option Z.



End Main.

(** ** [analysis/data/mergers.py] *)

Module mergers.

(** What the merging functions are handed: ROOT datasets, known by reference;
    pandas frames and series; any other Python value; and lists of these.  Of
    the ROOT classes only [RooDataSet] is modelled. *)
Inductive object : Type :=
| RooDataSet (h : nat)
| DataFrame (rows : list dict)
| Series (data : list value)
| Py (v : value)
| PyList (l : list object).

(** The classes of these objects. *)
Inductive class : Type :=
| TRooDataSet | TDataFrame | TSeries
| TNoneType | Tbool | Tint | Tfloat | Tstr | Ttuple | Tlist | Tndarray | Tmatrix | Tdict.

#[export] Instance class_eq_dec : EqDecision class.
Proof. solve_decision. Defined.

(** [type(obj)] *)
Definition type (obj : object) : class :=
match obj with
| RooDataSet _ => TRooDataSet
| DataFrame _ => TDataFrame
| Series _ => TSeries
| PyList _ => Tlist
| Py v =>
    match v with
    | VNone => TNoneType
    | VBool _ => Tbool
    | VInt _ => Tint
    | VFloat _ => Tfloat
    | VStr _ => Tstr
    | VTuple _ => Ttuple
    | VList _ => Tlist
    | VArray _ => Tndarray
    | VMatrix _ _ _ => Tmatrix
    | VDict _ => Tdict
    end
end.

(** [isinstance(obj, ROOT.TObject)] and [isinstance(obj, (pd.DataFrame, pd.Series))] *)
Definition is_TObject (obj : object) : bool :=
match obj with
| RooDataSet _ => true
| _ => false
end.

Definition is_pandas (obj : object) : bool :=
match obj with
| DataFrame _ | Series _ => true
| _ => false
end.

(** [obj[0]] and the elements [for x in obj] runs through, for lists and
    plain values; indexing and iterating ROOT and pandas objects is left out. *)
Definition index0 (obj : object) : outcome object :=
match obj with
| PyList (x :: _) => Ret x
| PyList [] => Raise IndexError
| Py v => (let? x := getitem0 v in Ret (Py x))%outcome
| _ => Stuck
end.

Definition elements (obj : object) : outcome (list object) :=
match obj with
| PyList l => Ret l
| Py v => (let? l := iterate v in Ret (Py <$> l))%outcome
| _ => Stuck
end.

Section Merge.

(** ROOT and [analysis.utils.root] are outside the sources.  A dataset's
    [RooArgSet] is identified with the dataset; [observables w argset] lists
    [var.GetName() for var in rooargset_to_set(argset)] in the world [w];
    [RooDataSet_init name title argset] is [ROOT.RooDataSet(name, title, argset)];
    [append output_ds data] is [output_ds.append(data)]. *)
Variable world : Type.
Variable observables : world -> nat -> outcome (list string).
Variable RooDataSet_init : object -> object -> nat -> ST world nat.
Variable append : nat -> object -> ST world unit.
Variable destruct_object : object -> ST world unit.

(** [obj.get()]: the [RooArgSet] of a dataset.  Strings, lists, tuples and
    numbers have no such method; the [get] of a dictionary, a frame or a
    series needs a key. *)
Definition get (obj : object) : ST world nat :=
match obj with
| RooDataSet h => ret h
| DataFrame _ | Series _ | Py (VDict _) => raise TypeError
| _ => raise AttributeError
end.

(** [set(var.GetName() for var in rooargset_to_set(argset))] *)
Definition variable_names (argset : nat) : ST world (gset string) :=
fun w => ((let? names := observables w argset in Ret (list_to_set names))%outcome, w).

Fixpoint forM {A B : Type} (f : A -> ST world B) (l : list A) : ST world (list B) :=
match l with
| [] => ret []
| x :: l' => y <- f x ;; ys <- forM f l' ;; ret (y :: ys)
end.

(** The loop [for data in data_list] of [merge_root]. *)
Fixpoint merge_loop (output_ds : nat) (data_list : list object) (destruct_data : bool)
  : ST world unit :=
match data_list with
| [] => ret tt
| data :: data_list' =>
    append output_ds data ;;
    (if destruct_data then destruct_object data else ret tt) ;;
    merge_loop output_ds data_list' destruct_data
end.

Definition merge_root (name title data_list : object) (destruct_data : bool)
  : ST world object :=
first <- lift (index0 data_list) ;;
argset <- get first ;;
variables <- variable_names argset ;;
datasets <- lift (elements data_list) ;;
differ <- forM (fun dataset =>
                  argset <- get dataset ;;
                  names <- variable_names argset ;;
                  ret (bool_decide (names <> variables))) datasets ;;
if existsb id differ then raise ValueError
else
  first <- lift (index0 data_list) ;;
  argset <- get first ;;
  output_ds <- RooDataSet_init name title argset ;;
  datasets <- lift (elements data_list) ;;
  merge_loop output_ds datasets destruct_data ;;
  ret (RooDataSet output_ds).

Definition merge_pandas (data_list : list object) : ST world object := ret (Py VNone).

(** [merge(data_list, **kwargs)] for a list [data_list]. *)
Definition merge (data_list : list object) (kwargs : dict) : ST world object :=
if negb (length (remove_dups (type <$> data_list)) =? 1)%nat then raise ValueError
else
  first <- lift (index0 (PyList data_list)) ;;
  if is_TObject first then
    if negb (Dict.mem "name" kwargs) then raise KeyError
    else
      name <- lift (getitem (VDict kwargs) "name") ;;
      merge_root (Py name) (Py (get_default kwargs "title" name)) (PyList data_list) true
  else if is_pandas first then merge_pandas data_list
  else raise AttributeError.

End Merge.
End mergers.

(** ** [analysis/toys/systematics.py], continued *)

(** *** The registry of systematics *)

Module registry.

(** Objects that may be offered to the registry: a class, an instance of a
    class, or a plain value. *)
Inductive pyobject : Type :=
| Class (name : string)
| Instance (class_name : string)
| Plain (v : value).

(** Lists, dictionaries and arrays cannot be keys of a dictionary; a tuple
    can if its elements can. *)
Fixpoint hashable (v : value) : bool :=
match v with
| VList _ | VDict _ | VArray _ | VMatrix _ _ _ => false
| VTuple l => forallb hashable l
| _ => true
end.

Section Registry.

(** [issubclass c d] for classes given by name; the hierarchy is whatever
    the class definitions make it. *)
Variable issubclass : string -> string -> bool.

(** [isinstance(obj, cls)].  A class is an instance of [type], not of the
    classes it derives from. *)
Definition isinstance (obj : pyobject) (cls : string) : bool :=
match obj with
| Instance c => issubclass c cls
| _ => false
end.

(** The state is the dictionary [get_global_var('TOY_SYSTEMATICS')]; names
    are strings. *)
Definition register_systematic (name : string) (syst_class : pyobject)
  : ST (gmap string pyobject) nat :=
if negb (isinstance syst_class "Systematic") then raise ValueError
else
  fun TOY_SYSTEMATICS =>
    let TOY_SYSTEMATICS := <[name := syst_class]> TOY_SYSTEMATICS in
    (Ret (size TOY_SYSTEMATICS), TOY_SYSTEMATICS).

Definition get_systematic (syst_config : value) : ST (gmap string pyobject) pyobject :=
key <- lift (getitem syst_config "type") ;;
fun TOY_SYSTEMATICS =>
  match key with
  | VStr name =>
      match TOY_SYSTEMATICS !! name with
      | Some syst_class => (Ret syst_class, TOY_SYSTEMATICS)
      | None => (Raise KeyError, TOY_SYSTEMATICS)
      end
  | _ => if hashable key then (Raise KeyError, TOY_SYSTEMATICS)
         else (Raise TypeError, TOY_SYSTEMATICS)
  end.

End Registry.
End registry.

(** *** More of the class [Systematic] *)

Module Systematic.
Section Methods.

Variable world : Type.

(** [self._model.get_gen_parameters()] and [self._model.get_yield_vars()],
    each a list of variables read off the model. *)
Variable get_gen_parameters : ST world (list RooRealVar).
Variable get_yield_vars : ST world (list RooRealVar).

(** The state is the model's world and the field [_input_values]. *)
Definition get_input_values : ST (world * option dict) dict :=
fun '(w, _input_values) =>
  match _input_values with
  | None =>
      match get_gen_parameters w with
      | (Ret gen_parameters, w1) =>
          match get_yield_vars w1 with
          | (Ret yield_vars, w2) =>
              let values :=
                Dict.of_pairs
                  ((fun var => (GetName var, VList [VFloat (getVal var)]))
                     <$> (gen_parameters ++ yield_vars)%list) in
              (Ret values, (w2, Some values))
          | (Raise e, w2) => (Raise e, (w2, None))
          | (Stuck, w2) => (Stuck, (w2, None))
          end
      | (Raise e, w1) => (Raise e, (w1, None))
      | (Stuck, w1) => (Stuck, (w1, None))
      end
  | Some values => (Ret values, (w, Some values))
  end.

Variable observables : world -> nat -> outcome (list string).
Variable RooDataSet_init : mergers.object -> mergers.object -> nat -> ST world nat.
Variable append : nat -> mergers.object -> ST world unit.
Variable destruct_object : mergers.object -> ST world unit.

(** The last statement of [get_dataset]:
    [return merge_root(datasets_to_merge, 'GenData', 'GenData')], where
    [merge_root] takes [name], [title] and [data_list] in this order. *)
Definition get_dataset_return (datasets_to_merge : list mergers.object)
  : ST world mergers.object :=
mergers.merge_root world observables RooDataSet_init append destruct_object
  (mergers.PyList datasets_to_merge) (mergers.Py (VStr "GenData"))
  (mergers.Py (VStr "GenData")) true.

End Methods.
End Systematic.

(** *** The loop of [FixedParamsSyst.__init__] *)

Module FixedParamsSyst.
Section Init.
Import result.

Variable get_fit_result_path : string -> string.

(** A call [method(self, *args)] of a method that takes [self] alone. *)
Definition call_without_arguments {A : Type} (method : M A) (args : list value) : M A :=
match args with
| [] => method
| _ => raise TypeError
end.

(** [fit_result.get_covariance_matrix] with positional arguments [args]: the wrapper that
    [ensure_initialized] puts around the method takes any arguments and
    passes them on to the method, which takes none. *)
Definition get_covariance_matrix (args : list value) : M value :=
ensure_initialized
  (call_without_arguments
     (v <- self_result ;;
      cov <- lift (getitem v "covariance-matrix") ;;
      lift (getitem cov "matrix"))
     args).

(** [FitResult()] *)
Definition FitResult_init : M unit :=
fun s => (Ret tt, mkState (heap s) (files s) (rng s) {| _result := None |}).

(** A name that is no string, and parameter names that are no dictionary,
    are left out. *)
Definition as_str (obj : value) : outcome string :=
match obj with
| VStr s => Ret s
| _ => Stuck
end.

Definition as_mapping (obj : value) : outcome dict :=
match obj with
| VDict d => Ret d
| _ => Stuck
end.

(** The body of [for result_config in config['syst']] up to the covariance
    matrix it appends; [fit_result] is the object of the state. *)
Definition load_covariance (result_config : value) (_param_translation : dict)
  : M (dict * value) :=
FitResult_init ;;
name <- lift (getitem result_config "result") ;;
name <- lift (as_str name) ;;
from_yaml_file get_fit_result_path name ;;
param_names <- lift (getitem result_config "param_names") ;;
param_names <- lift (as_mapping param_names) ;;
let _param_translation := Dict.update _param_translation param_names in
cov <- get_covariance_matrix [VList (VStr <$> Dict.keys _param_translation)] ;;
ret (_param_translation, cov).

End Init.
End FixedParamsSyst.

(** ** Further example data *)

(** The caller's record without its [status] entry. *)
Definition incomplete_state : state :=
mkState {[ 0%nat := take 4 serialized_record ]} ∅ 0%N {| _result := None |}.

(** The serialized record, held by the file of the fit result [nominal]. *)
Definition file_state : state :=
mkState ∅ {[ toy_path "nominal" := serialized_record ]} 0%N {| _result := None |}.

(** A toy ROOT: datasets 0 and 1 have the observables [x] and [y], listed in
    different orders; every other dataset has [x] alone.  The world counts
    the calls that build, append or destroy. *)
Definition toy_names (argset : nat) : list string :=
if (argset =? 0)%nat then ["x"; "y"]
else if (argset =? 1)%nat then ["y"; "x"; "y"]
else ["x"].

Definition toy_observables (w : nat) (argset : nat) : outcome (list string) :=
Ret (toy_names argset).

Definition toy_RooDataSet_init (name title : mergers.object) (argset : nat) : ST nat nat :=
tick 100%nat.
Definition toy_append (output_ds : nat) (data : mergers.object) : ST nat unit := tick tt.
Definition toy_destruct_object (data : mergers.object) : ST nat unit := tick tt.

(** A toy hierarchy: [FixedParamsSyst] derives from [Systematic]. *)
Definition toy_issubclass (c d : string) : bool :=
String.eqb c d || (String.eqb c "FixedParamsSyst" && String.eqb d "Systematic").

(** A toy model with one generation parameter and one yield. *)
Definition toy_gen_parameters : ST nat (list RooRealVar) := tick [parameter "mu" 1%float].
Definition toy_yield_vars : ST nat (list RooRealVar) := tick [parameter "N" 100%float].

(** The configuration of one result of fixed parameters. *)
Definition toy_result_config : value :=
VDict [("result", VStr "nominal"); ("param_names", VDict [("mu", VStr "mean")])].

(** * Properties *)

(** ** The block-diagonal matrix of [make_block] *)

Section MakeBlock.
Import systematics.

Lemma item_zeros r c i j :
  (i < r)%nat -> (j < c)%nat -> item (zeros (r, c)) i j = Some 0%float.
Proof.
  intros Hi Hj. unfold item, zeros; simpl.
  rewrite lookup_replicate_2 by done. by apply lookup_replicate_2.
Qed.

Lemma well_shaped_zeros r c : well_shaped (zeros (r, c)).
Proof.
  split; simpl.
  - apply length_replicate.
  - apply Forall_replicate, length_replicate.
Qed.

Lemma item_is_Some a i j :
  well_shaped a -> (i < shape0 a)%nat -> (j < shape1 a)%nat -> is_Some (item a i j).
Proof.
  intros [Hlen Hrows] Hi Hj. unfold item.
  destruct (rows a !! i) as [r|] eqn:Hr.
  - apply lookup_lt_is_Some.
    rewrite (Forall_lookup_1 _ _ _ _ Hrows Hr). done.
  - apply lookup_ge_None in Hr. lia.
Qed.

Lemma item_Some_lt a i j x :
  well_shaped a -> item a i j = Some x -> (i < shape0 a)%nat /\ (j < shape1 a)%nat.
Proof.
  intros [Hlen Hrows]. unfold item.
  destruct (rows a !! i) as [r|] eqn:Hr; [|done].
  intros Hj. split.
  - rewrite <- Hlen. by eapply lookup_lt_Some.
  - rewrite <- (Forall_lookup_1 _ _ _ _ Hrows Hr). by eapply lookup_lt_Some.
Qed.

(** What a slice assignment leaves in the array. *)
Lemma assign_slice_spec out row column mat :
  well_shaped out -> well_shaped mat ->
  (row + shape0 mat <= shape0 out)%nat -> (column + shape1 mat <= shape1 out)%nat ->
  exists out',
    assign_slice out row column mat = Ret out'
    /\ shape0 out' = shape0 out /\ shape1 out' = shape1 out
    /\ well_shaped out'
    /\ forall i j,
        item out' i j =
          if bool_decide ((row <= i < row + shape0 mat)%nat
                          /\ (column <= j < column + shape1 mat)%nat)
          then item mat (i - row) (j - column)
          else item out i j.
Proof.
  intros Hout Hmat Hr Hc. unfold assign_slice.
  rewrite bool_decide_eq_true_2 by done.
  eexists. split; [reflexivity|]. simpl.
  destruct Hout as [Hlen Hrows].
  split; [done|]. split; [done|]. split.
  - split; simpl.
    + by rewrite length_imap.
    + apply Forall_lookup. intros i r. rewrite list_lookup_imap.
      destruct (rows out !! i) as [r0|] eqn:Hr0; [|done]. simpl.
      intros [= <-].
      pose proof (Forall_lookup_1 _ _ _ _ Hrows Hr0) as Hl. simpl in Hl.
      case_bool_decide; [by rewrite length_imap | done].
  - intros i j. unfold item. simpl. rewrite list_lookup_imap.
    destruct (rows out !! i) as [r0|] eqn:Hr0; simpl.
    + pose proof (Forall_lookup_1 _ _ _ _ Hrows Hr0) as Hl. simpl in Hl.
      destruct (decide (row <= i < row + shape0 mat)%nat) as [Hi|Hi].
      * rewrite (bool_decide_eq_true_2 _ Hi). rewrite list_lookup_imap.
        destruct (r0 !! j) as [x|] eqn:Hx; simpl.
        -- destruct (decide (column <= j < column + shape1 mat)%nat) as [Hj|Hj].
           ++ rewrite (bool_decide_eq_true_2 _ Hj).
              rewrite bool_decide_eq_true_2 by done.
              destruct (item_is_Some mat (i - row) (j - column) Hmat) as [y Hy]; [lia..|].
              unfold item in Hy. by rewrite Hy.
           ++ rewrite (bool_decide_eq_false_2 _ Hj).
              rewrite bool_decide_eq_false_2 by lia. done.
        -- apply lookup_ge_None in Hx.
           rewrite bool_decide_eq_false_2 by lia. done.
      * rewrite (bool_decide_eq_false_2 _ Hi).
        rewrite bool_decide_eq_false_2 by lia. done.
    + apply lookup_ge_None in Hr0.
      rewrite bool_decide_eq_false_2 by lia. done.
Qed.

Lemma row_offset_cons mat ms k :
  row_offset (mat :: ms) (S k) = (shape0 mat + row_offset ms k)%nat.
Proof. reflexivity. Qed.

Lemma column_offset_cons mat ms k :
  column_offset (mat :: ms) (S k) = (shape1 mat + column_offset ms k)%nat.
Proof. reflexivity. Qed.

(** The loop writes every remaining matrix at its place and nothing else. *)
Lemma fill_spec ms : forall out row column,
  well_shaped out -> Forall well_shaped ms ->
  (row + sum_list_with shape0 ms <= shape0 out)%nat ->
  (column + sum_list_with shape1 ms <= shape1 out)%nat ->
  exists out',
    fill out row column ms = Ret out'
    /\ shape0 out' = shape0 out /\ shape1 out' = shape1 out
    /\ well_shaped out'
    /\ (forall k mat i j,
          ms !! k = Some mat -> (i < shape0 mat)%nat -> (j < shape1 mat)%nat ->
          item out' (row + row_offset ms k + i) (column + column_offset ms k + j)
          = item mat i j)
    /\ (forall i j,
          (forall k mat, ms !! k = Some mat ->
             ~ ((row + row_offset ms k <= i < row + row_offset ms k + shape0 mat)%nat
                /\ (column + column_offset ms k <= j
                    < column + column_offset ms k + shape1 mat)%nat)) ->
          item out' i j = item out i j).
Proof.
  induction ms as [|mat ms IH]; intros out row column Hout Hms Hr Hc.
  - exists out. simpl.
    split; [done|]. split; [done|]. split; [done|]. split; [done|].
    split; [|done].
    intros k mat i j Hk. by rewrite lookup_nil in Hk.
  - simpl in Hr, Hc. inversion Hms as [|? ? Hmat Hms']; subst.
    destruct (assign_slice_spec out row column mat Hout Hmat)
      as (out1 & Hassign & Hs0 & Hs1 & Hout1 & Hitem1); [lia..|].
    destruct (IH out1 (row + shape0 mat)%nat (column + shape1 mat)%nat Hout1 Hms')
      as (out' & Hfill & Hs0' & Hs1' & Hout' & Hblocks & Hrest); [lia..|].
    exists out'. simpl. rewrite Hassign. simpl.
    split; [done|]. split; [congruence|]. split; [congruence|]. split; [done|].
    split.
    + intros [|k] m i j Hm Hi Hj.
      * simpl in Hm. injection Hm as <-.
        unfold row_offset, column_offset. simpl.
        rewrite Hrest.
        -- rewrite Hitem1. rewrite bool_decide_eq_true_2 by lia.
           f_equal; lia.
        -- intros k m _. lia.
      * simpl in Hm. rewrite row_offset_cons, column_offset_cons.
        rewrite <- (Hblocks k m i j Hm Hi Hj). f_equal; lia.
    + intros i j Hout_of.
      rewrite Hrest.
      * rewrite Hitem1. rewrite bool_decide_eq_false_2; [done|].
        specialize (Hout_of 0%nat mat eq_refl).
        unfold row_offset, column_offset in Hout_of. simpl in Hout_of. lia.
      * intros k m Hm. specialize (Hout_of (S k) m Hm).
        rewrite row_offset_cons, column_offset_cons in Hout_of. lia.
Qed.

Lemma make_block_spec ms :
  Forall well_shaped ms ->
  exists out,
    make_block ms = Ret out
    /\ shape0 out = sum_list_with shape0 ms
    /\ shape1 out = sum_list_with shape1 ms
    /\ well_shaped out
    /\ (forall k mat i j,
          ms !! k = Some mat -> (i < shape0 mat)%nat -> (j < shape1 mat)%nat ->
          item out (row_offset ms k + i) (column_offset ms k + j) = item mat i j)
    /\ (forall i j,
          (i < shape0 out)%nat -> (j < shape1 out)%nat ->
          (forall k, ~ in_block ms k i j) ->
          item out i j = Some 0%float).
Proof.
  intros Hms. unfold make_block.
  destruct (fill_spec ms (zeros (sum_list_with shape0 ms, sum_list_with shape1 ms))
              0%nat 0%nat (well_shaped_zeros _ _) Hms)
    as (out & Hfill & Hs0 & Hs1 & Hout & Hblocks & Hrest); [simpl; lia..|].
  exists out. split; [done|]. simpl in Hs0, Hs1.
  split; [done|]. split; [done|]. split; [done|]. split.
  - intros k mat i j Hk Hi Hj. apply (Hblocks k mat i j Hk Hi Hj).
  - intros i j Hi Hj Hout_of. rewrite Hrest.
    + apply item_zeros; lia.
    + intros k mat Hk Hin. apply (Hout_of k). exists mat. simpl in Hin. done.
Qed.

(** C8.  For every list of (well shaped) matrices [make_block] returns an array
    whose two dimensions are the sums of the inputs' dimensions, in which the
    [k]-th input occupies the [k]-th diagonal block and every entry outside
    the blocks is zero.  In particular a 2x2 and a 3x3 matrix give a 5x5
    array: the 2x2 matrix in rows and columns 0-1, the 3x3 matrix in rows and
    columns 2-4, and zeros in the two off-diagonal rectangles. *)
Theorem make_block_is_block_diagonal :
  (forall ms, Forall well_shaped ms ->
     exists out,
       make_block ms = Ret out
       /\ shape0 out = sum_list_with shape0 ms
       /\ shape1 out = sum_list_with shape1 ms
       /\ (forall k mat i j,
             ms !! k = Some mat -> (i < shape0 mat)%nat -> (j < shape1 mat)%nat ->
             item out (row_offset ms k + i) (column_offset ms k + j) = item mat i j)
       /\ (forall i j,
             (i < shape0 out)%nat -> (j < shape1 out)%nat ->
             (forall k, ~ in_block ms k i j) ->
             item out i j = Some 0%float))
  /\ (forall a b,
        well_shaped a -> well_shaped b ->
        shape0 a = 2%nat -> shape1 a = 2%nat -> shape0 b = 3%nat -> shape1 b = 3%nat ->
        exists out,
          make_block [a; b] = Ret out
          /\ shape0 out = 5%nat /\ shape1 out = 5%nat
          /\ forall i j, (i < 5)%nat -> (j < 5)%nat ->
               item out i j =
                 if bool_decide (i < 2 /\ j < 2)%nat then item a i j
                 else if bool_decide (2 <= i /\ 2 <= j)%nat then item b (i - 2) (j - 2)
                 else Some 0%float).
Proof.
  split.
  - intros ms Hms.
    destruct (make_block_spec ms Hms) as (out & H & H0 & H1 & _ & Hb & Hz).
    exists out. done.
  - intros a b Ha Hb Ha0 Ha1 Hb0 Hb1.
    destruct (make_block_spec [a; b]) as (out & H & H0 & H1 & _ & Hblocks & Hz).
    { apply Forall_cons_2; [done|]. apply Forall_cons_2; [done|]. apply Forall_nil_2. }
    simpl in H0, H1. exists out.
    split; [done|]. split; [lia|]. split; [lia|].
    intros i j Hi Hj.
    destruct (decide (i < 2 /\ j < 2)%nat) as [Hin|Hnin].
    + rewrite (bool_decide_eq_true_2 _ Hin).
      apply (Hblocks 0%nat a i j eq_refl); lia.
    + rewrite (bool_decide_eq_false_2 _ Hnin).
      destruct (decide (2 <= i /\ 2 <= j)%nat) as [Hin'|Hnin'].
      * rewrite (bool_decide_eq_true_2 _ Hin').
        rewrite <- (Hblocks 1%nat b (i - 2)%nat (j - 2)%nat eq_refl) by lia.
        unfold row_offset, column_offset. simpl. rewrite Ha0, Ha1.
        f_equal; lia.
      * rewrite (bool_decide_eq_false_2 _ Hnin').
        apply Hz; [lia..|].
        intros k (m & Hm & Hrow & Hcol).
        destruct k as [|[|k]]; simpl in Hm.
        -- injection Hm as <-. unfold row_offset, column_offset in *.
           simpl in *. lia.
        -- injection Hm as <-. unfold row_offset, column_offset in *.
           simpl in *. lia.
        -- done.
Qed.

Lemma make_block_is_block_diagonal_witness :
  exists out,
    make_block [cov_2x2; cov_3x3] = Ret out
    /\ shape0 out = 5%nat /\ shape1 out = 5%nat
    /\ rows out =
         [[4%float; 1%float; 0%float; 0%float; 0%float];
          [1%float; 9%float; 0%float; 0%float; 0%float];
          [0%float; 0%float; 1%float; 0.5%float; 0.25%float];
          [0%float; 0%float; 0.5%float; 2%float; 0.125%float];
          [0%float; 0%float; 0.25%float; 0.125%float; 3%float]].
Proof.
  destruct (proj2 make_block_is_block_diagonal cov_2x2 cov_3x3)
    as (out & Hout & Hs0 & Hs1 & _); try reflexivity.
  - split; [reflexivity | repeat constructor].
  - split; [reflexivity | repeat constructor].
  - exists out. vm_compute in Hout. injection Hout as <-.
    repeat split; reflexivity.
Defined.

End MakeBlock.

(** ** The accept-reject loop *)

Section AcceptRejectLoop.
Import systematics.

(** The loop's condition is never changed by its body. *)
Lemma accept_reject_loop_positive_yield {event} generate accept sample truth fuel :
  forall y pandas_dataset g,
    returned (accept_reject_loop event generate accept sample truth
                fuel (S y) pandas_dataset g) = false.
Proof.
  induction fuel as [|fuel IH]; intros y pandas_dataset g; [reflexivity|].
  simpl.
  destruct (loop_body event generate accept sample truth (S y) pandas_dataset g)
    as [[pandas_dataset'|e|] g']; [apply IH | reflexivity | reflexivity].
Qed.

(** C5, as the code has it.  Whatever the generator, the filter and pandas do,
    the loop never ends with a dataset once the target yield is positive:
    [yield_to_generate] is not decreased, so the loop either runs on or is left
    by an exception.  With pandas' rule for the truth value of a data frame the
    second pass raises [ValueError] at [if not pandas_dataset]; for a target of
    three events and the toy generator it does so after two draws. *)
Theorem accept_reject_loop_never_completes :
  (forall event generate accept sample truth fuel y pandas_dataset g,
     returned (accept_reject_loop event generate accept sample truth
                 fuel (S y) pandas_dataset g) = false)
  /\ (forall fuel,
        accept_reject_loop nat toy_generate toy_accept toy_sample pandas_truth
          (2 + fuel) 3 None 0%N
        = Some (Raise ValueError, 2%N)).
Proof.
  split.
  - intros. apply accept_reject_loop_positive_yield.
  - intros fuel. reflexivity.
Qed.

End AcceptRejectLoop.

(** ** The sampling-fit loop of [run] *)

Section SamplingFitLoop.
Import syst_toys.

Context {world : Type}.
Variable c : collaborators world.
Variable cfg : settings.

Lemma on_world_inv {A} (m : ST world A) s o s' :
  on_world m s = (o, s') ->
  m (the_world s) = (o, the_world s') /\ hdf_file s' = hdf_file s.
Proof.
  unfold on_world. destruct (m (the_world s)) as [o' w'].
  intros [= <- <-]. done.
Qed.

Lemma sampling_fit_loop_app nums1 : forall nums2 fit_results result w,
  sampling_fit_loop c (nums1 ++ nums2) fit_results result w
  = bind (sampling_fit_loop c nums1 fit_results result)
         (fun looped => sampling_fit_loop c nums2 looped.1 looped.2) w.
Proof.
  induction nums1 as [|n nums1 IH]; intros nums2 fit_results result w.
  - reflexivity.
  - simpl. unfold bind.
    destruct (iteration c n w) as [[r| |] w']; [|done..].
    rewrite IH. reflexivity.
Qed.

Lemma sampling_fit_loop_length nums : forall fit_results result w looped w',
  sampling_fit_loop c nums fit_results result w = (Ret looped, w') ->
  length looped.1 = (length fit_results + length nums)%nat.
Proof.
  induction nums as [|n nums IH]; intros fit_results result w looped w'.
  - simpl. intros [= <- _]. simpl. lia.
  - simpl. unfold bind.
    destruct (iteration c n w) as [[r| |] w1]; [|done..].
    intros H. apply IH in H. rewrite H, length_app. simpl. lia.
Qed.

(** No row gets past [param_names = fit_res.pop('param_names')]: the key is
    asked of the dictionary built on the line before, which lacks it. *)
Lemma aggregate_row_raises result fit_res acc :
  exists e, aggregate_row c cfg result fit_res acc = Raise e.
Proof.
  unfold aggregate_row. destruct acc as [data_res cov_matrices].
  destruct fit_res; simpl; eauto.
  destruct (Dict.get "fit_num" items); simpl; eauto.
  destruct (Dict.get "seed" items); simpl; eauto.
Qed.

Lemma aggregate_raises result fit_results acc :
  fit_results <> [] -> exists e, aggregate c cfg result fit_results acc = Raise e.
Proof.
  destruct fit_results as [|[fit_num fit_res] fit_results]; [done|].
  intros _. simpl.
  destruct (aggregate_row_raises result fit_res acc) as [e ->]. simpl. eauto.
Qed.

(** A row written by the loop has the key [fitnum], not [fit_num]. *)
Lemma iteration_result fit_num w r w' :
  iteration c fit_num w = (Ret r, w') ->
  exists d, r = VDict d /\ Dict.get "fit_num" d = None /\ Dict.mem "fitnum" d = true.
Proof.
  unfold iteration, bind.
  repeat (match goal with
          | |- context [match ?m ?s with _ => _ end] =>
              lazymatch type of s with
              | world => destruct (m s) as [[?| |] ?]; try discriminate
              end
          | |- context [let '(_, _) := ?p in _] => destruct p
          end; simpl).
  intros [= <- _]. eexists. split; [reflexivity|]. split; reflexivity.
Qed.

(** C7.  While iterations 0 to [i-1] have completed, let iteration [i] draw its
    seed and then fail inside [try:], in the generation or in one of the two
    fits, with an exception [e] of class [Exception].  Then [run] raises
    [RuntimeError]; the world is left as the failing call left it, so nothing
    is retried and no later iteration starts; and the HDF store holds the
    tables it held before the run. *)
Theorem failing_iteration_aborts_run nfits i w0 tables looped w_i seed w_s w_seeded e w_fail :
  (i < nfits)%nat ->
  sampling_fit_loop c (seq 0 i) [] None w0 = (Ret looped, w_i) ->
  get_urandom_int c w_i = (Ret seed, w_s) ->
  seed_generators c seed w_s = (Ret tt, w_seeded) ->
  generate_and_fit c w_seeded = (Raise e, w_fail) ->
  is_Exception e = true ->
  run c cfg nfits (mkRun w0 tables) = (Raise RuntimeError, mkRun w_fail tables).
Proof.
  intros Hi Hloop Hseed Hseeded Hfail He.
  replace nfits with (i + S (nfits - S i))%nat by lia.
  unfold run. unfold bind at 1. unfold on_world. simpl the_world.
  rewrite seq_app, sampling_fit_loop_app. unfold bind at 1.
  rewrite Hloop. simpl seq. cbn [sampling_fit_loop].
  unfold bind at 1. unfold iteration. unfold bind at 1. rewrite Hseed.
  unfold bind at 1. rewrite Hseeded.
  unfold bind at 1. unfold try_except. rewrite Hfail.
  destruct e; try discriminate He; reflexivity.
Qed.

(** C6, as the code has it.  No run ever appends a table to the store, whatever
    the collaborators do: with [nfits = 0] the division in the log line
    raises, and otherwise the first pass of the aggregation loop raises.  For a
    row written by the sampling loop the exception is the [KeyError] of
    [fit_res['fit_num']], the loop having stored the iteration under
    ['fitnum'].  A run of two iterations in which every call succeeds ends in
    that [KeyError] with an empty store. *)
Theorem run_persists_no_table :
  (forall nfits s,
     is_ret (run c cfg nfits s).1 = false
     /\ hdf_file (run c cfg nfits s).2 = hdf_file s)
  /\ (forall fit_num w r w' result acc,
        iteration c fit_num w = (Ret r, w') ->
        aggregate_row c cfg result r acc = Raise KeyError)
  /\ run (toy_collaborators 1000) toy_settings 2 (mkRun 0%nat [])
     = (Raise KeyError, mkRun 28%nat []).
Proof.
  split; [|split].
  - intros nfits s. unfold run, bind.
    destruct (on_world (sampling_fit_loop c (seq 0 nfits) [] None) s)
      as [[[fit_results result]| |] s1] eqn:Hloop;
      apply on_world_inv in Hloop as [Hloop Hhdf]; simpl; [|done..].
    destruct nfits as [|n]; simpl; [done|].
    apply sampling_fit_loop_length in Hloop. simpl in Hloop.
    rewrite length_seq in Hloop.
    destruct (aggregate_raises result fit_results ([], [])) as [e He].
    { intros ->. simpl in Hloop. lia. }
    unfold lift. rewrite He. done.
  - intros fit_num w r w' result acc Hr.
    apply iteration_result in Hr as (d & -> & Hd & _).
    unfold aggregate_row. destruct acc. simpl. rewrite Hd. reflexivity.
  - vm_compute. reflexivity.
Qed.

End SamplingFitLoop.

Lemma failing_iteration_aborts_run_witness :
  syst_toys.run (toy_collaborators 16) toy_settings 3 (syst_toys.mkRun 0%nat [])
  = (Raise RuntimeError, syst_toys.mkRun 17%nat []).
Proof.
  eapply (failing_iteration_aborts_run (toy_collaborators 16) toy_settings
            3 1 0%nat [] _ _ _ _ _ KeyError 17%nat).
  - lia.
  - reflexivity.
  - reflexivity.
  - reflexivity.
  - reflexivity.
  - reflexivity.
Defined.

(** ** The fit result manager *)

Section FitResultFacts.
Import result.

Variable get_fit_result_path : string -> string.
Variable multivariate_normal : list value -> value -> N -> outcome (list value) * N.

(** The state after further operations on the object. *)
Local Abbreviation later ops s := (run_ops get_fit_result_path multivariate_normal ops s).

Lemma bind_Ret {S A B} (m : ST S A) (k : A -> ST S B) s b s' :
  bind m k s = (Ret b, s') ->
  exists a s1, m s = (Ret a, s1) /\ k a s1 = (Ret b, s').
Proof.
  unfold bind. destruct (m s) as [[a| |] s1]; [eauto | done | done].
Qed.

Lemma lift_Ret {S A} (o : outcome A) (s : S) a s' :
  lift o s = (Ret a, s') -> o = Ret a /\ s' = s.
Proof. unfold lift. by intros [= -> ->]. Qed.

Lemma obind_Ret {A B} (o : outcome A) (k : A -> outcome B) b :
  obind o k = Ret b -> exists a, o = Ret a /\ k a = Ret b.
Proof. destruct o; simpl; [eauto | done | done]. Qed.

Lemma preserves_ret {A} (a : A) : preserves (ret a).
Proof. intros s o s' [= <- <-]. done. Qed.

Lemma preserves_raise {A} e : preserves (@raise state A e).
Proof. intros s o s' [= <- <-]. done. Qed.

Lemma preserves_lift {A} (o : outcome A) : preserves (lift o).
Proof. intros s o' s' [= <- <-]. done. Qed.

Lemma preserves_bind {A B} (m : M A) (k : A -> M B) :
  preserves m -> (forall a, preserves (k a)) -> preserves (bind m k).
Proof.
  intros Hm Hk s o s'. unfold bind.
  destruct (m s) as [[a| |] s1] eqn:Hs1; apply Hm in Hs1 as (Hh & Hf & Hself).
  - intros Hka. apply Hk in Hka as (Hh' & Hf' & Hself'). repeat split; congruence.
  - intros [= <- <-]. done.
  - intros [= <- <-]. done.
Qed.

Lemma preserves_get_result : preserves get_result.
Proof. intros s o s' [= <- <-]. done. Qed.

Lemma preserves_deref l : preserves (deref l).
Proof.
  intros s o s'. unfold deref. destruct (heap s !! l); intros [= <- <-]; done.
Qed.

Lemma preserves_draw mean cov : preserves (draw multivariate_normal mean cov).
Proof.
  intros s o s'. unfold draw.
  destruct (multivariate_normal mean cov (rng s)). intros [= <- <-]. done.
Qed.

Lemma preserves_truthy_result r : preserves (truthy_result r).
Proof.
  destruct r; simpl; [|apply preserves_ret].
  apply preserves_bind; [apply preserves_deref | intros; apply preserves_lift].
Qed.

Lemma preserves_self_result : preserves self_result.
Proof.
  apply preserves_bind; [apply preserves_get_result|].
  intros [l|]; [|apply preserves_ret].
  apply preserves_bind; [apply preserves_deref | intros; apply preserves_ret].
Qed.

Lemma preserves_ensure_initialized {A} (m : M A) :
  preserves m -> preserves (ensure_initialized m).
Proof.
  intros Hm. apply preserves_bind; [apply preserves_get_result|]. intros r.
  apply preserves_bind; [apply preserves_truthy_result|]. intros b.
  destruct b; simpl; [done | apply preserves_raise].
Qed.

Create HintDb frame.
#[local] Hint Resolve preserves_ret preserves_raise preserves_lift preserves_get_result
  preserves_deref preserves_draw preserves_truthy_result preserves_self_result : frame.

Ltac frame :=
  repeat first
    [ apply preserves_ensure_initialized
    | apply preserves_self_result
    | solve [auto with frame]
    | apply preserves_bind; [|intros]
    | match goal with |- preserves (if ?b then _ else _) => destruct b end ].

(** Reading changes neither the store nor the object. *)
Lemma preserves_read r : preserves (read multivariate_normal r).
Proof.
  destruct r; simpl;
    unfold to_yaml, to_yaml_body, to_plain_dict, to_plain_dict_body,
      get_fit_parameter, get_const_parameter, get_fit_parameters,
      get_covariance_matrix, get_edm, has_converged, has_converged_body,
      generate_random_pars, generate_random_pars_body;
    frame.
Qed.

Lemma run_ops_app ops1 ops2 s : later (ops1 ++ ops2) s = later ops2 (later ops1 s).
Proof. revert s. induction ops1 as [|o ops1 IH]; intros s; simpl; [done | apply IH]. Qed.

Lemma dict_set_nonempty k v d : Dict.set k v d <> [].
Proof. destruct d as [|[k' v'] d]; simpl; [done|]. by destruct (String.eqb k k'). Qed.

Lemma dict_mem_nonempty k d : Dict.mem k d = true -> d <> [].
Proof. by destruct d. Qed.

(** *** The two decorators *)

Lemma ensure_non_initialized_populated {A} (m : M A) s :
  populated s -> ensure_non_initialized m s = (Raise AlreadyInitializedError, s).
Proof.
  intros (l & d & Hl & Hd & Hne).
  unfold ensure_non_initialized, bind, get_result, truthy_result, deref, lift.
  rewrite Hl. simpl. unfold bind. rewrite Hd. destruct d; [done | reflexivity].
Qed.

Lemma ensure_initialized_unset {A} (m : M A) s :
  _result (self s) = None -> ensure_initialized m s = (Raise NotInitializedError, s).
Proof.
  intros Hl. unfold ensure_initialized, bind, get_result, truthy_result.
  rewrite Hl. reflexivity.
Qed.

Lemma ensure_initialized_populated {A} (m : M A) s :
  populated s -> ensure_initialized m s = m s.
Proof.
  intros (l & d & Hl & Hd & Hne).
  unfold ensure_initialized, bind, get_result, truthy_result, deref, lift.
  rewrite Hl. simpl. unfold bind. rewrite Hd. destruct d; [done | reflexivity].
Qed.

Lemma ensure_non_initialized_unset {A} (m : M A) s :
  _result (self s) = None -> ensure_non_initialized m s = m s.
Proof.
  intros Hl. unfold ensure_non_initialized, bind, get_result, truthy_result.
  rewrite Hl. reflexivity.
Qed.

(** A decorated populate method that returns has run its body. *)
Lemma ensure_non_initialized_Ret {A} (m : M A) s a s' :
  ensure_non_initialized m s = (Ret a, s') -> m s = (Ret a, s').
Proof.
  unfold ensure_non_initialized, bind, get_result, truthy_result, deref, lift.
  destruct (_result (self s)) as [l|]; simpl; [|done].
  unfold bind. destruct (heap s !! l) as [d|]; simpl; [|done].
  destruct d; simpl; done.
Qed.

(** *** What a successful populate leaves in the store *)

Lemma from_roofit_body_Ret roofit_result s s' :
  from_roofit_body roofit_result s = (Ret tt, s') -> populated s'.
Proof.
  unfold from_roofit_body, bind, alloc, set_result. simpl.
  intros [= <-]. eexists _, _. simpl.
  split; [reflexivity|]. split; [apply lookup_insert_eq | done].
Qed.

Ltac inv_lift H x Hx :=
  apply bind_Ret in H as (x & ? & Hx & H); apply lift_Ret in Hx as [Hx ->].

Lemma from_yaml_body_Ret yaml_dict s s' :
  from_yaml_body yaml_dict s = (Ret tt, s') ->
  exists d cov flat fl fit_parameters k,
    heap s !! yaml_dict = Some d
    /\ Dict.get "covariance-matrix" d = Some (VDict cov)
    /\ Dict.get "matrix" cov = Some flat
    /\ np.array flat = Ret fl
    /\ Dict.get "fit-parameters" d = Some fit_parameters
    /\ len fit_parameters = Ret k
    /\ length fl = (k * k)%nat
    /\ s' = mkState
              (<[yaml_dict :=
                   Dict.set "covariance-matrix"
                     (VDict (Dict.set "matrix" (VMatrix k k fl) cov)) d]> (heap s))
              (files s) (rng s) {| _result := Some yaml_dict |}.
Proof.
  unfold from_yaml_body. intros H.
  apply bind_Ret in H as (d0 & s1 & Hd & H).
  unfold deref in Hd. destruct (heap s !! yaml_dict) as [d|] eqn:Hheap; [|done].
  injection Hd as <- <-.
  destruct (negb (Dict.keys_issuperset d _)); [done|].
  inv_lift H cov Hcov.
  inv_lift H cov_d Hcov_d.
  destruct (negb (Dict.keys_issuperset cov_d _)); [done|].
  inv_lift H flat Hflat.
  inv_lift H fl Hfl.
  inv_lift H fp Hfp.
  inv_lift H k Hk.
  inv_lift H k' Hk'.
  inv_lift H m Hm.
  inv_lift H d1 Hd1.
  inv_lift H d2 Hd2.
  apply bind_Ret in H as ([] & s2 & Hstore & H).
  unfold store in Hstore. injection Hstore as <-.
  unfold set_result in H. simpl in H. injection H as <-.
  destruct cov; try discriminate Hcov_d. injection Hcov_d as ->.
  simpl in Hcov, Hflat, Hfp.
  destruct (Dict.get "covariance-matrix" d) as [c|] eqn:Hc; [|done].
  injection Hcov as ->.
  destruct (Dict.get "matrix" cov_d) as [f|] eqn:Hf; [|done].
  injection Hflat as ->.
  destruct (Dict.get "fit-parameters" d) as [fp'|] eqn:Hfp'; [|done].
  injection Hfp as ->.
  rewrite Hk in Hk'. injection Hk' as <-.
  unfold np.reshape_asmatrix in Hm. case_bool_decide as Hlen; [|done].
  injection Hm as <-.
  unfold setitem_in in Hd1. simpl in Hd1. rewrite Hc in Hd1. simpl in Hd1.
  injection Hd1 as <-. simpl in Hd2. injection Hd2 as <-.
  exists d, cov_d, flat, fl, fp, k. done.
Qed.

Lemma dict_get_mem k d v : Dict.get k d = Some v -> Dict.mem k d = true.
Proof. unfold Dict.mem. by intros ->. Qed.

Lemma from_yaml_file_body_Ret name s s' :
  from_yaml_file_body get_fit_result_path name s = (Ret tt, s') -> populated s'.
Proof.
  unfold from_yaml_file_body, try_except.
  match goal with |- context [bind ?m ?k s] => destruct (bind m k s) as [[[]|e|] s1] eqn:Hbody end.
  - intros [= <-].
    apply bind_Ret in Hbody as (cfg & s2 & Hload & Hbody).
    unfold load_config in Hload.
    destruct (files s !! get_fit_result_path name) as [cfg0|]; [|done].
    simpl in Hload.
    destruct (Dict.get "fit-parameters" cfg0) as [v|] eqn:Hfit; simpl in Hload; [|done].
    assert (cfg0 <> []) as Hne by (apply (dict_mem_nonempty "fit-parameters"), (dict_get_mem _ _ v Hfit)).
    match type of Hload with (match ?l with _ => _ end) = _ => destruct l; [|done] end.
    injection Hload as <- <-.
    unfold bind, alloc, set_result in Hbody. simpl in Hbody. injection Hbody as <-.
    eexists _, cfg0. simpl. split; [reflexivity|]. split; [apply lookup_insert_eq | done].
  - destruct e; unfold raise; intros [=].
  - intros [=].
Qed.

Lemma populate_Ret p s s' :
  populates p = true ->
  populate get_fit_result_path p s = (Ret tt, s') -> populated s'.
Proof.
  destruct p as [r|l|name|name]; simpl; [| | |done]; intros _ H;
    apply ensure_non_initialized_Ret in H.
  - by eapply from_roofit_body_Ret.
  - apply from_yaml_body_Ret in H as (d & cov & flat & fl & fp & k & _ & _ & _ & _ & _ & _ & _ & ->).
    eexists _, _. simpl. split; [reflexivity|]. split; [apply lookup_insert_eq|].
    apply dict_set_nonempty.
  - by eapply from_yaml_file_body_Ret.
Qed.

Lemma populate_populated p s :
  populated s -> populate get_fit_result_path p s = (Raise AlreadyInitializedError, s).
Proof.
  intros Hs. destruct p; simpl; by apply ensure_non_initialized_populated.
Qed.

Lemma run_op_populated o s :
  populated s ->
  populated (run_op get_fit_result_path multivariate_normal o s).2
  /\ heap (run_op get_fit_result_path multivariate_normal o s).2 = heap s /\ self (run_op get_fit_result_path multivariate_normal o s).2 = self s.
Proof.
  intros Hs. destruct o as [p|r]; simpl.
  - unfold bind. rewrite (populate_populated p s Hs). simpl. done.
  - destruct (read multivariate_normal r s) as [o s'] eqn:Hr.
    apply preserves_read in Hr as (Hh & _ & Hself). simpl.
    split; [|done].
    destruct Hs as (l & d & Hl & Hd & Hne). exists l, d.
    rewrite Hh, Hself. done.
Qed.

Lemma run_ops_populated ops : forall s,
  populated s ->
  populated (later ops s)
  /\ heap (later ops s) = heap s /\ self (later ops s) = self s.
Proof.
  induction ops as [|o ops IH]; intros s Hs; simpl; [done|].
  destruct (run_op_populated o s Hs) as (Hp & Hh & Hself).
  destruct (IH _ Hp) as (Hp' & Hh' & Hself').
  split; [done|]. split; congruence.
Qed.

(** A populate call that does not return leaves [_result] as it was. *)
Lemma from_yaml_body_self yaml_dict s o s' :
  from_yaml_body yaml_dict s = (o, s') -> o = Ret tt \/ self s' = self s.
Proof.
  unfold from_yaml_body, bind, deref, lift, raise, store, set_result.
  repeat (match goal with
          | |- context [match ?x with _ => _ end] =>
              lazymatch x with
              | context [match _ with _ => _ end] => fail
              | _ => destruct x
              end
          | |- context [if ?b then _ else _] => destruct b
          end; simpl);
    intros [= <- <-]; auto.
Qed.

Lemma load_config_state path validate s o s' :
  load_config path validate s = (o, s') -> s' = s.
Proof.
  unfold load_config. destruct (files s !! path); [|by intros [= _ <-]].
  destruct (List.filter _ validate); by intros [= _ <-].
Qed.

Lemma from_yaml_file_body_self name s o s' :
  from_yaml_file_body get_fit_result_path name s = (o, s') ->
  o = Ret tt \/ self s' = self s.
Proof.
  unfold from_yaml_file_body, try_except, bind.
  destruct (load_config _ _ s) as [[cfg|e|] s1] eqn:Hload;
    apply load_config_state in Hload as ->.
  - unfold alloc, set_result. simpl. intros [= <- <-]. auto.
  - destruct e; unfold raise; intros [= <- <-]; auto.
  - intros [= <- <-]. auto.
Qed.

Lemma populate_unset q s o s' :
  _result (self s) = None ->
  populate get_fit_result_path q s = (o, s') ->
  (o = Ret tt /\ populates q = true) \/ _result (self s') = None.
Proof.
  intros Hs. destruct q as [r|l|name|name]; simpl;
    unfold from_roofit, from_yaml, from_yaml_file, from_hdf;
    rewrite ensure_non_initialized_unset by done.
  - unfold from_roofit_body, bind, alloc, set_result. simpl. intros [= <- <-]. auto.
  - intros H. apply from_yaml_body_self in H as [->| ->]; auto.
  - intros H. apply from_yaml_file_body_self in H as [->| ->]; auto.
  - intros [= <- <-]. auto.
Qed.

(** C1.  (1) After a populate call that succeeded (from an engine result, a
    serialized dictionary or a file), and after any further operations on the
    object, every populate call raises [AlreadyInitializedError] and leaves the
    state as it was; the stored result is the one the first call stored.
    (2) While [_result] is unset, each of the nine read operations raises
    [NotInitializedError] and changes nothing.  (3) [_result] stays unset until
    a populate call succeeds; [from_hdf], which stores nothing, never sets it. *)
Theorem single_assignment :
  (forall p s s1 ops q,
     populates p = true ->
     populate get_fit_result_path p s = (Ret tt, s1) ->
     populate get_fit_result_path q (later ops s1)
       = (Raise AlreadyInitializedError, later ops s1)
     /\ _result (self (later ops s1)) = _result (self s1)
     /\ heap (later ops s1) = heap s1)
  /\ (forall r s,
        _result (self s) = None ->
        read multivariate_normal r s = (Raise NotInitializedError, s))
  /\ (forall q s o s',
        _result (self s) = None ->
        populate get_fit_result_path q s = (o, s') ->
        (o = Ret tt /\ populates q = true) \/ _result (self s') = None).
Proof.
  split; [|split].
  - intros p s s1 ops q Hp Hs1.
    pose proof (populate_Ret p s s1 Hp Hs1) as Hpop.
    destruct (run_ops_populated ops s1 Hpop) as (Hpop' & Hh & Hself).
    split; [by apply populate_populated|]. split; [by rewrite Hself | done].
  - intros r s Hs. destruct r; simpl; unfold bind;
      unfold to_yaml, to_plain_dict, get_fit_parameter, get_const_parameter,
        get_fit_parameters, get_covariance_matrix, get_edm, has_converged,
        generate_random_pars;
      by rewrite ensure_initialized_unset.
  - intros q s o s'. apply populate_unset.
Qed.

(** *** Dictionaries *)

Lemma dict_get_set_eq k v d : Dict.get k (Dict.set k v d) = Some v.
Proof.
  induction d as [|[k' v'] d IH]; simpl.
  - by rewrite String.eqb_refl.
  - destruct (String.eqb k k') eqn:Hk; simpl; rewrite ?String.eqb_refl, ?Hk; done.
Qed.

Lemma dict_get_set_ne k k' v d : k <> k' -> Dict.get k' (Dict.set k v d) = Dict.get k' d.
Proof.
  intros Hne. induction d as [|[k0 v0] d IH]; simpl.
  - apply String.eqb_neq in Hne. rewrite String.eqb_sym in Hne. by rewrite Hne.
  - destruct (String.eqb k k0) eqn:Hk; simpl.
    + apply String.eqb_eq in Hk as <-.
      assert (String.eqb k' k = false) as -> by (apply String.eqb_neq; congruence).
      done.
    + by rewrite IH.
Qed.



Lemma dict_keys_set_mem k v v' d :
  Dict.get k d = Some v' -> Dict.keys (Dict.set k v d) = Dict.keys d.
Proof.
  unfold Dict.keys. induction d as [|[k0 v0] d IH]; simpl; [done|].
  destruct (String.eqb k k0) eqn:Hk; simpl.
  - apply String.eqb_eq in Hk as <-. done.
  - intros H. f_equal. by apply IH.
Qed.

Lemma dict_get_None k d : Dict.get k d = None <-> k ∉ Dict.keys d.
Proof.
  unfold Dict.keys. induction d as [|[k0 v0] d IH]; simpl.
  - split; [intros _; apply not_elem_of_nil | done].
  - rewrite not_elem_of_cons. destruct (String.eqb k k0) eqn:Hk.
    + apply String.eqb_eq in Hk as <-. split; [done | intros [? _]; done].
    + apply String.eqb_neq in Hk. rewrite IH.
      split; [intros H; by split | by intros [_ H]].
Qed.

Lemma dict_set_new k v d : Dict.get k d = None -> Dict.set k v d = (d ++ [(k, v)])%list.
Proof.
  induction d as [|[k0 v0] d IH]; simpl; [done|].
  destruct (String.eqb k k0); [done|]. intros H. by rewrite IH.
Qed.

Lemma floats_fmap fl : np.floats (VFloat <$> fl) = Some fl.
Proof.
  induction fl as [|f fl IH]; [done|].
  change (np.floats (VFloat <$> f :: fl)) with (cons f <$> np.floats (VFloat <$> fl)).
  by rewrite IH.
Qed.

(** *** Serialized records *)

#[local] Arguments Dict.keys_issuperset : simpl never.
#[local] Arguments Dict.get : simpl never.
#[local] Arguments Dict.set : simpl never.

Lemma from_yaml_ok s yaml_dict d cov fl K :
  _result (self s) = None ->
  heap s !! yaml_dict = Some d ->
  well_formed_record d cov fl K ->
  from_yaml yaml_dict s
  = (Ret tt, mkState (<[yaml_dict := with_matrix (VMatrix K K fl) d cov]> (heap s))
               (files s) (rng s) {| _result := Some yaml_dict |}).
Proof.
  intros Hs Hd [Hkeys Hcov Hcov_keys Hmatrix (fit & Hfit & Hlen) Hsize].
  unfold from_yaml. rewrite ensure_non_initialized_unset by done.
  unfold from_yaml_body, bind, deref, lift. rewrite Hd, Hkeys. simpl.
  rewrite Hcov. simpl. rewrite Hcov_keys. simpl. rewrite Hmatrix. simpl.
  rewrite floats_fmap, Hfit. simpl. rewrite Hlen.
  unfold np.reshape_asmatrix. rewrite bool_decide_eq_true_2 by done.
  unfold setitem_in. simpl. rewrite Hcov. simpl. reflexivity.
Qed.

(** C10.  [from_yaml] on a well-formed record makes no copy: [_result] becomes
    the caller's own location and no cell is added to the store.  The caller's
    dictionary is rewritten in place: under [covariance-matrix]/[matrix] it now
    holds the [K] by [K] matrix, no longer the flat list; every other cell of
    the store is untouched.  The object and the caller share the dictionary
    from then on: what the caller writes into it afterwards is what the object
    reads as its result. *)
Theorem from_yaml_keeps_the_callers_dictionary s yaml_dict d cov fl K :
  _result (self s) = None ->
  heap s !! yaml_dict = Some d ->
  well_formed_record d cov fl K ->
  exists s',
    from_yaml yaml_dict s = (Ret tt, s')
    /\ _result (self s') = Some yaml_dict
    /\ dom (heap s') = dom (heap s)
    /\ heap s' !! yaml_dict = Some (with_matrix (VMatrix K K fl) d cov)
    /\ getitem (VDict (with_matrix (VMatrix K K fl) d cov)) "covariance-matrix"
       = Ret (VDict (Dict.set "matrix" (VMatrix K K fl) cov))
    /\ Dict.get "matrix" (Dict.set "matrix" (VMatrix K K fl) cov) = Some (VMatrix K K fl)
    /\ VMatrix K K fl <> VList (VFloat <$> fl)
    /\ (forall l, l <> yaml_dict -> heap s' !! l = heap s !! l)
    /\ (forall key v,
          (caller_setitem yaml_dict key v ;; self_result) s'
          = (Ret (VDict (Dict.set key v (with_matrix (VMatrix K K fl) d cov))),
             mkState (<[yaml_dict := Dict.set key v (with_matrix (VMatrix K K fl) d cov)]>
                        (heap s'))
               (files s') (rng s') (self s'))).
Proof.
  intros Hs Hd Hwf.
  eexists. split; [by apply from_yaml_ok|]. simpl.
  split; [done|]. split.
  { apply dom_insert_lookup_L. by eexists. }
  split; [apply lookup_insert_eq|]. split.
  { unfold with_matrix. simpl. by rewrite dict_get_set_eq. }
  split; [apply dict_get_set_eq|]. split; [done|]. split.
  { intros l Hl. by apply lookup_insert_ne. }
  intros key v.
  unfold caller_setitem, self_result, bind, deref, store, get_result. simpl.
  rewrite lookup_insert_eq. simpl. rewrite lookup_insert_eq. reflexivity.
Qed.




(** *** Convergence *)

Lemma py_any_ints codes :
  py_any (VInt <$> codes) = Ret (existsb (fun code => negb (code =? 0)) codes).
Proof.
  induction codes as [|code codes IH]; [done|].
  change (VInt <$> code :: codes) with (VInt code :: (VInt <$> codes)).
  cbn [py_any truthy obind existsb]. rewrite IH.
  by destruct (negb (code =? 0)).
Qed.

Lemma existsb_nonzero codes :
  existsb (fun code => negb (code =? 0)) codes = false <-> Forall (fun code => code = 0) codes.
Proof.
  induction codes as [|code codes IH]; simpl.
  - split; [constructor | done].
  - rewrite orb_false_iff, IH, negb_false_iff, Z.eqb_eq, Forall_cons. done.
Qed.

Lemma has_converged_ints s l d status cov codes quality :
  _result (self s) = Some l ->
  heap s !! l = Some d ->
  Dict.get "status" d = Some (VDict status) ->
  Dict.values status = VInt <$> codes ->
  Dict.get "covariance-matrix" d = Some (VDict cov) ->
  Dict.get "quality" cov = Some (VInt quality) ->
  has_converged s
  = (Ret (negb (existsb (fun code => negb (code =? 0)) codes) && (quality =? 3)), s).
Proof.
  intros Hl Hd Hstatus Hcodes Hcov Hq. unfold has_converged.
  rewrite ensure_initialized_populated.
  2:{ exists l, d. split; [done|]. split; [done|].
      by eapply dict_mem_nonempty, dict_get_mem. }
  unfold has_converged_body, self_result, bind, get_result, deref, lift.
  rewrite Hl. simpl. rewrite Hd. simpl. rewrite Hstatus. simpl.
  rewrite Hcodes, py_any_ints.
  destruct (existsb _ codes); simpl; [done|].
  rewrite Hcov. simpl. rewrite Hq. reflexivity.
Qed.

(** The status history of an engine result is stored as integer codes. *)
Lemma dict_update_ints pairs : forall d codes,
  Dict.values d = VInt <$> codes ->
  exists codes',
    Dict.values (Dict.update d ((fun cycle : string * Z => (cycle.1, VInt cycle.2)) <$> pairs))
    = VInt <$> codes'.
Proof.
  induction pairs as [|[label code] pairs IH]; intros d codes Hd.
  - by exists codes.
  - change (Dict.update d _) with
      (Dict.update (Dict.set label (VInt code) d)
         ((fun cycle : string * Z => (cycle.1, VInt cycle.2)) <$> pairs)).
    assert (exists codes1, Dict.values (Dict.set label (VInt code) d) = VInt <$> codes1)
      as [codes1 H1].
    { clear IH. revert codes Hd. unfold Dict.values.
      induction d as [|[k v] d IHd]; intros codes Hd.
      - by exists [code].
      - destruct codes as [|c codes]; [done|].
        injection Hd as Hv Hd. simpl in Hv. subst v.
        unfold Dict.set; fold Dict.set. destruct (String.eqb label k).
        + exists (code :: codes). simpl. f_equal. exact Hd.
        + destruct (IHd codes Hd) as [codes1 H1]. exists (c :: codes1).
          simpl. f_equal. exact H1. }
    by eapply IH.
Qed.

(** C3.  For a populated object whose status codes and quality grade are
    integers, [has_converged] returns true exactly when every recorded status
    code is zero and the quality grade is 3.  Every object populated from an
    engine result is of that kind. *)
Theorem has_converged_iff :
  (forall s l d status cov codes quality,
     _result (self s) = Some l ->
     heap s !! l = Some d ->
     Dict.get "status" d = Some (VDict status) ->
     Dict.values status = VInt <$> codes ->
     Dict.get "covariance-matrix" d = Some (VDict cov) ->
     Dict.get "quality" cov = Some (VInt quality) ->
     exists b,
       has_converged s = (Ret b, s)
       /\ (b = true <-> Forall (fun code => code = 0) codes /\ quality = 3))
  /\ (forall roofit_result s s',
        from_roofit roofit_result s = (Ret tt, s') ->
        exists l d status codes b,
          _result (self s') = Some l
          /\ heap s' !! l = Some d
          /\ Dict.get "status" d = Some (VDict status)
          /\ Dict.values status = VInt <$> codes
          /\ has_converged s' = (Ret b, s')
          /\ (b = true <->
              Forall (fun code => code = 0) codes /\ covQual roofit_result = 3)).
Proof.
  split.
  - intros s l d status cov codes quality Hl Hd Hstatus Hcodes Hcov Hq.
    eexists. split; [by eapply has_converged_ints|].
    rewrite andb_true_iff, negb_true_iff, existsb_nonzero, Z.eqb_eq. done.
  - intros r s s' H. apply ensure_non_initialized_Ret in H.
    unfold from_roofit_body, bind, alloc, set_result in H. simpl in H.
    injection H as <-.
    destruct (dict_update_ints (statusHistory r) [] [] eq_refl) as [codes Hcodes].
    eexists _, _, _, codes, _. simpl.
    split; [reflexivity|]. split; [apply lookup_insert_eq|].
    split; [reflexivity|]. split; [exact Hcodes|]. split.
    + eapply has_converged_ints; simpl;
        [reflexivity | apply lookup_insert_eq | reflexivity | exact Hcodes
        | reflexivity | reflexivity].
    + rewrite andb_true_iff, negb_true_iff, existsb_nonzero, Z.eqb_eq. done.
Qed.

(** *** The flat record *)

Lemma dict_update_app d pairs1 pairs2 :
  Dict.update (Dict.update d pairs1) pairs2 = Dict.update d (pairs1 ++ pairs2).
Proof. unfold Dict.update. by rewrite foldl_app. Qed.

(** Writing pairs whose keys are new and distinct appends them. *)
Lemma dict_update_new pairs : forall d,
  NoDup (Dict.keys d ++ pairs.*1) -> Dict.update d pairs = (d ++ pairs)%list.
Proof.
  induction pairs as [|[k v] pairs IH]; intros d Hnd.
  - by rewrite app_nil_r.
  - change (Dict.update d ((k, v) :: pairs)) with (Dict.update (Dict.set k v d) pairs).
    simpl in Hnd. apply NoDup_app in Hnd as (Hd & Hdisj & Hpairs).
    apply NoDup_cons in Hpairs as [Hk Hpairs].
    rewrite dict_set_new.
    2:{ apply dict_get_None. intros Hin. apply (Hdisj k Hin). by left. }
    rewrite IH; [by rewrite <- app_assoc|].
    unfold Dict.keys. rewrite fmap_app. simpl. rewrite <- app_assoc. simpl.
    apply NoDup_app. split; [done|]. split; [|by apply NoDup_cons].
    intros x Hx. by apply Hdisj.
Qed.

Lemma param_columns_names param_name param vals :
  iterate param = Ret vals -> (4 <= length vals)%nat ->
  exists cols, param_columns param_name param = Ret cols
               /\ cols.*1 = parameter_columns param_name.
Proof.
  intros Hvals Hlen. unfold param_columns. rewrite Hvals. simpl.
  destruct vals as [|a [|b [|c' [|e vals]]]]; simpl in Hlen; try lia.
  destruct vals; eexists; split; reflexivity.
Qed.

Lemma fit_columns_names fit :
  Forall (fun kv => exists vals, iterate kv.2 = Ret vals /\ (4 <= length vals)%nat) fit ->
  exists cols, fit_columns fit = Ret cols
               /\ cols.*1 = flat_map parameter_columns (Dict.keys fit).
Proof.
  induction 1 as [|[param_name param] fit (vals & Hvals & Hlen) _ (rest & Hrest & Hnames)].
  - by exists [].
  - destruct (param_columns_names param_name param vals Hvals Hlen) as (cols & Hcols & Hc).
    exists (cols ++ rest)%list. simpl. rewrite Hcols. simpl. rewrite Hrest. simpl.
    split; [done|]. by rewrite fmap_app, Hc, Hnames.
Qed.

Lemma length_flat_map_parameter_columns names :
  length (flat_map parameter_columns names) = (4 * length names)%nat.
Proof. induction names as [|n names IH]; simpl; [done | rewrite IH; lia]. Qed.

#[local] Arguments Dict.update : simpl never.
#[local] Arguments Dict.of_pairs : simpl never.

Lemma to_plain_dict_columns s l d fit const status cov quality edm_value cols
    (skip_cov : bool) r c fl :
  _result (self s) = Some l ->
  heap s !! l = Some d ->
  Dict.get "fit-parameters" d = Some (VDict fit) ->
  Dict.get "const-parameters" d = Some (VDict const) ->
  Dict.get "status" d = Some (VDict status) ->
  Dict.get "covariance-matrix" d = Some (VDict cov) ->
  Dict.get "quality" cov = Some quality ->
  Dict.get "edm" d = Some edm_value ->
  fit_columns fit = Ret cols ->
  (skip_cov = false -> Dict.get "matrix" cov = Some (VMatrix r c fl)) ->
  NoDup ((cols.*1 ++ Dict.keys const
          ++ (summary_columns status quality edm_value).*1)
         ++ (if skip_cov then [] else ["cov_matrix"])) ->
  to_plain_dict skip_cov s
  = (Ret ((cols ++ const ++ summary_columns status quality edm_value)
          ++ (if skip_cov then [] else [("cov_matrix", VArray fl)]))%list, s).
Proof.
  intros Hl Hd Hfit Hconst Hstatus Hcov Hq Hedm Hcols Hm Hnd. unfold to_plain_dict.
  rewrite ensure_initialized_populated.
  2:{ exists l, d. split; [done|]. split; [done|].
      by eapply dict_mem_nonempty, dict_get_mem. }
  unfold to_plain_dict_body, self_result, bind, get_result, deref, lift.
  rewrite Hl. simpl. rewrite Hd. simpl. rewrite Hfit. simpl. rewrite Hcols. simpl.
  rewrite Hconst. simpl. rewrite Hstatus. simpl. rewrite Hcov. simpl.
  rewrite Hq. simpl. rewrite Hedm. simpl.
  assert (forall k v d0, Dict.set k v d0 = Dict.update d0 [(k, v)]) as E by reflexivity.
  assert (Dict.of_pairs const = const) as ->.
  { unfold Dict.of_pairs. rewrite dict_update_new; [done|]. simpl.
    apply NoDup_app in Hnd as (Hnd & _ & _).
    apply NoDup_app in Hnd as (_ & _ & Hnd).
    by apply NoDup_app in Hnd as (Hnd & _ & _). }
  destruct skip_cov; simpl.
  - unfold ret. rewrite !E. unfold Dict.of_pairs. rewrite !dict_update_app.
    rewrite app_nil_r in Hnd |- *.
    rewrite dict_update_new; [reflexivity|].
    unfold Dict.keys in *. simpl. rewrite !fmap_app. exact Hnd.
  - rewrite (Hm eq_refl). simpl.
    unfold ret. rewrite !E. unfold Dict.of_pairs. rewrite !dict_update_app.
    rewrite dict_update_new.
    + simpl. by rewrite <- !app_assoc.
    + unfold Dict.keys in *. simpl. rewrite !fmap_app.
      rewrite <- !app_assoc in Hnd. exact Hnd.
Qed.

(** C4, amended.  Take a populated object whose record has an [edm] entry and
    whose floating parameters each hold (at least) four values, and let the
    [4K + M + 5] column names be pairwise distinct: every floating name alone
    and with the suffixes [_err_hesse], [_err_plus], [_err_minus], every
    constant name, and [status_migrad], [status_hesse], [status_minos],
    [cov_quality], [edm].  Then [to_plain_dict] without covariance returns
    exactly these [4K + M + 5] columns; and when covariance is requested (and
    no column is called [cov_matrix]) it returns them followed by the one
    entry [cov_matrix], the flattened matrix. *)
Theorem to_plain_dict_column_count s l d fit const status cov quality edm_value :
  _result (self s) = Some l ->
  heap s !! l = Some d ->
  Dict.get "fit-parameters" d = Some (VDict fit) ->
  Dict.get "const-parameters" d = Some (VDict const) ->
  Dict.get "status" d = Some (VDict status) ->
  Dict.get "covariance-matrix" d = Some (VDict cov) ->
  Dict.get "quality" cov = Some quality ->
  Dict.get "edm" d = Some edm_value ->
  Forall (fun kv => exists vals, iterate kv.2 = Ret vals /\ (4 <= length vals)%nat) fit ->
  NoDup (column_names fit const) ->
  exists flat,
    to_plain_dict true s = (Ret flat, s)
    /\ length flat = (4 * length fit + length const + 5)%nat
    /\ Dict.keys flat = column_names fit const
    /\ (forall r c fl,
          Dict.get "matrix" cov = Some (VMatrix r c fl) ->
          "cov_matrix" ∉ column_names fit const ->
          to_plain_dict false s = (Ret (flat ++ [("cov_matrix", VArray fl)])%list, s)).
Proof.
  intros Hl Hd Hfit Hconst Hstatus Hcov Hq Hedm Hvals Hnd.
  destruct (fit_columns_names fit Hvals) as (cols & Hcols & Hnames).
  exists (cols ++ const ++ summary_columns status quality edm_value)%list.
  split.
  { rewrite <- (app_nil_r (cols ++ _)).
    eapply (to_plain_dict_columns s l d fit const status cov quality edm_value cols
              true 0%nat 0%nat []); try done.
    rewrite app_nil_r, Hnames. exact Hnd. }
  split.
  { rewrite !length_app. simpl.
    rewrite <- (length_fmap fst cols), Hnames, length_flat_map_parameter_columns.
    unfold Dict.keys. rewrite length_fmap. lia. }
  split.
  { unfold Dict.keys, column_names. rewrite !fmap_app, Hnames. reflexivity. }
  intros r c fl Hm Hfree.
  eapply (to_plain_dict_columns s l d fit const status cov quality edm_value cols
            false r c fl); try done.
  rewrite Hnames. apply NoDup_app. split; [exact Hnd|]. split.
  - intros x Hx Hx'. apply list_elem_of_singleton in Hx' as ->. by apply Hfree.
  - apply NoDup_singleton.
Qed.

End FitResultFacts.

(** ** Worked examples of the fit result manager *)

Lemma serialized_record_well_formed :
  well_formed_record serialized_record serialized_covariance
    [1%float; 0.5%float; 0.5%float; 2%float] 2.
Proof.
  split; try reflexivity. eexists. split; reflexivity.
Qed.

Example has_converged_all_zero_quality_3 :
  (result.has_converged (status_state 0 0 3)).1 = Ret true.
Proof. reflexivity. Qed.

Example has_converged_one_nonzero_status :
  (result.has_converged (status_state 0 4 3)).1 = Ret false.
Proof. reflexivity. Qed.

Example has_converged_quality_2 :
  (result.has_converged (status_state 0 0 2)).1 = Ret false.
Proof. reflexivity. Qed.

(** A record loaded without [edm] populates the object, but has no flat record. *)
Example to_plain_dict_without_edm :
  (result.from_yaml 0%nat caller_state_without_edm).1 = Ret tt
  /\ (result.to_plain_dict true (result.from_yaml 0%nat caller_state_without_edm).2).1
     = Raise KeyError.
Proof. split; reflexivity. Qed.

Lemma single_assignment_witness :
  (result.populate toy_path (result.FromYaml 0%nat)
     (run_ops toy_path central_sample
        [Read result.HasConverged; Populate (result.FromHdf "toys");
         Read (result.GenerateRandomPars true)] engine_state)
   = (Raise AlreadyInitializedError,
      run_ops toy_path central_sample
        [Read result.HasConverged; Populate (result.FromHdf "toys");
         Read (result.GenerateRandomPars true)] engine_state)
   /\ _result (self (run_ops toy_path central_sample
                       [Read result.HasConverged; Populate (result.FromHdf "toys");
                        Read (result.GenerateRandomPars true)] engine_state))
      = _result (self engine_state)
   /\ heap (run_ops toy_path central_sample
              [Read result.HasConverged; Populate (result.FromHdf "toys");
               Read (result.GenerateRandomPars true)] engine_state)
      = heap engine_state)
  /\ result.read central_sample result.ToYaml fresh = (Raise NotInitializedError, fresh).
Proof.
  destruct (single_assignment toy_path central_sample) as (H1 & H2 & _).
  split.
  - apply (H1 (result.FromRoofit engine_result) fresh); reflexivity.
  - apply H2. reflexivity.
Defined.


Lemma has_converged_iff_witness :
  exists b,
    result.has_converged (status_state 0 0 3) = (Ret b, status_state 0 0 3)
    /\ (b = true <-> Forall (fun code => code = 0) [0; 0] /\ 3 = 3).
Proof.
  eapply (proj1 has_converged_iff (status_state 0 0 3) 0%nat); reflexivity.
Defined.

Lemma from_yaml_keeps_the_callers_dictionary_witness :
  exists s',
    result.from_yaml 0%nat caller_state = (Ret tt, s')
    /\ _result (self s') = Some 0%nat
    /\ dom (heap s') = dom (heap caller_state).
Proof.
  destruct (from_yaml_keeps_the_callers_dictionary caller_state 0%nat serialized_record
              serialized_covariance [1%float; 0.5%float; 0.5%float; 2%float] 2
              eq_refl eq_refl serialized_record_well_formed)
    as (s' & H1 & H2 & H3 & _).
  exists s'. split; [exact H1|]. split; [exact H2 | exact H3].
Defined.

Lemma to_plain_dict_column_count_witness :
  exists flat,
    result.to_plain_dict true engine_state = (Ret flat, engine_state)
    /\ length flat = (4 * 2 + 1 + 5)%nat.
Proof.
  edestruct (to_plain_dict_column_count engine_state 0%nat) as (flat & H1 & H2 & _).
  - reflexivity.
  - reflexivity.
  - reflexivity.
  - reflexivity.
  - reflexivity.
  - reflexivity.
  - reflexivity.
  - reflexivity.
  - repeat (apply Forall_cons_2; [eexists; split; [reflexivity | simpl; lia]|]).
    apply Forall_nil_2.
  - apply (bool_decide_unpack _). vm_compute. exact I.
  - exists flat. split; [exact H1 | exact H2].
Defined.

(** C4 as worded fails: the names [a] and [a_err_hesse] are distinct, yet the
    twelve columns they give are fewer than [4 * 2 + 0 + 5]. *)
Lemma column_count_counterexample : ~ column_count_as_claimed.
Proof.
  intros H.
  pose proof (H clashing_state 0%nat clashing_record clashing_fit [] clashing_flat
                clashing_state eq_refl eq_refl eq_refl eq_refl) as Hlen.
  assert (length clashing_flat = (4 * length clashing_fit + length (@nil (string * value)) + 5)%nat)
    as Habs.
  { apply Hlen.
    - apply (bool_decide_unpack _). vm_compute. exact I.
    - reflexivity. }
  vm_compute in Habs. discriminate Habs.
Qed.

(** * Further properties *)

(** ** The fit result manager, continued *)

Section FitResultMore.
Import result.

Variable get_fit_result_path : string -> string.
Variable multivariate_normal : list value -> value -> N -> outcome (list value) * N.

(** *** Lookups in dictionaries built from pairs *)

Lemma dict_get_elem_of d : forall k v,
  NoDup (Dict.keys d) -> (k, v) ∈ d -> Dict.get k d = Some v.
Proof.
  unfold Dict.keys. induction d as [|[k0 v0] d IH]; intros k v Hnd Hin.
  - by apply elem_of_nil in Hin.
  - simpl in Hnd. apply NoDup_cons in Hnd as [Hk0 Hnd].
    apply elem_of_cons in Hin as [[= -> ->]|Hin]; simpl.
    + by rewrite String.eqb_refl.
    + destruct (String.eqb k k0) eqn:Hk; [|by apply IH].
      apply String.eqb_eq in Hk as ->. exfalso. apply Hk0.
      apply list_elem_of_fmap. by exists (k0, v).
Qed.

Lemma dict_of_pairs_new pairs : NoDup pairs.*1 -> Dict.of_pairs pairs = pairs.
Proof. intros Hnd. unfold Dict.of_pairs. by rewrite dict_update_new. Qed.

Lemma dict_get_of_pairs_None pairs k :
  NoDup pairs.*1 -> k ∉ pairs.*1 -> Dict.get k (Dict.of_pairs pairs) = None.
Proof. intros Hnd Hk. rewrite dict_of_pairs_new by done. by apply dict_get_None. Qed.

(** *** What [from_roofit] stores *)

Lemma from_roofit_Ret roofit_result s s1 :
  from_roofit roofit_result s = (Ret tt, s1) ->
  exists l d,
    s1 = mkState (<[l := d]> (heap s)) (files s) (rng s) {| _result := Some l |}
    /\ heap s !! l = None
    /\ d <> []
    /\ Dict.get "const-parameters" d
       = Some (VDict (Dict.of_pairs
                        ((fun fit_par => (GetName fit_par, VFloat (getVal fit_par)))
                           <$> constPars roofit_result)))
    /\ Dict.get "fit-parameters" d
       = Some (VDict (Dict.of_pairs
                        ((fun fit_par => (GetName fit_par, stored_values fit_par))
                           <$> floatParsFinal roofit_result)))
    /\ Dict.get "covariance-matrix" d
       = Some (VDict [("quality", VInt (covQual roofit_result));
                      ("matrix", np.matrix (GetNcols (covarianceMatrix roofit_result))
                                   (matrix_rows (covarianceMatrix roofit_result)))])
    /\ Dict.get "status" d
       = Some (VDict (Dict.of_pairs
                        ((fun cycle : string * Z => (cycle.1, VInt cycle.2))
                           <$> statusHistory roofit_result)))
    /\ Dict.get "edm" d = Some (VFloat (edm roofit_result)).
Proof.
  intros H. apply ensure_non_initialized_Ret in H.
  unfold from_roofit_body, bind, alloc, set_result in H. simpl in H.
  injection H as <-.
  eexists _, _. split; [reflexivity|]. split.
  { apply not_elem_of_dom, is_fresh. }
  split; [done|]. repeat split; reflexivity.
Qed.

Lemma populated_insert l d h f g :
  d <> [] -> populated (mkState (<[l := d]> h) f g {| _result := Some l |}).
Proof.
  intros Hd. exists l, d. simpl. split; [done|]. split; [apply lookup_insert_eq | done].
Qed.

(** X1.  After [from_roofit], [get_fit_parameter] and [get_const_parameter] give
    back what the engine reported under each name (for a floating parameter
    the value, the error, the lower and the upper error, in that order), and
    raise [KeyError] for a name the engine did not report.  Names are taken to
    be distinct within each of the two collections. *)
Theorem parameters_of_an_engine_result roofit_result s s1 :
  from_roofit roofit_result s = (Ret tt, s1) ->
  NoDup (GetName <$> floatParsFinal roofit_result) ->
  NoDup (GetName <$> constPars roofit_result) ->
  (forall fit_par, fit_par ∈ floatParsFinal roofit_result ->
     get_fit_parameter (GetName fit_par) s1 = (Ret (stored_values fit_par), s1))
  /\ (forall name, name ∉ GetName <$> floatParsFinal roofit_result ->
        get_fit_parameter name s1 = (Raise KeyError, s1))
  /\ (forall fit_par, fit_par ∈ constPars roofit_result ->
        get_const_parameter (GetName fit_par) s1 = (Ret (VFloat (getVal fit_par)), s1))
  /\ (forall name, name ∉ GetName <$> constPars roofit_result ->
        get_const_parameter name s1 = (Raise KeyError, s1)).
Proof.
  intros H Hfit Hconst.
  apply from_roofit_Ret in H
    as (l & d & -> & _ & Hd & Hc & Hf & _ & _ & _).
  pose proof (populated_insert l d (heap s) (files s) (rng s) Hd) as Hpop.
  assert (forall (A : Type) (f : RooRealVar -> A) (pars : list RooRealVar),
            ((fun fit_par => (GetName fit_par, f fit_par)) <$> pars).*1 = GetName <$> pars)
    as Hnames.
  { intros A f pars. rewrite <- list_fmap_compose. done. }
  repeat split.
  - intros p Hp. unfold get_fit_parameter. rewrite ensure_initialized_populated by done.
    unfold self_result, bind, get_result, deref, lift. simpl.
    rewrite lookup_insert_eq. simpl. rewrite Hf. simpl.
    rewrite dict_of_pairs_new by (by rewrite Hnames).
    erewrite dict_get_elem_of; [reflexivity | unfold Dict.keys; by rewrite Hnames |].
    apply list_elem_of_fmap. by exists p.
  - intros name Hname. unfold get_fit_parameter.
    rewrite ensure_initialized_populated by done.
    unfold self_result, bind, get_result, deref, lift. simpl.
    rewrite lookup_insert_eq. simpl. rewrite Hf. simpl.
    rewrite dict_get_of_pairs_None; [done | by rewrite Hnames | by rewrite Hnames].
  - intros p Hp. unfold get_const_parameter. rewrite ensure_initialized_populated by done.
    unfold self_result, bind, get_result, deref, lift. simpl.
    rewrite lookup_insert_eq. simpl. rewrite Hc. simpl.
    rewrite dict_of_pairs_new by (by rewrite Hnames).
    erewrite dict_get_elem_of; [reflexivity | unfold Dict.keys; by rewrite Hnames |].
    apply list_elem_of_fmap. by exists p.
  - intros name Hname. unfold get_const_parameter.
    rewrite ensure_initialized_populated by done.
    unfold self_result, bind, get_result, deref, lift. simpl.
    rewrite lookup_insert_eq. simpl. rewrite Hc. simpl.
    rewrite dict_get_of_pairs_None; [done | by rewrite Hnames | by rewrite Hnames].
Qed.

(** *** The status history *)

Lemma dict_get_app k d1 d2 :
  Dict.get k (d1 ++ d2)
  = match Dict.get k d1 with Some v => Some v | None => Dict.get k d2 end.
Proof.
  induction d1 as [|[k0 v0] d1 IH]; simpl; [done|].
  by destruct (String.eqb k k0).
Qed.

(** Of the pairs written under one key, the last one stays. *)
Lemma dict_get_update_last pairs : forall d k,
  Dict.get k (Dict.update d pairs)
  = match last (List.filter (fun kv => String.eqb kv.1 k) pairs) with
    | Some kv => Some kv.2
    | None => Dict.get k d
    end.
Proof.
  induction pairs as [|[k0 v0] pairs IH]; intros d k; [done|].
  change (Dict.update d ((k0, v0) :: pairs)) with (Dict.update (Dict.set k0 v0 d) pairs).
  rewrite IH. simpl.
  destruct (String.eqb k0 k) eqn:Hk.
  - apply String.eqb_eq in Hk as ->.
    destruct (List.filter _ pairs) as [|kv rest] eqn:Hf; simpl.
    + apply dict_get_set_eq.
    + destruct (last (kv :: rest)) eqn:Hlast; [done|].
      by apply last_None in Hlast.
  - destruct (last (List.filter _ pairs)); [done|].
    apply dict_get_set_ne. by apply String.eqb_neq.
Qed.

Lemma dict_keys_set k v d :
  Dict.keys (Dict.set k v d)
  = if Dict.mem k d then Dict.keys d else (Dict.keys d ++ [k])%list.
Proof.
  unfold Dict.mem. destruct (Dict.get k d) as [v'|] eqn:Hget.
  - by eapply dict_keys_set_mem.
  - rewrite dict_set_new by done. unfold Dict.keys. by rewrite fmap_app.
Qed.

Lemma dict_keys_update_NoDup pairs : forall d,
  NoDup (Dict.keys d) -> NoDup (Dict.keys (Dict.update d pairs)).
Proof.
  induction pairs as [|[k v] pairs IH]; intros d Hd; [done|].
  change (Dict.update d ((k, v) :: pairs)) with (Dict.update (Dict.set k v d) pairs).
  apply IH. rewrite dict_keys_set. unfold Dict.mem.
  destruct (Dict.get k d) eqn:Hget; [done|].
  apply NoDup_app. split; [done|]. split; [|apply NoDup_singleton].
  intros x Hx Hx'. apply list_elem_of_singleton in Hx' as ->.
  by apply dict_get_None in Hget.
Qed.

Lemma dict_values_get d v :
  NoDup (Dict.keys d) ->
  v ∈ Dict.values d <-> exists k, Dict.get k d = Some v.
Proof.
  intros Hnd. unfold Dict.values. split.
  - intros Hv. apply list_elem_of_fmap in Hv as ([k v'] & -> & Hin).
    exists k. by apply dict_get_elem_of.
  - intros [k Hk]. apply list_elem_of_fmap.
    exists (k, v). split; [done|].
    clear Hnd. induction d as [|[k0 v0] d IH]; simpl in Hk; [done|].
    destruct (String.eqb k k0) eqn:Hk0.
    + apply String.eqb_eq in Hk0 as ->. injection Hk as ->. by left.
    + right. by apply IH.
Qed.

Lemma last_fmap_filter_status label (history : list (string * Z)) :
  match last (List.filter (fun kv : string * value => String.eqb kv.1 label)
                ((fun cycle : string * Z => (cycle.1, VInt cycle.2)) <$> history)) with
  | Some kv => Some kv.2
  | None => None
  end = VInt <$> last_code label history.
Proof.
  unfold last_code.
  assert (List.filter (fun kv : string * value => String.eqb kv.1 label)
            ((fun cycle : string * Z => (cycle.1, VInt cycle.2)) <$> history)
          = (fun cycle : string * Z => (cycle.1, VInt cycle.2))
              <$> List.filter (fun cycle => String.eqb cycle.1 label) history) as ->.
  { induction history as [|[l0 c0] history IH]; [done|].
    simpl. destruct (String.eqb l0 label); simpl; [f_equal|]; exact IH. }
  rewrite fmap_last. by destruct (last _) as [[l0 c0]|].
Qed.

(** X2.  [from_roofit] records one code for each stage label, the code of the
    last cycle that carries the label, and [has_converged] judges by these
    codes alone: it returns true exactly when the last code of every label is
    zero and the quality grade is 3.  An earlier non-zero code of a stage that
    was run again is not seen. *)
Theorem status_keeps_the_last_code roofit_result s s1 :
  from_roofit roofit_result s = (Ret tt, s1) ->
  exists l d status b,
    _result (self s1) = Some l
    /\ heap s1 !! l = Some d
    /\ Dict.get "status" d = Some (VDict status)
    /\ (forall label,
          Dict.get label status = VInt <$> last_code label (statusHistory roofit_result))
    /\ has_converged s1 = (Ret b, s1)
    /\ (b = true <->
        (forall label code,
           last_code label (statusHistory roofit_result) = Some code -> code = 0)
        /\ covQual roofit_result = 3).
Proof.
  intros H.
  apply from_roofit_Ret in H as (l & d & -> & _ & Hd & _ & _ & Hcov & Hstatus & _).
  destruct (dict_update_ints (statusHistory roofit_result) [] [] eq_refl) as [codes Hcodes].
  assert (forall label,
            Dict.get label (Dict.of_pairs
                              ((fun cycle : string * Z => (cycle.1, VInt cycle.2))
                                 <$> statusHistory roofit_result))
            = VInt <$> last_code label (statusHistory roofit_result)) as Hlast.
  { intros label. unfold Dict.of_pairs. rewrite dict_get_update_last.
    rewrite <- last_fmap_filter_status.
    by destruct (last _). }
  eexists l, d, _, _. simpl.
  split; [done|]. split; [apply lookup_insert_eq|]. split; [exact Hstatus|].
  split; [exact Hlast|]. split.
  { eapply has_converged_ints; simpl;
      [reflexivity | apply lookup_insert_eq | exact Hstatus | exact Hcodes
      | exact Hcov | reflexivity]. }
  rewrite andb_true_iff, negb_true_iff, existsb_nonzero, Z.eqb_eq.
  assert (NoDup (Dict.keys (Dict.of_pairs
                              ((fun cycle : string * Z => (cycle.1, VInt cycle.2))
                                 <$> statusHistory roofit_result)))) as Hnd.
  { apply dict_keys_update_NoDup. constructor. }
  split; intros [Hall Hq]; (split; [|done]).
  - intros label code Hcode.
    rewrite Forall_forall in Hall. apply Hall.
    assert (VInt code ∈ VInt <$> codes) as Hin.
    { rewrite <- Hcodes. apply dict_values_get; [done|].
      exists label. by rewrite Hlast, Hcode. }
    apply list_elem_of_fmap in Hin as (c & [= ->] & Hc). done.
  - apply Forall_forall. intros code Hin.
    assert (VInt code ∈ Dict.values (Dict.of_pairs
              ((fun cycle : string * Z => (cycle.1, VInt cycle.2))
                 <$> statusHistory roofit_result))) as Hv.
    { unfold Dict.of_pairs. rewrite Hcodes. apply list_elem_of_fmap. by exists code. }
    apply dict_values_get in Hv as [label Hlabel]; [|done].
    rewrite Hlast in Hlabel.
    destruct (last_code label (statusHistory roofit_result)) as [c|] eqn:Hc; [|done].
    injection Hlabel as ->. by eapply Hall.
Qed.

(** *** Failures of [from_yaml] *)

#[local] Arguments Dict.keys_issuperset : simpl never.
#[local] Arguments Dict.get : simpl never.
#[local] Arguments Dict.set : simpl never.

(** A decorated populate method either runs its body or leaves without a
    result and without a trace. *)
Lemma ensure_non_initialized_inv {A} (m : M A) s o s' :
  ensure_non_initialized m s = (o, s') ->
  m s = (o, s') \/ (is_ret o = false /\ s' = s).
Proof.
  unfold ensure_non_initialized, bind, get_result, truthy_result, deref, lift.
  destruct (_result (self s)) as [l|]; simpl; [|auto].
  unfold bind. destruct (heap s !! l) as [d|]; simpl.
  - destruct d; simpl; [auto|]. unfold raise. intros [= <- <-]. auto.
  - intros [= <- <-]. auto.
Qed.

(** The body of [from_yaml] writes only once nothing can fail any more. *)
Lemma from_yaml_body_state yaml_dict s o s' :
  from_yaml_body yaml_dict s = (o, s') -> o = Ret tt \/ s' = s.
Proof.
  unfold from_yaml_body, bind, deref, lift, raise, store, set_result.
  repeat (match goal with
          | |- context [match ?x with _ => _ end] =>
              lazymatch x with
              | context [match _ with _ => _ end] => fail
              | _ => destruct x
              end
          | |- context [if ?b then _ else _] => destruct b
          end; simpl);
    intros [= <- <-]; auto.
Qed.

Lemma keys_issuperset_missing d required key :
  key ∈ required -> Dict.get key d = None -> Dict.keys_issuperset d required = false.
Proof.
  intros Hin Hget. unfold Dict.keys_issuperset.
  apply not_true_iff_false. intros Hall.
  rewrite forallb_forall in Hall.
  assert (Dict.mem key d = true) as Hmem.
  { apply Hall. by apply list_elem_of_In. }
  unfold Dict.mem in Hmem. by rewrite Hget in Hmem.
Qed.

(** X3.  [from_yaml] is all or nothing: whenever it does not return, the
    caller's dictionary, the rest of the store and the object are exactly as
    before.  A record that lacks one of the five required keys, or whose
    covariance entry lacks [quality] or [matrix], is refused with [KeyError];
    a matrix whose length is not the square of the number of floating
    parameters is refused with [ValueError]. *)
Theorem from_yaml_is_all_or_nothing :
  (forall yaml_dict s o s',
     from_yaml yaml_dict s = (o, s') -> o <> Ret tt -> s' = s)
  /\ (forall s yaml_dict d key,
        _result (self s) = None ->
        heap s !! yaml_dict = Some d ->
        key ∈ ["fit-parameters"; "fit-parameters-initial"; "const-parameters";
               "covariance-matrix"; "status"] ->
        Dict.get key d = None ->
        from_yaml yaml_dict s = (Raise KeyError, s))
  /\ (forall s yaml_dict d cov key,
        _result (self s) = None ->
        heap s !! yaml_dict = Some d ->
        Dict.keys_issuperset d
          ["fit-parameters"; "fit-parameters-initial"; "const-parameters";
           "covariance-matrix"; "status"] = true ->
        Dict.get "covariance-matrix" d = Some (VDict cov) ->
        key ∈ ["quality"; "matrix"] ->
        Dict.get key cov = None ->
        from_yaml yaml_dict s = (Raise KeyError, s))
  /\ (forall s yaml_dict d cov fl fit,
        _result (self s) = None ->
        heap s !! yaml_dict = Some d ->
        Dict.keys_issuperset d
          ["fit-parameters"; "fit-parameters-initial"; "const-parameters";
           "covariance-matrix"; "status"] = true ->
        Dict.get "covariance-matrix" d = Some (VDict cov) ->
        Dict.keys_issuperset cov ["quality"; "matrix"] = true ->
        Dict.get "matrix" cov = Some (VList (VFloat <$> fl)) ->
        Dict.get "fit-parameters" d = Some (VDict fit) ->
        length fl <> (length fit * length fit)%nat ->
        from_yaml yaml_dict s = (Raise ValueError, s)).
Proof.
  split; [|split; [|split]].
  - intros yaml_dict s o s' H Ho.
    apply ensure_non_initialized_inv in H as [H|[_ ->]]; [|done].
    apply from_yaml_body_state in H as [->| ->]; done.
  - intros s yaml_dict d key Hs Hd Hkey Hget.
    unfold from_yaml. rewrite ensure_non_initialized_unset by done.
    unfold from_yaml_body, bind, deref. rewrite Hd.
    by rewrite (keys_issuperset_missing d _ key).
  - intros s yaml_dict d cov key Hs Hd Hkeys Hcov Hkey Hget.
    unfold from_yaml. rewrite ensure_non_initialized_unset by done.
    unfold from_yaml_body, bind, deref, lift. rewrite Hd, Hkeys. simpl.
    rewrite Hcov. simpl.
    by rewrite (keys_issuperset_missing cov _ key).
  - intros s yaml_dict d cov fl fit Hs Hd Hkeys Hcov Hcov_keys Hmatrix Hfit Hlen.
    unfold from_yaml. rewrite ensure_non_initialized_unset by done.
    unfold from_yaml_body, bind, deref, lift. rewrite Hd, Hkeys. simpl.
    rewrite Hcov. simpl. rewrite Hcov_keys. simpl. rewrite Hmatrix. simpl.
    rewrite floats_fmap, Hfit. simpl.
    unfold np.reshape_asmatrix. by rewrite bool_decide_eq_false_2.
Qed.

(** *** A record loaded from a file *)

Lemma from_yaml_file_Ret name s s1 :
  from_yaml_file get_fit_result_path name s = (Ret tt, s1) ->
  exists cfg l cov m,
    files s !! get_fit_result_path name = Some cfg
    /\ heap s !! l = None
    /\ Dict.get "covariance-matrix" cfg = Some (VDict cov)
    /\ Dict.get "matrix" cov = Some m
    /\ s1 = mkState (<[l := cfg]> (heap s)) (files s) (rng s) {| _result := Some l |}.
Proof.
  intros H. apply ensure_non_initialized_Ret in H.
  unfold from_yaml_file_body, try_except, bind, load_config in H.
  destruct (files s !! get_fit_result_path name) as [cfg|] eqn:Hfile; [|done].
  destruct (List.filter _ _) as [|missing rest] eqn:Hfilter; [|done].
  unfold alloc, set_result in H. simpl in H. injection H as <-.
  assert (has_path ["covariance-matrix"; "matrix"] (VDict cfg) = true) as Hpath.
  { destruct (has_path ["covariance-matrix"; "matrix"] (VDict cfg)) eqn:Hp; [done|].
    exfalso.
    assert (["covariance-matrix"; "matrix"]
            ∈ List.filter (fun p => negb (has_path p (VDict cfg)))
                [["fit-parameters"]; ["fit-parameters-initial"]; ["const-parameters"];
                 ["covariance-matrix"; "quality"]; ["covariance-matrix"; "matrix"];
                 ["status"]]) as Hin.
    { apply list_elem_of_In, filter_In. split; [|by rewrite Hp].
      apply list_elem_of_In. set_solver. }
    rewrite Hfilter in Hin. by apply elem_of_nil in Hin. }
  simpl in Hpath.
  destruct (Dict.get "covariance-matrix" cfg) as [[| | | | | | | | |cov]|] eqn:Hcov; try done.
  destruct (Dict.get "matrix" cov) as [m|] eqn:Hm; [|done].
  eexists cfg, _, cov, m.
  split; [done|]. split; [apply not_elem_of_dom, is_fresh|]. done.
Qed.

(** X4.  [from_yaml_file] stores the mapping of the file as it is: the matrix
    stays the flat sequence the file holds and is what [get_covariance_matrix]
    returns, where [from_yaml] would have stored a [K] by [K] matrix.  Since
    that sequence is no matrix, [to_yaml] on such an object raises
    [AttributeError]. *)
Theorem from_yaml_file_keeps_the_flat_matrix name s s1 :
  from_yaml_file get_fit_result_path name s = (Ret tt, s1) ->
  exists cfg cov m,
    files s !! get_fit_result_path name = Some cfg
    /\ Dict.get "covariance-matrix" cfg = Some (VDict cov)
    /\ Dict.get "matrix" cov = Some m
    /\ self_result s1 = (Ret (VDict cfg), s1)
    /\ get_covariance_matrix s1 = (Ret m, s1)
    /\ ((forall r c fl, m <> VMatrix r c fl) ->
        to_yaml s1 = (Raise AttributeError, s1)).
Proof.
  intros H.
  apply from_yaml_file_Ret in H as (cfg & l & cov & m & Hfile & _ & Hcov & Hm & ->).
  assert (cfg <> []) as Hne by (by eapply dict_mem_nonempty, dict_get_mem).
  pose proof (populated_insert l cfg (heap s) (files s) (rng s) Hne) as Hpop.
  exists cfg, cov, m. do 3 (split; [done|]).
  split; [|split].
  - unfold self_result, bind, get_result, deref. simpl.
    by rewrite lookup_insert_eq.
  - unfold get_covariance_matrix. rewrite ensure_initialized_populated by done.
    unfold self_result, bind, get_result, deref, lift. simpl.
    rewrite lookup_insert_eq. simpl. rewrite Hcov. simpl. by rewrite Hm.
  - intros Hflat. unfold to_yaml. rewrite ensure_initialized_populated by done.
    unfold to_yaml_body, self_result, bind, get_result, deref, lift. simpl.
    rewrite lookup_insert_eq. simpl. rewrite Hcov. simpl. rewrite Hm. simpl.
    destruct m; try reflexivity. by destruct (Hflat nrows ncols l0).
Qed.

(** *** From the engine to a serialized record and back *)

Lemma from_roofit_record roofit_result s s1 :
  from_roofit roofit_result s = (Ret tt, s1) ->
  exists l,
    heap s !! l = None
    /\ s1 = mkState (<[l := engine_record roofit_result]> (heap s)) (files s) (rng s)
              {| _result := Some l |}.
Proof.
  intros H. apply ensure_non_initialized_Ret in H.
  unfold from_roofit_body, bind, alloc, set_result in H. simpl in H.
  injection H as <-.
  eexists. split; [apply not_elem_of_dom, is_fresh | reflexivity].
Qed.

Lemma matrix_rows_shape m :
  length (matrix_rows m) = GetNrows m
  /\ length (concat (matrix_rows m)) = (GetNrows m * GetNcols m)%nat.
Proof.
  unfold matrix_rows. split; [by rewrite length_fmap, length_seq|].
  generalize 0%nat at 2. induction (GetNrows m) as [|n IH]; intros start; [done|].
  simpl. rewrite length_app, length_fmap, length_seq, IH. done.
Qed.

Lemma from_yaml_returns s yaml_dict d cov flat fl fit :
  _result (self s) = None ->
  heap s !! yaml_dict = Some d ->
  Dict.keys_issuperset d
    ["fit-parameters"; "fit-parameters-initial"; "const-parameters";
     "covariance-matrix"; "status"] = true ->
  Dict.get "covariance-matrix" d = Some (VDict cov) ->
  Dict.keys_issuperset cov ["quality"; "matrix"] = true ->
  Dict.get "matrix" cov = Some flat ->
  np.array flat = Ret fl ->
  Dict.get "fit-parameters" d = Some (VDict fit) ->
  length fl = (length fit * length fit)%nat ->
  from_yaml yaml_dict s
  = (Ret tt,
     mkState (<[yaml_dict := with_matrix (VMatrix (length fit) (length fit) fl) d cov]>
                (heap s))
       (files s) (rng s) {| _result := Some yaml_dict |}).
Proof.
  intros Hs Hd Hkeys Hcov Hcov_keys Hmatrix Harray Hfit Hsize.
  unfold from_yaml. rewrite ensure_non_initialized_unset by done.
  unfold from_yaml_body, bind, deref, lift. rewrite Hd, Hkeys. simpl.
  rewrite Hcov. simpl. rewrite Hcov_keys. simpl. rewrite Hmatrix. simpl.
  rewrite Harray, Hfit. simpl.
  unfold np.reshape_asmatrix. rewrite bool_decide_eq_true_2 by done.
  unfold setitem_in. simpl. rewrite Hcov. simpl. reflexivity.
Qed.

(** X5.  An engine result survives serialization: when the engine reports at
    least one floating parameter, distinct names, and a covariance matrix with
    one row and one column for each of them, [to_yaml] returns a record from
    which [from_yaml] populates a second object with exactly the record the
    first one holds. *)
Theorem from_yaml_restores_an_engine_record roofit_result s s1 :
  from_roofit roofit_result s = (Ret tt, s1) ->
  NoDup (GetName <$> floatParsFinal roofit_result) ->
  (0 < length (floatParsFinal roofit_result))%nat ->
  GetNrows (covarianceMatrix roofit_result) = length (floatParsFinal roofit_result) ->
  GetNcols (covarianceMatrix roofit_result) = length (floatParsFinal roofit_result) ->
  exists yaml,
    to_yaml s1 = (Ret (VDict yaml), s1)
    /\ self_result s1 = (Ret (VDict (engine_record roofit_result)), s1)
    /\ forall s2 yaml_dict,
         _result (self s2) = None ->
         heap s2 !! yaml_dict = Some yaml ->
         exists s3,
           from_yaml yaml_dict s2 = (Ret tt, s3)
           /\ (self_result s3).1 = Ret (VDict (engine_record roofit_result)).
Proof.
  intros H Hnames Hpos Hrows Hcols.
  apply from_roofit_record in H as (l & _ & ->).
  set (K := length (floatParsFinal roofit_result)) in *.
  set (fl := concat (matrix_rows (covarianceMatrix roofit_result))).
  destruct (matrix_rows_shape (covarianceMatrix roofit_result)) as [Hlen Hsize].
  assert (np.matrix (GetNcols (covarianceMatrix roofit_result))
            (matrix_rows (covarianceMatrix roofit_result)) = VMatrix K K fl) as Hmatrix.
  { unfold np.matrix.
    destruct (matrix_rows (covarianceMatrix roofit_result)) as [|row rows] eqn:Hr.
    - simpl in Hlen. lia.
    - by rewrite Hlen, Hrows, Hcols. }
  assert (length (Dict.of_pairs
                    ((fun fit_par => (GetName fit_par, stored_values fit_par))
                       <$> floatParsFinal roofit_result)) = K) as Hfit.
  { rewrite dict_of_pairs_new; [by rewrite length_fmap|].
    by rewrite <- list_fmap_compose. }
  assert (engine_record roofit_result <> []) as Hne by done.
  pose proof (populated_insert l _ (heap s) (files s) (rng s) Hne) as Hpop.
  eexists. split; [|split].
  - unfold to_yaml. rewrite ensure_initialized_populated by done.
    unfold to_yaml_body, self_result, bind, get_result, deref, lift.
    cbn [self _result heap]. rewrite lookup_insert_eq.
    unfold engine_record. rewrite Hmatrix. reflexivity.
  - unfold self_result, bind, get_result, deref. cbn [self _result heap].
    by rewrite lookup_insert_eq.
  - intros s2 yaml_dict Hs2 Hyaml. eexists. split.
    + eapply from_yaml_returns; [done|exact Hyaml|reflexivity|reflexivity|reflexivity
                                 |reflexivity|reflexivity|reflexivity|].
      rewrite Hfit. unfold fl. rewrite Hsize, Hrows, Hcols. done.
    + unfold self_result, bind, get_result, deref. cbn [self _result heap].
      rewrite lookup_insert_eq. cbn [fst]. rewrite Hfit.
      unfold engine_record. rewrite Hmatrix. reflexivity.
Qed.

(** *** The flat record of an engine result *)

#[local] Arguments Dict.update : simpl never.
#[local] Arguments Dict.of_pairs : simpl never.

Lemma append_empty (name : string) : (name ++ "")%string = name.
Proof.
  induction name as [|a name IH]; [done|].
  change (String a (name ++ "")%string = String a name). by rewrite IH.
Qed.

Lemma NoDup_parameter_names names :
  NoDup (flat_map parameter_columns names) -> NoDup names.
Proof.
  induction names as [|n names IH]; intros Hnd; [constructor|].
  change (flat_map parameter_columns (n :: names))
    with (parameter_columns n ++ flat_map parameter_columns names)%list in Hnd.
  apply NoDup_app in Hnd as (_ & Hdisj & Hnd).
  apply NoDup_cons. split; [|by apply IH].
  intros Hin. apply (Hdisj (n ++ "")%string); [by left|].
  apply list_elem_of_In, in_flat_map. exists n.
  split; [by apply list_elem_of_In | by left].
Qed.

Lemma fit_columns_engine pars :
  fit_columns ((fun fit_par => (GetName fit_par, stored_values fit_par)) <$> pars)
  = Ret (flat_map
           (fun fit_par =>
              [((GetName fit_par ++ "")%string, VFloat (getVal fit_par));
               ((GetName fit_par ++ "_err_hesse")%string, VFloat (getError fit_par));
               ((GetName fit_par ++ "_err_plus")%string, VFloat (getErrorLo fit_par));
               ((GetName fit_par ++ "_err_minus")%string, VFloat (getErrorHi fit_par))])
           pars).
Proof.
  induction pars as [|p pars IH]; [done|].
  change (fit_columns ((λ fit_par, (GetName fit_par, stored_values fit_par)) <$> p :: pars))
    with (let? cols := param_columns (GetName p) (stored_values p) in
          let? rest := fit_columns
                         ((fun fit_par => (GetName fit_par, stored_values fit_par)) <$> pars) in
          Ret (cols ++ rest)%list)%outcome.
  rewrite IH. reflexivity.
Qed.

Lemma engine_columns_names pars :
  (flat_map
     (fun fit_par =>
        [((GetName fit_par ++ "")%string, VFloat (getVal fit_par));
         ((GetName fit_par ++ "_err_hesse")%string, VFloat (getError fit_par));
         ((GetName fit_par ++ "_err_plus")%string, VFloat (getErrorLo fit_par));
         ((GetName fit_par ++ "_err_minus")%string, VFloat (getErrorHi fit_par))])
     pars).*1
  = flat_map parameter_columns (GetName <$> pars).
Proof.
  induction pars as [|p pars IH]; [done|].
  rewrite fmap_cons. cbn [flat_map]. rewrite fmap_app, IH. reflexivity.
Qed.

Lemma status_column label (history : list (string * Z)) :
  get_default (Dict.of_pairs ((fun cycle : string * Z => (cycle.1, VInt cycle.2)) <$> history))
    label (VInt (-1))
  = VInt (default (-1) (last_code label history)).
Proof.
  unfold get_default, Dict.of_pairs. rewrite dict_get_update_last.
  pose proof (last_fmap_filter_status label history) as H.
  destruct (last (List.filter _ (_ <$> history))) as [kv|];
    destruct (last_code label history) as [code|]; simpl in H; try done.
  by injection H as ->.
Qed.

(** X6.  The flat record of an engine result, when its column names are
    pairwise distinct: each floating parameter's value under its name, its
    error under [_err_hesse], what the engine calls its lower error under
    [_err_plus] and its upper error under [_err_minus]; each constant under
    its name; under [status_migrad], [status_hesse] and [status_minos] the
    last code of that stage, or -1 when the stage was not run; the quality
    grade and the distance to the minimum. *)
Theorem flat_record_of_an_engine_result roofit_result s s1 :
  from_roofit roofit_result s = (Ret tt, s1) ->
  NoDup (engine_column_names roofit_result) ->
  exists flat,
    to_plain_dict true s1 = (Ret flat, s1)
    /\ Dict.keys flat = engine_column_names roofit_result
    /\ (forall fit_par, fit_par ∈ floatParsFinal roofit_result ->
          Dict.get (GetName fit_par) flat = Some (VFloat (getVal fit_par))
          /\ Dict.get (GetName fit_par ++ "_err_hesse") flat
             = Some (VFloat (getError fit_par))
          /\ Dict.get (GetName fit_par ++ "_err_plus") flat
             = Some (VFloat (getErrorLo fit_par))
          /\ Dict.get (GetName fit_par ++ "_err_minus") flat
             = Some (VFloat (getErrorHi fit_par)))
    /\ (forall fit_par, fit_par ∈ constPars roofit_result ->
          Dict.get (GetName fit_par) flat = Some (VFloat (getVal fit_par)))
    /\ Dict.get "status_migrad" flat
       = Some (VInt (default (-1) (last_code "MIGRAD" (statusHistory roofit_result))))
    /\ Dict.get "status_hesse" flat
       = Some (VInt (default (-1) (last_code "HESSE" (statusHistory roofit_result))))
    /\ Dict.get "status_minos" flat
       = Some (VInt (default (-1) (last_code "MINOS" (statusHistory roofit_result))))
    /\ Dict.get "cov_quality" flat = Some (VInt (covQual roofit_result))
    /\ Dict.get "edm" flat = Some (VFloat (edm roofit_result)).
Proof.
  intros H Hnd.
  apply from_roofit_record in H as (l & _ & ->).
  assert (NoDup (GetName <$> floatParsFinal roofit_result)) as Hfit_nd.
  { apply NoDup_app in Hnd as (Hnd & _ & _). by apply NoDup_parameter_names. }
  assert (NoDup (GetName <$> constPars roofit_result)) as Hconst_nd.
  { apply NoDup_app in Hnd as (_ & _ & Hnd). by apply NoDup_app in Hnd as (Hnd & _ & _). }
  set (const := (fun fit_par => (GetName fit_par, VFloat (getVal fit_par)))
                  <$> constPars roofit_result).
  set (status := Dict.of_pairs ((fun cycle : string * Z => (cycle.1, VInt cycle.2))
                                  <$> statusHistory roofit_result)).
  assert (Dict.keys const = GetName <$> constPars roofit_result) as Hconst_keys.
  { unfold Dict.keys, const. by rewrite <- list_fmap_compose. }
  eexists. split; [|split].
  - eapply (to_plain_dict_columns _ l (engine_record roofit_result)
              _ const status _ (VInt (covQual roofit_result)) (VFloat (edm roofit_result))
              _ true 0%nat 0%nat []).
    + reflexivity.
    + apply lookup_insert_eq.
    + unfold engine_record.
      rewrite (dict_of_pairs_new (_ <$> floatParsFinal roofit_result))
        by (by rewrite <- list_fmap_compose).
      reflexivity.
    + unfold engine_record.
      rewrite (dict_of_pairs_new (_ <$> constPars roofit_result))
        by (by rewrite <- list_fmap_compose).
      reflexivity.
    + reflexivity.
    + reflexivity.
    + reflexivity.
    + reflexivity.
    + apply fit_columns_engine.
    + done.
    + rewrite app_nil_r, engine_columns_names, Hconst_keys. exact Hnd.
  - unfold Dict.keys. rewrite app_nil_r, !fmap_app, engine_columns_names.
    fold (Dict.keys const). rewrite Hconst_keys. reflexivity.
  - rewrite app_nil_r.
    match goal with |- context [Dict.get _ ?f] => set (flat := f) end.
    assert (NoDup (Dict.keys flat)) as Hflat.
    { unfold Dict.keys, flat. rewrite !fmap_app, engine_columns_names.
      fold (Dict.keys const). rewrite Hconst_keys. exact Hnd. }
    assert (forall k v, (k, v) ∈ flat -> Dict.get k flat = Some v) as Hget.
    { intros k v. by apply dict_get_elem_of. }
    split; [|split; [|repeat split]].
    + intros p Hp.
      assert (forall suffix v,
                ((GetName p ++ suffix)%string, v)
                ∈ [((GetName p ++ "")%string, VFloat (getVal p));
                   ((GetName p ++ "_err_hesse")%string, VFloat (getError p));
                   ((GetName p ++ "_err_plus")%string, VFloat (getErrorLo p));
                   ((GetName p ++ "_err_minus")%string, VFloat (getErrorHi p))] ->
                Dict.get (GetName p ++ suffix) flat = Some v) as Hcol.
      { intros suffix v Hin. apply Hget. unfold flat.
        apply elem_of_app. left.
        apply list_elem_of_In, in_flat_map. exists p.
        split; by apply list_elem_of_In. }
      rewrite <- (append_empty (GetName p)) at 1.
      repeat split; apply Hcol; set_solver.
    + intros p Hp. apply Hget. unfold flat.
      apply elem_of_app. right. apply elem_of_app. left.
      unfold const. apply list_elem_of_fmap. by exists p.
    + apply Hget. unfold flat. rewrite <- status_column.
      apply elem_of_app. right. apply elem_of_app. right. set_solver.
    + apply Hget. unfold flat. rewrite <- status_column.
      apply elem_of_app. right. apply elem_of_app. right. set_solver.
    + apply Hget. unfold flat. rewrite <- status_column.
      apply elem_of_app. right. apply elem_of_app. right. set_solver.
    + apply Hget. unfold flat.
      apply elem_of_app. right. apply elem_of_app. right. set_solver.
    + apply Hget. unfold flat.
      apply elem_of_app. right. apply elem_of_app. right. set_solver.
Qed.

(** *** A dictionary shared with the caller *)

Lemma ensure_initialized_empty {A} (m : M A) s l :
  _result (self s) = Some l -> heap s !! l = Some [] ->
  ensure_initialized m s = (Raise NotInitializedError, s).
Proof.
  intros Hl Hd.
  unfold ensure_initialized, bind, get_result, truthy_result, deref, lift.
  rewrite Hl. simpl. unfold bind. by rewrite Hd.
Qed.

Lemma ensure_non_initialized_empty {A} (m : M A) s l :
  _result (self s) = Some l -> heap s !! l = Some [] ->
  ensure_non_initialized m s = m s.
Proof.
  intros Hl Hd.
  unfold ensure_non_initialized, bind, get_result, truthy_result, deref, lift.
  rewrite Hl. simpl. unfold bind. by rewrite Hd.
Qed.

(** X7.  The decorators test the truth value of the stored dictionary, and
    after [from_yaml] that dictionary is the caller's own.  When the caller
    empties it, the object counts as not initialized again: every read method
    raises [NotInitializedError], and the populate methods are accepted
    anew. *)
Theorem emptied_dictionary_unsets_the_object yaml_dict s s1 :
  from_yaml yaml_dict s = (Ret tt, s1) ->
  exists s2,
    caller_clear yaml_dict s1 = (Ret tt, s2)
    /\ _result (self s2) = Some yaml_dict
    /\ (forall r, read multivariate_normal r s2 = (Raise NotInitializedError, s2))
    /\ (forall name, from_hdf name s2 = (Ret tt, s2))
    /\ (forall roofit_result,
          exists s3, from_roofit roofit_result s2 = (Ret tt, s3) /\ populated s3).
Proof.
  intros H. apply ensure_non_initialized_Ret, from_yaml_body_Ret in H
    as (d & cov & flat & fl & fp & k & _ & _ & _ & _ & _ & _ & _ & ->).
  eexists. split; [reflexivity|].
  match goal with |- _ /\ (forall r, _ _ _ ?s2 = _) /\ _ =>
    assert (_result (self s2) = Some yaml_dict) as Hl by reflexivity;
    assert (heap s2 !! yaml_dict = Some []) as Hd by apply lookup_insert_eq
  end.
  split; [done|]. split; [|split].
  - intros r.
    destruct r; unfold read, bind, to_yaml, to_plain_dict, get_fit_parameter,
      get_const_parameter, get_fit_parameters, get_covariance_matrix, get_edm,
      has_converged, generate_random_pars;
      by erewrite ensure_initialized_empty.
  - intros name. unfold from_hdf. by erewrite ensure_non_initialized_empty.
  - intros roofit_result. unfold from_roofit.
    erewrite ensure_non_initialized_empty by done.
    destruct (from_roofit_body roofit_result _) as [o s3] eqn:Hbody.
    assert (o = Ret tt) as ->.
    { unfold from_roofit_body, bind, alloc, set_result in Hbody. simpl in Hbody.
      by injection Hbody as <- _. }
    exists s3. split; [done|]. by eapply from_roofit_body_Ret.
Qed.

(** *** Random parameters *)

Lemma central_values pars :
  mapM getitem0
    (Dict.values ((fun fit_par => (GetName fit_par, stored_values fit_par)) <$> pars))
  = Ret ((fun fit_par => VFloat (getVal fit_par)) <$> pars).
Proof.
  induction pars as [|p pars IH]; [done|].
  unfold Dict.values in *. rewrite !fmap_cons. cbn [mapM]. rewrite IH. reflexivity.
Qed.

(** X8.  [generate_random_pars] on an engine result asks the sampler once,
    for a draw around the central values of the floating parameters, in the
    engine's order, with the stored covariance matrix.  When the sampler
    returns one number for each parameter, the result pairs the names with
    these numbers in order, followed (if asked for) by the constants with
    their values; the generator's state is the only thing that changes. *)
Theorem generate_random_pars_of_an_engine_result roofit_result s s1
    (include_const : bool) sample g :
  from_roofit roofit_result s = (Ret tt, s1) ->
  NoDup ((GetName <$> floatParsFinal roofit_result)
         ++ (GetName <$> constPars roofit_result)) ->
  multivariate_normal
    ((fun fit_par => VFloat (getVal fit_par)) <$> floatParsFinal roofit_result)
    (np.matrix (GetNcols (covarianceMatrix roofit_result))
       (matrix_rows (covarianceMatrix roofit_result)))
    (rng s1) = (Ret sample, g) ->
  length sample = length (floatParsFinal roofit_result) ->
  generate_random_pars multivariate_normal include_const s1
  = (Ret (zip (GetName <$> floatParsFinal roofit_result) sample
          ++ (if include_const
              then (fun fit_par => (GetName fit_par, VFloat (getVal fit_par)))
                     <$> constPars roofit_result
              else []))%list,
     mkState (heap s1) (files s1) g (self s1)).
Proof.
  intros H Hnd Hdraw Hlen.
  apply from_roofit_record in H as (l & _ & ->).
  pose proof Hnd as Hnd'.
  apply NoDup_app in Hnd' as (Hfit_nd & _ & Hconst_nd).
  assert (engine_record roofit_result <> []) as Hne by done.
  pose proof (populated_insert l _ (heap s) (files s) (rng s) Hne) as Hpop.
  assert (Dict.get "fit-parameters" (engine_record roofit_result)
          = Some (VDict ((fun fit_par => (GetName fit_par, stored_values fit_par))
                           <$> floatParsFinal roofit_result))) as Hfit.
  { unfold engine_record.
    rewrite (dict_of_pairs_new (_ <$> floatParsFinal roofit_result))
      by (by rewrite <- list_fmap_compose).
    reflexivity. }
  assert (Dict.get "const-parameters" (engine_record roofit_result)
          = Some (VDict ((fun fit_par => (GetName fit_par, VFloat (getVal fit_par)))
                           <$> constPars roofit_result))) as Hconst.
  { unfold engine_record.
    rewrite (dict_of_pairs_new (_ <$> constPars roofit_result))
      by (by rewrite <- list_fmap_compose).
    reflexivity. }
  assert (Dict.get "covariance-matrix" (engine_record roofit_result)
          = Some (VDict [("quality", VInt (covQual roofit_result));
                         ("matrix",
                          np.matrix (GetNcols (covarianceMatrix roofit_result))
                            (matrix_rows (covarianceMatrix roofit_result)))])) as Hcov
    by reflexivity.
  unfold generate_random_pars. rewrite ensure_initialized_populated by done.
  unfold generate_random_pars_body, self_result, bind, get_result, deref, lift, ret.
  cbn [self _result heap]. rewrite lookup_insert_eq.
  cbn [getitem]. rewrite Hfit. cbn [as_dict]. rewrite central_values.
  rewrite Hcov.
  change (getitem (VDict _) "matrix")
    with (@Ret value (np.matrix (GetNcols (covarianceMatrix roofit_result))
                        (matrix_rows (covarianceMatrix roofit_result)))).
  cbv beta iota. unfold draw. cbn [rng heap files self] in Hdraw |- *. rewrite Hdraw.
  assert (Dict.keys ((fun fit_par => (GetName fit_par, stored_values fit_par))
                       <$> floatParsFinal roofit_result)
          = GetName <$> floatParsFinal roofit_result) as ->.
  { unfold Dict.keys. by rewrite <- list_fmap_compose. }
  assert ((zip (GetName <$> floatParsFinal roofit_result) sample).*1
          = GetName <$> floatParsFinal roofit_result) as Hzip.
  { apply fst_zip. rewrite length_fmap. lia. }
  rewrite dict_of_pairs_new by (by rewrite Hzip).
  destruct include_const.
  - rewrite Hconst. cbn [as_dict]. rewrite dict_update_new; [reflexivity|].
    unfold Dict.keys. rewrite Hzip, <- list_fmap_compose. exact Hnd.
  - by rewrite app_nil_r.
Qed.

(** *** Reading *)

(** X9.  The read methods change nothing: whatever they return or raise,
    the store, the files and the object are as before, and so is the state
    of the random generator, except after [generate_random_pars], the only
    method that draws from it. *)
Theorem reads_change_nothing r s o s' :
  read multivariate_normal r s = (o, s') ->
  heap s' = heap s /\ files s' = files s /\ self s' = self s
  /\ ((forall include_const, r <> GenerateRandomPars include_const) -> s' = s).
Proof.
  intros H.
  destruct (preserves_read multivariate_normal r s o s' H) as (Hheap & Hfiles & Hself).
  do 3 (split; [done|]).
  intros Hr. revert H.
  destruct r; try (by destruct (Hr include_const));
    unfold read, to_yaml, to_plain_dict, get_fit_parameter, get_const_parameter,
      get_fit_parameters, get_covariance_matrix, get_edm, has_converged,
      ensure_initialized, to_yaml_body, to_plain_dict_body, has_converged_body,
      self_result, truthy_result, get_result, bind, deref, lift, raise, ret;
    repeat (match goal with
            | |- context [match ?x with _ => _ end] =>
                lazymatch x with
                | context [match _ with _ => _ end] => fail
                | _ => destruct x
                end
            | |- context [if ?b then _ else _] => destruct b
            end; simpl);
    by intros [= _ <-].
Qed.

(** *** Failures of [from_yaml_file] *)

(** X10.  [from_yaml_file] fails without a trace: whenever it does not
    return, the store and the object are as before.  A file that does not
    exist is an [OSError]; a file that lacks one of the six required
    entries is a [KeyError], the loader's own error being translated. *)
Theorem from_yaml_file_fails_without_effect :
  (forall name s o s',
     from_yaml_file get_fit_result_path name s = (o, s') -> o <> Ret tt -> s' = s)
  /\ (forall name s,
        _result (self s) = None ->
        files s !! get_fit_result_path name = None ->
        from_yaml_file get_fit_result_path name s = (Raise OSError, s))
  /\ (forall name s cfg path,
        _result (self s) = None ->
        files s !! get_fit_result_path name = Some cfg ->
        path ∈ [["fit-parameters"]; ["fit-parameters-initial"]; ["const-parameters"];
                ["covariance-matrix"; "quality"]; ["covariance-matrix"; "matrix"];
                ["status"]] ->
        has_path path (VDict cfg) = false ->
        from_yaml_file get_fit_result_path name s = (Raise KeyError, s)).
Proof.
  split; [|split].
  - intros name s o s' H Ho.
    apply ensure_non_initialized_inv in H as [H|[_ ->]]; [|done].
    revert H. unfold from_yaml_file_body, try_except, bind.
    destruct (load_config _ _ s) as [[cfg|e|] s1] eqn:Hload;
      apply load_config_state in Hload as ->.
    + unfold alloc, set_result. simpl. by intros [= <- _].
    + destruct e; unfold raise; by intros [= _ <-].
    + by intros [= _ <-].
  - intros name s Hs Hfile. unfold from_yaml_file.
    rewrite ensure_non_initialized_unset by done.
    unfold from_yaml_file_body, try_except, bind, load_config. by rewrite Hfile.
  - intros name s cfg path Hs Hfile Hpath Hmissing. unfold from_yaml_file.
    rewrite ensure_non_initialized_unset by done.
    unfold from_yaml_file_body, try_except, bind, load_config. rewrite Hfile.
    destruct (List.filter _ _) as [|missing rest] eqn:Hfilter; [|done].
    exfalso.
    assert (path ∈ List.filter (fun p => negb (has_path p (VDict cfg)))
                     [["fit-parameters"]; ["fit-parameters-initial"]; ["const-parameters"];
                      ["covariance-matrix"; "quality"]; ["covariance-matrix"; "matrix"];
                      ["status"]]) as Hin.
    { apply list_elem_of_In, filter_In. split; [by apply list_elem_of_In|].
      by rewrite Hmissing. }
    rewrite Hfilter in Hin. by apply elem_of_nil in Hin.
Qed.

End FitResultMore.

(** ** Block-diagonal matrices, continued *)

Section MakeBlockMore.
Import systematics.

(** Two arrays of one shape with the same entries are the same array. *)
Lemma ndarray_ext a b :
  well_shaped a -> well_shaped b ->
  shape0 a = shape0 b -> shape1 a = shape1 b ->
  (forall i j, (i < shape0 a)%nat -> (j < shape1 a)%nat -> item a i j = item b i j) ->
  a = b.
Proof.
  destruct a as [r c ra], b as [r' c' rb]. unfold well_shaped, item. simpl.
  intros [Hra Hca] [Hrb Hcb] <- <- Hitem. f_equal.
  apply list_eq. intros i.
  destruct (decide (i < r)%nat) as [Hi|Hi].
  - destruct (lookup_lt_is_Some_2 ra i) as [x Hx]; [lia|].
    destruct (lookup_lt_is_Some_2 rb i) as [y Hy]; [lia|].
    rewrite Hx, Hy. f_equal.
    rewrite Forall_forall in Hca, Hcb.
    pose proof (Hca x (list_elem_of_lookup_2 _ _ _ Hx)) as Hlx.
    pose proof (Hcb y (list_elem_of_lookup_2 _ _ _ Hy)) as Hly.
    apply list_eq. intros j.
    destruct (decide (j < c)%nat) as [Hj|Hj].
    + specialize (Hitem i j Hi Hj). by rewrite Hx, Hy in Hitem.
    + rewrite !lookup_ge_None_2 by lia. done.
  - rewrite !lookup_ge_None_2 by lia. done.
Qed.

Lemma in_block_cons mat ms k i j :
  in_block (mat :: ms) (S k) i j ->
  (shape0 mat <= i)%nat /\ (shape1 mat <= j)%nat
  /\ in_block ms k (i - shape0 mat) (j - shape1 mat).
Proof.
  intros (m & Hm & Hi & Hj). rewrite row_offset_cons in Hi.
  rewrite column_offset_cons in Hj.
  split; [lia|]. split; [lia|]. exists m. split; [done|]. lia.
Qed.

(** Every entry inside the shape lies in one block, or in none. *)
Lemma block_item_cases ms :
  Forall well_shaped ms ->
  forall i j,
    (i < sum_list_with shape0 ms)%nat -> (j < sum_list_with shape1 ms)%nat ->
    (exists k mat i' j',
       ms !! k = Some mat /\ (i' < shape0 mat)%nat /\ (j' < shape1 mat)%nat
       /\ i = (row_offset ms k + i')%nat /\ j = (column_offset ms k + j')%nat
       /\ item mat i' j' = Some (block_item ms i j))
    \/ ((forall k, ~ in_block ms k i j) /\ block_item ms i j = 0%float).
Proof.
  induction 1 as [|mat ms Hmat Hms IH]; intros i j Hi Hj; [simpl in Hi; lia|].
  simpl in Hi, Hj. simpl.
  destruct (i <? shape0 mat)%nat eqn:Hi0;
    [apply Nat.ltb_lt in Hi0 | apply Nat.ltb_ge in Hi0];
    (destruct (j <? shape1 mat)%nat eqn:Hj0;
     [apply Nat.ltb_lt in Hj0 | apply Nat.ltb_ge in Hj0]).
  - left. exists 0%nat, mat, i, j.
    destruct (item_is_Some mat i j Hmat Hi0 Hj0) as [x Hx].
    rewrite Hx. simpl. done.
  - right. split; [|done]. intros [|k].
    + intros (m & Hm & _ & Hc). simpl in Hm. injection Hm as <-.
      unfold column_offset in Hc. simpl in Hc. lia.
    + intros Hin. apply in_block_cons in Hin. lia.
  - right. split; [|done]. intros [|k].
    + intros (m & Hm & Hr & _). simpl in Hm. injection Hm as <-.
      unfold row_offset in Hr. simpl in Hr. lia.
    + intros Hin. apply in_block_cons in Hin. lia.
  - destruct (IH (i - shape0 mat)%nat (j - shape1 mat)%nat) as
      [(k & m & i' & j' & Hm & Hi' & Hj' & Hrow & Hcol & Hitem)|[Hnone Hzero]]; [lia..| |].
    + left. exists (S k), m, i', j'.
      rewrite row_offset_cons, column_offset_cons.
      split; [done|]. split; [done|]. split; [done|].
      split; [lia|]. split; [lia|]. done.
    + right. split; [|done]. intros [|k].
      * intros (m & Hm & Hr & _). simpl in Hm. injection Hm as <-.
        unfold row_offset in Hr. simpl in Hr. lia.
      * intros Hin. apply in_block_cons in Hin as (_ & _ & Hin). by apply (Hnone k).
Qed.

(** [make_block] computes [block_item]. *)
Lemma make_block_item ms :
  Forall well_shaped ms ->
  exists out,
    make_block ms = Ret out
    /\ shape0 out = sum_list_with shape0 ms
    /\ shape1 out = sum_list_with shape1 ms
    /\ well_shaped out
    /\ forall i j, (i < shape0 out)%nat -> (j < shape1 out)%nat ->
         item out i j = Some (block_item ms i j).
Proof.
  intros Hms.
  destruct (make_block_spec ms Hms) as (out & Hout & Hs0 & Hs1 & Hwf & Hin & Hzero).
  exists out. do 4 (split; [done|]).
  intros i j Hi Hj.
  destruct (block_item_cases ms Hms i j) as
    [(k & m & i' & j' & Hm & Hi' & Hj' & -> & -> & Hitem)|[Hnone ->]]; [lia..| |].
  - rewrite <- Hitem. by apply Hin.
  - by apply Hzero.
Qed.

Lemma block_item_app ms1 ms2 i j :
  block_item (ms1 ++ ms2) i j
  = if (i <? sum_list_with shape0 ms1)%nat then
      if (j <? sum_list_with shape1 ms1)%nat then block_item ms1 i j else 0%float
    else if (j <? sum_list_with shape1 ms1)%nat then 0%float
    else block_item ms2 (i - sum_list_with shape0 ms1) (j - sum_list_with shape1 ms1).
Proof.
  revert i j. induction ms1 as [|m ms1 IH]; intros i j.
  - simpl. by rewrite !Nat.sub_0_r.
  - cbn [app block_item sum_list_with]. rewrite IH.
    repeat match goal with
           | |- context [(?x <? ?y)%nat] =>
               let H := fresh "H" in
               destruct (x <? y)%nat eqn:H;
               [apply Nat.ltb_lt in H | apply Nat.ltb_ge in H]
           end; try lia; try reflexivity.
    f_equal; lia.
Qed.

Lemma block_item_symmetric ms :
  Forall symmetric ms -> forall i j, block_item ms i j = block_item ms j i.
Proof.
  induction 1 as [|m ms [Hsq Hsym] _ IH]; intros i j; [done|].
  cbn [block_item]. rewrite <- Hsq, (Hsym i j), IH.
  by destruct (i <? shape0 m)%nat, (j <? shape0 m)%nat.
Qed.

(** X11.  A single matrix is its own block-diagonal matrix, and blocks may be
    made of blocks: combining the block-diagonal matrix of some matrices with
    that of some others gives the block-diagonal matrix of all of them. *)
Theorem make_block_of_blocks :
  (forall mat, well_shaped mat -> make_block [mat] = Ret mat)
  /\ (forall ms1 ms2,
        Forall well_shaped ms1 -> Forall well_shaped ms2 ->
        exists b1 b2 out,
          make_block ms1 = Ret b1
          /\ make_block ms2 = Ret b2
          /\ make_block (ms1 ++ ms2) = Ret out
          /\ make_block [b1; b2] = Ret out).
Proof.
  split.
  - intros mat Hmat.
    destruct (make_block_item [mat]) as (out & Hout & Hs0 & Hs1 & Hwf & Hitem).
    { by apply Forall_cons_2. }
    simpl in Hs0, Hs1. rewrite Hout. f_equal.
    apply ndarray_ext; [done|done|lia|lia|].
    intros i j Hi Hj. rewrite Hitem by done. simpl.
    rewrite (proj2 (Nat.ltb_lt i (shape0 mat))) by lia.
    rewrite (proj2 (Nat.ltb_lt j (shape1 mat))) by lia.
    destruct (item_is_Some mat i j Hmat) as [x ->]; [lia..|]. done.
  - intros ms1 ms2 Hms1 Hms2.
    destruct (make_block_item ms1 Hms1) as (b1 & Hb1 & Hr1 & Hc1 & Hwf1 & Hitem1).
    destruct (make_block_item ms2 Hms2) as (b2 & Hb2 & Hr2 & Hc2 & Hwf2 & Hitem2).
    destruct (make_block_item (ms1 ++ ms2)) as (out & Hout & Hr & Hc & Hwf & Hitem).
    { by apply Forall_app. }
    destruct (make_block_item [b1; b2]) as (out' & Hout' & Hr' & Hc' & Hwf' & Hitem').
    { by repeat apply Forall_cons_2. }
    exists b1, b2, out. do 3 (split; [done|]).
    rewrite Hout'. f_equal.
    rewrite sum_list_with_app in Hr, Hc. simpl in Hr', Hc'.
    apply ndarray_ext; [done|done|lia|lia|].
    intros i j Hi Hj. rewrite Hitem' by done. rewrite Hitem by lia.
    f_equal. rewrite block_item_app. cbn [block_item].
    rewrite <- Hr1, <- Hc1.
    repeat match goal with
           | |- context [(?x <? ?y)%nat] =>
               let H := fresh "H" in
               destruct (x <? y)%nat eqn:H;
               [apply Nat.ltb_lt in H | apply Nat.ltb_ge in H]
           end; try lia; try reflexivity.
    + rewrite Hitem1 by done. done.
    + rewrite Hitem2 by lia. done.
Qed.

(** X12.  The block-diagonal matrix of symmetric matrices is symmetric. *)
Theorem make_block_keeps_symmetry ms :
  Forall well_shaped ms -> Forall symmetric ms ->
  exists out, make_block ms = Ret out /\ symmetric out.
Proof.
  intros Hms Hsym.
  destruct (make_block_item ms Hms) as (out & Hout & Hr & Hc & Hwf & Hitem).
  exists out. split; [done|].
  assert (shape0 out = shape1 out) as Hsq.
  { rewrite Hr, Hc. clear -Hsym.
    induction Hsym as [|m ms [Hsq _] _ IH]; simpl; [done | by rewrite Hsq, IH]. }
  split; [done|]. intros i j.
  destruct (decide (i < shape0 out /\ j < shape0 out)%nat) as [[Hi Hj]|Hout_of].
  - rewrite !Hitem by lia. f_equal. by apply block_item_symmetric.
  - destruct (item out i j) as [x|] eqn:Hx.
    { apply item_Some_lt in Hx; [lia | done]. }
    destruct (item out j i) as [y|] eqn:Hy; [|done].
    apply item_Some_lt in Hy; [lia | done].
Qed.

End MakeBlockMore.

(** ** The sampling loop and the exit status of [main] *)

Section RunAndMain.
Import syst_toys.
Context {world : Type}.
Variable c : collaborators world.
Variable cfg : settings.
Variable ConfigError_status : option Z.








End RunAndMain.

(** ** Merging datasets *)

Section MergersFacts.
Import mergers.

Variable world : Type.
Variable observables : world -> nat -> outcome (list string).
Variable RooDataSet_init : object -> object -> nat -> ST world nat.
Variable append : nat -> object -> ST world unit.
Variable destruct_object : object -> ST world unit.

Local Abbreviation merge_root :=
  (mergers.merge_root world observables RooDataSet_init append destruct_object).
Local Abbreviation merge :=
  (mergers.merge world observables RooDataSet_init append destruct_object).

Lemma remove_dups_all_equal {A} `{EqDecision A} (l : list A) x :
  l <> [] -> (forall y, y ∈ l -> y = x) -> remove_dups l = [x].
Proof.
  induction l as [|y l IH]; intros Hne Hall; [done|].
  assert (y = x) as -> by (apply Hall; left).
  cbn [remove_dups]. destruct l as [|z l].
  - case_decide as Hin; [by apply elem_of_nil in Hin | done].
  - assert (z = x) as -> by (apply Hall; right; left).
    case_decide as Hin; [|exfalso; apply Hin; left].
    apply IH; [done|]. intros y Hy. apply Hall. by right.
Qed.

Lemma remove_dups_two {A} `{EqDecision A} (l : list A) a b :
  a ∈ l -> b ∈ l -> a <> b -> length (remove_dups l) <> 1%nat.
Proof.
  intros Ha Hb Hab Hlen.
  apply elem_of_remove_dups in Ha, Hb.
  destruct (remove_dups l) as [|x [|y rest]]; simpl in Hlen; try done.
  apply list_elem_of_singleton in Ha, Hb. congruence.
Qed.

Lemma merge_of_one_type data_list kwargs x w :
  data_list <> [] -> (forall d, d ∈ data_list -> type d = x) ->
  exists first rest,
    data_list = first :: rest /\ type first = x
    /\ merge data_list kwargs w
       = (if is_TObject first then
            if negb (Dict.mem "name" kwargs) then raise KeyError
            else
              bind (lift (getitem (VDict kwargs) "name"))
                (fun name =>
                   merge_root (Py name) (Py (get_default kwargs "title" name))
                     (PyList data_list) true)
          else if is_pandas first then ret (Py VNone)
          else raise AttributeError) w.
Proof.
  intros Hne Hall. destruct data_list as [|first rest]; [done|].
  exists first, rest. split; [done|]. split; [apply Hall; left|].
  unfold mergers.merge.
  rewrite (remove_dups_all_equal (type <$> first :: rest) x).
  - reflexivity.
  - done.
  - intros y Hy. apply list_elem_of_fmap in Hy as (d & -> & Hd). by apply Hall.
Qed.

(** X15.  [merge] looks at the types first.  An empty list, or a list with
    objects of two types, is refused with [ValueError].  A list of frames is
    handed to [merge_pandas], which returns [None].  A list of ROOT datasets
    needs a [name], for want of which [KeyError] is raised; given no [title],
    the datasets are merged under the name as title.  Values of any one
    other type end in [AttributeError].  Of these cases only the merging of
    ROOT datasets touches anything. *)
Theorem merge_looks_at_the_types_first :
  (forall kwargs w, merge [] kwargs w = (Raise ValueError, w))
  /\ (forall data_list a b kwargs w,
        a ∈ data_list -> b ∈ data_list -> type a <> type b ->
        merge data_list kwargs w = (Raise ValueError, w))
  /\ (forall frames kwargs w,
        frames <> [] ->
        merge (DataFrame <$> frames) kwargs w = (Ret (Py VNone), w))
  /\ (forall hs kwargs w,
        hs <> [] -> Dict.get "name" kwargs = None ->
        merge (RooDataSet <$> hs) kwargs w = (Raise KeyError, w))
  /\ (forall hs kwargs name w,
        hs <> [] -> Dict.get "name" kwargs = Some name -> Dict.get "title" kwargs = None ->
        merge (RooDataSet <$> hs) kwargs w
        = merge_root (Py name) (Py name) (PyList (RooDataSet <$> hs)) true w)
  /\ (forall values kwargs w x,
        values <> [] -> (forall v, v ∈ values -> type (Py v) = x) ->
        merge (Py <$> values) kwargs w = (Raise AttributeError, w)).
Proof.
  split; [done|]. split; [|split; [|split; [|split]]].
  - intros data_list a b kwargs w Ha Hb Hab. unfold mergers.merge.
    rewrite (proj2 (Nat.eqb_neq _ _)); [done|].
    apply (remove_dups_two _ (type a) (type b)); [| |done];
      apply list_elem_of_fmap; eauto.
  - intros frames kwargs w Hne.
    destruct (merge_of_one_type (DataFrame <$> frames) kwargs TDataFrame w)
      as (first & rest & Hfirst & _ & ->).
    + by destruct frames.
    + intros d Hd. by apply list_elem_of_fmap in Hd as (f & -> & _).
    + destruct frames; [done|]. by injection Hfirst as <- _.
  - intros hs kwargs w Hne Hname.
    destruct (merge_of_one_type (RooDataSet <$> hs) kwargs TRooDataSet w)
      as (first & rest & Hfirst & _ & ->).
    + by destruct hs.
    + intros d Hd. by apply list_elem_of_fmap in Hd as (f & -> & _).
    + destruct hs; [done|]. injection Hfirst as <- _. simpl.
      unfold Dict.mem. by rewrite Hname.
  - intros hs kwargs name w Hne Hname Htitle.
    destruct (merge_of_one_type (RooDataSet <$> hs) kwargs TRooDataSet w)
      as (first & rest & Hfirst & _ & ->).
    + by destruct hs.
    + intros d Hd. by apply list_elem_of_fmap in Hd as (f & -> & _).
    + destruct hs; [done|]. injection Hfirst as <- _. simpl.
      unfold Dict.mem, bind, lift, get_default. simpl. rewrite Hname, Htitle. done.
  - intros values kwargs w x Hne Hall.
    destruct (merge_of_one_type (Py <$> values) kwargs x w)
      as (first & rest & Hfirst & _ & ->).
    + by destruct values.
    + intros d Hd. apply list_elem_of_fmap in Hd as (v & -> & Hv). by apply Hall.
    + destruct values; [done|]. by injection Hfirst as <- _.
Qed.

Lemma forM_differ variables names w hs :
  (forall h, h ∈ hs -> observables w h = Ret (names h)) ->
  forM world
    (fun dataset =>
       bind (get world dataset)
         (fun argset =>
            bind (variable_names world observables argset)
              (fun found => ret (bool_decide (found <> variables)))))
    (RooDataSet <$> hs) w
  = (Ret ((fun h => bool_decide (list_to_set (names h) <> variables)) <$> hs), w).
Proof.
  induction hs as [|h hs IH]; intros Hread; [done|].
  rewrite !fmap_cons. cbn [forM]. unfold bind at 1. unfold bind at 1.
  unfold get at 1, ret at 1. unfold bind at 1. unfold variable_names at 1.
  rewrite (Hread h) by left. cbn [obind]. unfold ret at 1.
  unfold bind at 1. rewrite IH; [done|]. intros h' Hh'. apply Hread. by right.
Qed.

(** X16.  [merge_root] compares the observables of every dataset with those
    of the first, as sets of names, before it builds anything: if one
    dataset differs, [ValueError] is raised and no dataset has been created,
    appended to or destroyed; if none does, whatever the order and the
    repetitions of the names, the output is created from the observables of
    the first dataset and the loop over the datasets is run. *)
Theorem merge_root_checks_the_observables name title h0 hs destruct_data w names :
  (forall h, h ∈ h0 :: hs -> observables w h = Ret (names h)) ->
  (Exists (fun h => list_to_set (names h) <> (list_to_set (names h0) : gset string)) hs ->
   merge_root name title (PyList (RooDataSet <$> h0 :: hs)) destruct_data w
   = (Raise ValueError, w))
  /\ (Forall (fun h => list_to_set (names h) = (list_to_set (names h0) : gset string)) hs ->
      merge_root name title (PyList (RooDataSet <$> h0 :: hs)) destruct_data w
      = (output_ds <- RooDataSet_init name title h0 ;;
         merge_loop world append destruct_object output_ds
           (RooDataSet <$> h0 :: hs) destruct_data ;;
         ret (RooDataSet output_ds)) w).
Proof.
  intros Hread.
  assert (forall b,
            existsb id ((fun h => bool_decide (list_to_set (names h)
                                               <> (list_to_set (names h0) : gset string)))
                          <$> h0 :: hs) = b ->
            merge_root name title (PyList (RooDataSet <$> h0 :: hs)) destruct_data w
            = if b then (Raise ValueError, w)
              else (output_ds <- RooDataSet_init name title h0 ;;
                    merge_loop world append destruct_object output_ds
                      (RooDataSet <$> h0 :: hs) destruct_data ;;
                    ret (RooDataSet output_ds)) w) as Hb.
  { intros b Hb. unfold mergers.merge_root.
    rewrite fmap_cons. cbn [index0 elements lift]. unfold bind at 1. unfold lift at 1.
    unfold bind at 1. unfold get at 1, ret at 1.
    unfold bind at 1. unfold variable_names at 1. rewrite (Hread h0) by left.
    cbn [obind]. unfold bind at 1. unfold lift at 1. unfold bind at 1.
    rewrite <- fmap_cons.
    rewrite (forM_differ (list_to_set (names h0)) names w (h0 :: hs) Hread).
    rewrite Hb. destruct b; [done|].
    rewrite fmap_cons. reflexivity. }
  split.
  - intros Hex. apply (Hb true).
    rewrite fmap_cons. cbn [existsb]. apply orb_true_iff. right.
    apply existsb_exists. apply Exists_exists in Hex as (h & Hh & Hne).
    exists true. split; [|done].
    apply list_elem_of_In, list_elem_of_fmap. exists h.
    split; [|done]. by rewrite bool_decide_eq_true_2.
  - intros Hall. apply (Hb false).
    apply not_true_iff_false. intros Hex.
    apply existsb_exists in Hex as (b & Hin & Hb').
    apply list_elem_of_In, list_elem_of_fmap in Hin as (h & -> & Hh).
    unfold id in Hb'. apply bool_decide_eq_true_1 in Hb'. apply Hb'.
    apply elem_of_cons in Hh as [->|Hh]; [done|].
    rewrite Forall_forall in Hall. by apply Hall.
Qed.

(** X17.  Handed a string where the list of datasets belongs, [merge_root]
    asks the first character for its observables and raises
    [AttributeError] ([IndexError] for the empty string), before anything is
    built.  [get_dataset] returns through such a call: its list of datasets
    goes in as the name and ['GenData'] as the list, so that its last
    statement raises [AttributeError] whatever was generated. *)
Theorem merge_root_of_a_string :
  (forall name title (s : string) destruct_data w,
     merge_root name title (Py (VStr s)) destruct_data w
     = (Raise (if String.eqb s "" then IndexError else AttributeError), w))
  /\ (forall datasets_to_merge w,
        Systematic.get_dataset_return world observables RooDataSet_init append
          destruct_object datasets_to_merge w
        = (Raise AttributeError, w)).
Proof.
  split; [|done].
  intros name title s destruct_data w. by destruct s.
Qed.

End MergersFacts.

(** ** The registry of systematics and the input values *)

Section RegistryFacts.
Import registry.

Variable issubclass : string -> string -> bool.

(** X18.  An instance of [Systematic] that is registered under a name is what
    [get_systematic] returns for a configuration of that type; the number
    returned is the number of names registered, one more than before for a
    new name and the same for a name registered before, whose entry is
    replaced; what is registered under other names stays. *)
Theorem registered_systematic_is_found name syst_class TOY_SYSTEMATICS :
  isinstance issubclass syst_class "Systematic" = true ->
  exists registered,
    register_systematic issubclass name syst_class TOY_SYSTEMATICS
    = (Ret (size registered), registered)
    /\ size registered
       = match TOY_SYSTEMATICS !! name with
         | Some _ => size TOY_SYSTEMATICS
         | None => S (size TOY_SYSTEMATICS)
         end
    /\ (forall syst_config,
          getitem syst_config "type" = Ret (VStr name) ->
          get_systematic syst_config registered = (Ret syst_class, registered))
    /\ (forall syst_config other,
          getitem syst_config "type" = Ret (VStr other) -> other <> name ->
          (get_systematic syst_config registered).1
          = (get_systematic syst_config TOY_SYSTEMATICS).1).
Proof.
  intros Hinst. exists (<[name := syst_class]> TOY_SYSTEMATICS).
  unfold register_systematic. rewrite Hinst. simpl.
  split; [done|]. split; [|split].
  - destruct (TOY_SYSTEMATICS !! name) as [old|] eqn:Hold.
    + rewrite <- (insert_delete_id TOY_SYSTEMATICS name old Hold) at 2.
      rewrite <- insert_delete_eq.
      rewrite !map_size_insert_None by apply lookup_delete_eq. done.
    + by rewrite map_size_insert_None.
  - intros syst_config Htype. unfold get_systematic, bind, lift. rewrite Htype.
    by rewrite lookup_insert_eq.
  - intros syst_config other Htype Hne. unfold get_systematic, bind, lift.
    rewrite Htype. rewrite lookup_insert_ne by done.
    by destruct (TOY_SYSTEMATICS !! other).
Qed.

(** X19.  [register_systematic] tests [isinstance], so that it takes
    instances only: offered a class, be it [Systematic] itself or one
    derived from it, it raises [ValueError] and registers nothing.  And
    [get_systematic] raises [KeyError] for a configuration without [type]
    and for a type that is not registered. *)
Theorem classes_are_not_registered :
  (forall name class_name TOY_SYSTEMATICS,
     register_systematic issubclass name (Class class_name) TOY_SYSTEMATICS
     = (Raise ValueError, TOY_SYSTEMATICS))
  /\ (forall name v TOY_SYSTEMATICS,
        register_systematic issubclass name (Plain v) TOY_SYSTEMATICS
        = (Raise ValueError, TOY_SYSTEMATICS))
  /\ (forall name class_name TOY_SYSTEMATICS,
        issubclass class_name "Systematic" = false ->
        register_systematic issubclass name (Instance class_name) TOY_SYSTEMATICS
        = (Raise ValueError, TOY_SYSTEMATICS))
  /\ (forall config TOY_SYSTEMATICS,
        Dict.get "type" config = None ->
        get_systematic (VDict config) TOY_SYSTEMATICS = (Raise KeyError, TOY_SYSTEMATICS))
  /\ (forall syst_config name TOY_SYSTEMATICS,
        getitem syst_config "type" = Ret (VStr name) ->
        TOY_SYSTEMATICS !! name = None ->
        get_systematic syst_config TOY_SYSTEMATICS = (Raise KeyError, TOY_SYSTEMATICS)).
Proof.
  split; [done|]. split; [done|]. split; [|split].
  - intros name class_name reg Hsub. unfold register_systematic. simpl. by rewrite Hsub.
  - intros config reg Htype. unfold get_systematic, bind, lift. simpl. by rewrite Htype.
  - intros syst_config name reg Htype Hname. unfold get_systematic, bind, lift.
    by rewrite Htype, Hname.
Qed.

End RegistryFacts.

Section InputValues.
Import Systematic.

Variable world : Type.
Variable get_gen_parameters : ST world (list RooRealVar).
Variable get_yield_vars : ST world (list RooRealVar).

(** X20.  [get_input_values] reads the model once.  The first call that
    returns stores what it returns: one entry for each generation parameter
    and yield variable, the one-element list of its value.  Every later call
    returns the same mapping without consulting the model, whatever has
    become of the model's parameters in between.  A call that fails stores
    nothing. *)
Theorem input_values_are_read_once w values w1 cache :
  get_input_values world get_gen_parameters get_yield_vars (w, None)
  = (Ret values, (w1, cache)) ->
  cache = Some values
  /\ (exists gen_parameters yield_vars w',
        get_gen_parameters w = (Ret gen_parameters, w')
        /\ get_yield_vars w' = (Ret yield_vars, w1)
        /\ values = Dict.of_pairs
                      ((fun var => (GetName var, VList [VFloat (getVal var)]))
                         <$> (gen_parameters ++ yield_vars)%list))
  /\ (forall w2,
        get_input_values world get_gen_parameters get_yield_vars (w2, cache)
        = (Ret values, (w2, cache)))
  /\ (forall w0 o w3 cache',
        get_input_values world get_gen_parameters get_yield_vars (w0, None)
        = (o, (w3, cache')) ->
        is_ret o = false -> cache' = None).
Proof.
  unfold get_input_values. intros H.
  destruct (get_gen_parameters w) as [[gen| |] w'] eqn:Hgen; try done.
  destruct (get_yield_vars w') as [[ylds| |] w''] eqn:Hyield; try done.
  injection H as <- <- <-.
  split; [done|]. split; [by exists gen, ylds, w'|]. split; [done|].
  intros w0 o w3 cache' H Ho.
  destruct (get_gen_parameters w0) as [[gen0| |] w0'].
  - destruct (get_yield_vars w0') as [[ylds0| |] w0'']; injection H as <- _ <-; done.
  - by injection H as _ _ <-.
  - by injection H as _ _ <-.
Qed.

End InputValues.

(** ** Loading the results of fixed parameters *)

Section FixedParamsFacts.
Import result FixedParamsSyst.

Variable get_fit_result_path : string -> string.

Lemma get_covariance_matrix_not_ret arg args s :
  is_ret (get_covariance_matrix (arg :: args) s).1 = false.
Proof.
  unfold get_covariance_matrix, ensure_initialized, bind, get_result, truthy_result.
  destruct (_result (self s)) as [l|]; [|done].
  unfold bind, deref. destruct (heap s !! l) as [d|]; [|done].
  simpl. by destruct (negb _).
Qed.

(** X21.  The loop of [FixedParamsSyst.__init__] asks each loaded result for
    its covariance matrix with the parameter names as an argument, which
    [get_covariance_matrix] does not take.  So no pass through the loop gets
    its matrix: once the file of the result is loaded and the parameter
    names are merged, the call raises [TypeError]. *)
Theorem fixed_parameters_get_no_matrix :
  (forall result_config _param_translation s,
     is_ret (load_covariance get_fit_result_path result_config _param_translation s).1
     = false)
  /\ (forall result_config _param_translation name param_names s s1,
        getitem result_config "result" = Ret (VStr name) ->
        getitem result_config "param_names" = Ret (VDict param_names) ->
        from_yaml_file get_fit_result_path name (FitResult_init s).2 = (Ret tt, s1) ->
        load_covariance get_fit_result_path result_config _param_translation s
        = (Raise TypeError, s1)).
Proof.
  split.
  - intros result_config tr s. unfold load_covariance.
    unfold bind at 1. cbn [FitResult_init]. unfold bind at 1. unfold lift at 1.
    destruct (getitem result_config "result") as [name| |]; [|done..].
    unfold bind at 1. unfold lift at 1.
    destruct (as_str name) as [name'| |]; [|done..].
    unfold bind at 1.
    destruct (from_yaml_file _ _ _) as [[[]| |] s1]; [|done..].
    unfold bind at 1. unfold lift at 1.
    destruct (getitem result_config "param_names") as [names| |]; [|done..].
    unfold bind at 1. unfold lift at 1.
    destruct (as_mapping names) as [items| |]; [|done..].
    unfold bind at 1.
    pose proof (get_covariance_matrix_not_ret
                  (VList (VStr <$> Dict.keys (Dict.update tr items))) [] s1) as Hcall.
    by destruct (get_covariance_matrix _ s1) as [[?| |] ?].
  - intros result_config tr name param_names s s1 Hname Hparams Hload.
    assert (populated s1) as Hpop.
    { apply ensure_non_initialized_Ret in Hload.
      by eapply from_yaml_file_body_Ret. }
    unfold load_covariance.
    unfold FitResult_init in Hload |- *. cbn [snd] in Hload.
    unfold bind at 1.
    unfold bind at 1. unfold lift at 1. rewrite Hname.
    unfold bind at 1. unfold lift at 1. cbn [as_str].
    unfold bind at 1. rewrite Hload.
    unfold bind at 1. unfold lift at 1. rewrite Hparams.
    unfold bind at 1. unfold lift at 1. cbn [as_mapping].
    unfold bind at 1. unfold get_covariance_matrix.
    rewrite ensure_initialized_populated by done. reflexivity.
Qed.

End FixedParamsFacts.

(** ** Instances of the further properties *)

Lemma parameters_of_an_engine_result_witness :
  result.get_fit_parameter "sigma" engine_state
  = (Ret (stored_values (parameter "sigma" 3%float)), engine_state)
  /\ result.get_const_parameter "mass" engine_state = (Raise KeyError, engine_state).
Proof.
  destruct (parameters_of_an_engine_result engine_result fresh engine_state)
    as (Hfit & _ & _ & Hconst).
  - reflexivity.
  - apply (bool_decide_unpack _). vm_compute. exact I.
  - apply (bool_decide_unpack _). vm_compute. exact I.
  - split.
    + apply (Hfit (parameter "sigma" 3%float)). by right; left.
    + apply Hconst. apply (bool_decide_unpack _). vm_compute. exact I.
Defined.

Lemma status_keeps_the_last_code_witness :
  exists b, result.has_converged engine_state = (Ret b, engine_state)
            /\ (b = true <->
                (forall label code,
                   last_code label (statusHistory engine_result) = Some code -> code = 0)
                /\ covQual engine_result = 3).
Proof.
  destruct (status_keeps_the_last_code engine_result fresh engine_state eq_refl)
    as (l & d & status & b & _ & _ & _ & _ & Hb & Hiff).
  exists b. split; [exact Hb | exact Hiff].
Defined.

Lemma from_yaml_is_all_or_nothing_witness :
  result.from_yaml 0%nat incomplete_state = (Raise KeyError, incomplete_state).
Proof.
  apply (proj1 (proj2 from_yaml_is_all_or_nothing)
           incomplete_state 0%nat (take 4 serialized_record) "status").
  - reflexivity.
  - reflexivity.
  - apply (bool_decide_unpack _). vm_compute. exact I.
  - reflexivity.
Defined.

Lemma from_yaml_file_keeps_the_flat_matrix_witness :
  exists s1 cfg cov m,
    result.from_yaml_file toy_path "nominal" file_state = (Ret tt, s1)
    /\ files file_state !! toy_path "nominal" = Some cfg
    /\ Dict.get "covariance-matrix" cfg = Some (VDict cov)
    /\ Dict.get "matrix" cov = Some m
    /\ result.get_covariance_matrix s1 = (Ret m, s1).
Proof.
  eexists.
  destruct (from_yaml_file_keeps_the_flat_matrix toy_path "nominal" file_state _ eq_refl)
    as (cfg & cov & m & Hfile & Hcov & Hm & _ & Hget & _).
  exists cfg, cov, m. split; [reflexivity|]. done.
Defined.

Lemma from_yaml_restores_an_engine_record_witness :
  exists yaml,
    result.to_yaml engine_state = (Ret (VDict yaml), engine_state)
    /\ forall s2 yaml_dict,
         _result (self s2) = None ->
         heap s2 !! yaml_dict = Some yaml ->
         exists s3,
           result.from_yaml yaml_dict s2 = (Ret tt, s3)
           /\ (result.self_result s3).1 = Ret (VDict (engine_record engine_result)).
Proof.
  destruct (from_yaml_restores_an_engine_record engine_result fresh engine_state)
    as (yaml & Hyaml & _ & Hback).
  - reflexivity.
  - apply (bool_decide_unpack _). vm_compute. exact I.
  - simpl. lia.
  - reflexivity.
  - reflexivity.
  - exists yaml. split; [exact Hyaml | exact Hback].
Defined.

Lemma flat_record_of_an_engine_result_witness :
  exists flat,
    result.to_plain_dict true engine_state = (Ret flat, engine_state)
    /\ Dict.get "mu_err_plus" flat = Some (VFloat (-0.25)%float)
    /\ Dict.get "status_minos" flat = Some (VInt (-1)).
Proof.
  destruct (flat_record_of_an_engine_result engine_result fresh engine_state)
    as (flat & Hflat & _ & Hfit & _ & _ & _ & Hminos & _).
  - reflexivity.
  - apply (bool_decide_unpack _). vm_compute. exact I.
  - exists flat. split; [exact Hflat|]. split; [|exact Hminos].
    apply (Hfit (parameter "mu" 1%float)). by left.
Defined.

Lemma emptied_dictionary_unsets_the_object_witness :
  exists s1 s2,
    result.from_yaml 0%nat caller_state = (Ret tt, s1)
    /\ caller_clear 0%nat s1 = (Ret tt, s2)
    /\ result.read central_sample result.GetEdm s2 = (Raise NotInitializedError, s2).
Proof.
  eexists.
  destruct (emptied_dictionary_unsets_the_object central_sample 0%nat caller_state _ eq_refl)
    as (s2 & Hclear & _ & Hread & _).
  exists s2. split; [reflexivity|]. split; [exact Hclear | apply Hread].
Defined.

Lemma generate_random_pars_of_an_engine_result_witness :
  result.generate_random_pars central_sample true engine_state
  = (Ret [("mu", VFloat 1%float); ("sigma", VFloat 3%float); ("n", VFloat 2%float)],
     mkState (heap engine_state) (files engine_state) 1%N (self engine_state)).
Proof.
  apply (generate_random_pars_of_an_engine_result central_sample engine_result fresh
           engine_state true [VFloat 1%float; VFloat 3%float] 1%N).
  - reflexivity.
  - apply (bool_decide_unpack _). vm_compute. exact I.
  - reflexivity.
  - reflexivity.
Defined.

Lemma cov_2x2_well_shaped : systematics.well_shaped cov_2x2.
Proof. split; [reflexivity | repeat constructor]. Qed.

Lemma cov_3x3_well_shaped : systematics.well_shaped cov_3x3.
Proof. split; [reflexivity | repeat constructor]. Qed.

Lemma cov_2x2_symmetric : symmetric cov_2x2.
Proof.
  split; [reflexivity|].
  intros [|[|i]] [|[|j]]; reflexivity.
Qed.

Lemma cov_3x3_symmetric : symmetric cov_3x3.
Proof.
  split; [reflexivity|].
  intros [|[|[|i]]] [|[|[|j]]]; reflexivity.
Qed.

Lemma make_block_of_blocks_witness :
  systematics.make_block [cov_2x2] = Ret cov_2x2.
Proof. apply (proj1 make_block_of_blocks cov_2x2 cov_2x2_well_shaped). Defined.

Lemma make_block_keeps_symmetry_witness :
  exists out, systematics.make_block [cov_2x2; cov_3x3] = Ret out /\ symmetric out.
Proof.
  apply (make_block_keeps_symmetry [cov_2x2; cov_3x3]).
  - repeat apply Forall_cons_2; [exact cov_2x2_well_shaped | exact cov_3x3_well_shaped
                                 | apply Forall_nil_2].
  - repeat apply Forall_cons_2; [exact cov_2x2_symmetric | exact cov_3x3_symmetric
                                 | apply Forall_nil_2].
Defined.


Lemma merge_looks_at_the_types_first_witness :
  mergers.merge nat toy_observables toy_RooDataSet_init toy_append toy_destruct_object
    [mergers.RooDataSet 0; mergers.DataFrame []] [("name", VStr "merged")] 0%nat
  = (Raise ValueError, 0%nat).
Proof.
  apply (proj1 (proj2 (merge_looks_at_the_types_first nat toy_observables
                         toy_RooDataSet_init toy_append toy_destruct_object))
           _ (mergers.RooDataSet 0) (mergers.DataFrame [])).
  - by left.
  - by right; left.
  - done.
Defined.

Lemma merge_root_checks_the_observables_witness :
  mergers.merge_root nat toy_observables toy_RooDataSet_init toy_append toy_destruct_object
    (mergers.Py (VStr "merged")) (mergers.Py (VStr "merged"))
    (mergers.PyList (mergers.RooDataSet <$> [0; 1; 2]%nat)) true 0%nat
  = (Raise ValueError, 0%nat).
Proof.
  apply (proj1 (merge_root_checks_the_observables nat toy_observables toy_RooDataSet_init
                  toy_append toy_destruct_object _ _ 0%nat [1; 2]%nat true 0%nat
                  toy_names (fun h _ => eq_refl))).
  apply Exists_cons_tl, Exists_cons_hd.
  apply (bool_decide_unpack _). vm_compute. exact I.
Defined.

Lemma registered_systematic_is_found_witness :
  exists registered,
    registry.register_systematic toy_issubclass "fixed" (registry.Instance "FixedParamsSyst") ∅
    = (Ret 1%nat, registered)
    /\ registry.get_systematic (VDict [("type", VStr "fixed")]) registered
       = (Ret (registry.Instance "FixedParamsSyst"), registered).
Proof.
  destruct (registered_systematic_is_found toy_issubclass "fixed"
              (registry.Instance "FixedParamsSyst") ∅ eq_refl)
    as (registered & Hreg & Hsize & Hget & _).
  exists registered. split; [by rewrite Hreg, Hsize | by apply Hget].
Defined.

Lemma classes_are_not_registered_witness :
  registry.register_systematic toy_issubclass "fixed" (registry.Class "FixedParamsSyst") ∅
  = (Raise ValueError, ∅)
  /\ registry.get_systematic (VDict [("kind", VStr "fixed")]) ∅ = (Raise KeyError, ∅).
Proof.
  split.
  - apply (proj1 (classes_are_not_registered toy_issubclass)).
  - by apply (proj1 (proj2 (proj2 (proj2 (classes_are_not_registered toy_issubclass))))).
Defined.

Lemma input_values_are_read_once_witness :
  Systematic.get_input_values nat toy_gen_parameters toy_yield_vars
    (7%nat, Some [("mu", VList [VFloat 1%float]); ("N", VList [VFloat 100%float])])
  = (Ret [("mu", VList [VFloat 1%float]); ("N", VList [VFloat 100%float])],
     (7%nat, Some [("mu", VList [VFloat 1%float]); ("N", VList [VFloat 100%float])])).
Proof.
  destruct (input_values_are_read_once nat toy_gen_parameters toy_yield_vars 0%nat
              [("mu", VList [VFloat 1%float]); ("N", VList [VFloat 100%float])]
              2%nat (Some [("mu", VList [VFloat 1%float]); ("N", VList [VFloat 100%float])])
              eq_refl)
    as (_ & _ & Hlater & _).
  exact (Hlater 7%nat).
Defined.

Lemma fixed_parameters_get_no_matrix_witness :
  exists s1,
    result.from_yaml_file toy_path "nominal" file_state = (Ret tt, s1)
    /\ FixedParamsSyst.load_covariance toy_path toy_result_config [] file_state
       = (Raise TypeError, s1).
Proof.
  eexists. split; [reflexivity|].
  by apply (proj2 (fixed_parameters_get_no_matrix toy_path)
              toy_result_config [] "nominal" [("mu", VStr "mean")] file_state).
Defined.

Lemma reads_change_nothing_witness :
  (result.read central_sample result.HasConverged engine_state).2 = engine_state.
Proof.
  destruct (reads_change_nothing central_sample result.HasConverged engine_state _ _
              (surjective_pairing _)) as (_ & _ & _ & Hsame).
  by apply Hsame.
Defined.

Lemma from_yaml_file_fails_without_effect_witness :
  result.from_yaml_file toy_path "missing" file_state = (Raise OSError, file_state).
Proof.
  by apply (proj1 (proj2 (from_yaml_file_fails_without_effect toy_path))).
Defined.

